(** * cfp: data assembly and callback orchestration

  A shallow embedding of [cfp/data/data.py] and [cfp/training/callbacks.py].
  Python exceptions are values of [exn] carried by [result]; the caller's
  [AnnData] object, which the assemblers coerce in place, is threaded
  explicitly through every function that touches it. *)

From Stdlib Require Import List ZArith String Ascii Bool Arith Lia DecimalString.
Import ListNotations.
Local Open Scope string_scope.
Local Open Scope nat_scope.
Local Open Scope list_scope.

(** ** Exceptions and results *)

(** The exception classes raised by the embedded code.  [ValueError] carries
  the literal part of the message of the [raise] statement it comes from;
  [NameError] and [AttributeError] carry the name that failed to resolve. *)
Inductive exn : Type :=
| ValueError (msg : string)
| TypeError (msg : string)
| NameError (name : string)
| AttributeError (name : string)
| KeyError (key : string)
| IndexError (msg : string).

Inductive result (A : Type) : Type :=
| Ok (a : A)
| Raise (e : exn).
Arguments Ok {A} a.
Arguments Raise {A} e.

Definition bind {A B : Type} (r : result A) (k : A -> result B) : result B :=
match r with
| Ok a => k a
| Raise e => Raise e
end.

Declare Scope py_scope.
Delimit Scope py_scope with py.
Notation "x <- c ;; k" := (bind c (fun x => k))
(at level 100, c at next level, right associativity) : py_scope.
Notation "' p <- c ;; k" := (bind c (fun p => k))
(at level 100, p pattern, c at next level, right associativity) : py_scope.
Notation "c ;;; k" := (bind c (fun _ => k))
(at level 100, right associativity) : py_scope.
Local Open Scope py_scope.

Definition is_ok {A : Type} (r : result A) : bool :=
match r with Ok _ => true | Raise _ => false end.

(** [for x in l: body(x)] where the body may raise and threads an
  accumulator. *)
Fixpoint for_each {A S : Type} (body : S -> A -> result S) (l : list A) (s : S)
: result S :=
match l with
| [] => Ok s
| x :: rest => s' <- body s x ;; for_each body rest s'
end.

(** ** Insertion-ordered dictionaries

  Python dictionaries keep insertion order and the code relies on it
  (the primary covariate group is the first item), so they are
  association lists with unique keys. *)
Section Dict.
Context {K V : Type} (eqb : K -> K -> bool).

Fixpoint dict_get (d : list (K * V)) (k : K) : option V :=
  match d with
  | [] => None
  | (k', v) :: rest => if eqb k' k then Some v else dict_get rest k
  end.

Definition dict_mem (d : list (K * V)) (k : K) : bool :=
  match dict_get d k with Some _ => true | None => false end.

(** [d[k] = v]: replaces the value in place when [k] is present,
    appends a new item otherwise. *)
Fixpoint dict_set (d : list (K * V)) (k : K) (v : V) : list (K * V) :=
  match d with
  | [] => [(k, v)]
  | (k', v') :: rest =>
      if eqb k' k then (k', v) :: rest else (k', v') :: dict_set rest k v
  end.

(** [a | b]: the items of [a] updated with those of [b]. *)
Definition dict_union (a b : list (K * V)) : list (K * V) :=
  fold_left (fun acc kv => dict_set acc (fst kv) (snd kv)) b a.

(** A dictionary display or comprehension: later duplicates overwrite. *)
Definition dict_of_items (items : list (K * V)) : list (K * V) :=
  dict_union [] items.
End Dict.

Definition sdict (V : Type) : Type := list (string * V).
Definition sget {V : Type} (d : sdict V) (k : string) : option V :=
dict_get String.eqb d k.
Definition smem {V : Type} (d : sdict V) (k : string) : bool :=
dict_mem String.eqb d k.
Definition sset {V : Type} (d : sdict V) (k : string) (v : V) : sdict V :=
dict_set String.eqb d k v.

(** ** Scalars and arrays *)

(** The numeric runtime is external.  Array entries and numeric column
  values range over an abstract scalar type; only the operations the code
  applies to them are required.  [num_of_string] is Python's [float(s)]
  on a string, [None] when it raises. *)
Class Scalar : Type := {
num : Type;
num_eq_dec : forall x y : num, {x = y} + {x <> y};
num_zero : num;
num_one : num;
num_mul : num -> num -> num;
num_of_string : string -> option num
}.

Section Arrays.
Context {SC : Scalar}.

(** A [jax.Array] / [numpy.ndarray]: its shape and its entries in
    row-major order. *)
Record ndarray : Type := mk_ndarray {
  shape : list nat;
  data : list num
}.

Definition size_of (sh : list nat) : nat := fold_right Nat.mul 1 sh.

Definition wf_array (a : ndarray) : Prop :=
  List.length (data a) = size_of (shape a).

Definition ndim (a : ndarray) : nat := List.length (shape a).

(** [jnp.full(sh, v)] *)
Definition jnp_full (sh : list nat) (v : num) : ndarray :=
  mk_ndarray sh (repeat v (size_of sh)).

(** [jnp.ones(sh)] *)
Definition jnp_ones (sh : list nat) : ndarray := jnp_full sh num_one.

(** [a * x] for a scalar [x]. *)
Definition scale (a : ndarray) (x : num) : ndarray :=
  mk_ndarray (shape a) (map (fun y => num_mul y x) (data a)).

(** [jnp.expand_dims(a, 0)] *)
Definition jnp_expand_dims0 (a : ndarray) : ndarray :=
  mk_ndarray (1 :: shape a) (data a).

(** Entry [(i, j)] of row-major data with [c] columns, as a list of
    length at most one. *)
Definition entry (c : nat) (d : list num) (i j : nat) : list num :=
  firstn 1 (skipn (i * c + j) d).

(** [jnp.transpose] of a rank-2 array of shape [(r, c)]. *)
Definition transpose2 (r c : nat) (d : list num) : list num :=
  flat_map (fun j => flat_map (fun i => entry c d i j) (seq 0 r)) (seq 0 c).

(** [jnp.concatenate([a, b], axis=0)] on rank-2 arrays. *)
Definition concat_rows (a b : ndarray) : result ndarray :=
  match shape a, shape b with
  | [ra; ca], [rb; cb] =>
      if ca =? cb then Ok (mk_ndarray [ra + rb; ca] (data a ++ data b))
      else Raise (TypeError "Cannot concatenate arrays with different shapes.")
  | _, _ =>
      Raise (TypeError "Cannot concatenate arrays with different numbers of dimensions.")
  end.

(** The argument of [_check_shape]: a Python [float], which has no
    [shape] attribute, or an array. *)
Inductive array_like : Type :=
| PyFloat (x : num)
| Array (a : ndarray).
End Arrays.


Section MoreArrays.
Context {SC : Scalar}.

Definition shape_eqb (s1 s2 : list nat) : bool :=
  if list_eq_dec Nat.eq_dec s1 s2 then true else false.

(** [jnp.concatenate(l, axis=0)] on a list of rank-2 arrays. *)
Definition jnp_concatenate (l : list ndarray) : result ndarray :=
  match l with
  | [] => Raise (ValueError "Need at least one array to concatenate.")
  | a :: rest => for_each concat_rows rest a
  end.

(** [jnp.tile(a, (n, 1))] on a rank-2 array. *)
Definition jnp_tile_rows (a : ndarray) (n : Z) : result ndarray :=
  match shape a with
  | [r; c] =>
      if (n <? 0)%Z then Raise (ValueError "negative dimensions are not allowed")
      else Ok (mk_ndarray [Z.to_nat n * r; c]
                          (List.concat (repeat (data a) (Z.to_nat n))))
  | _ => Raise (ValueError "tile: expected a rank-2 array")
  end.

(** [jnp.array(l)] on a list of arrays: stacks equally shaped arrays
    along a new leading axis. *)
Definition jnp_array (l : list ndarray) : result ndarray :=
  match l with
  | [] => Ok (mk_ndarray [0] [])
  | a :: rest =>
      if forallb (fun b => shape_eqb (shape b) (shape a)) rest
      then Ok (mk_ndarray (List.length l :: shape a) (flat_map data l))
      else Raise (ValueError "All input arrays must have the same shape.")
  end.
End MoreArrays.

(** ** The annotated dataset *)

Inductive dtype : Type :=
| DBool        (* numpy bool *)
| DBoolean     (* pandas nullable BooleanDtype *)
| DInt
| DFloat
| DObject
| DCategory.

Section Dataset.
Context {SC : Scalar}.

(** One cell of a metadata column.  [VNA] is a missing value
    ([NaN], [None], [pd.NA]). *)
Inductive value : Type :=
| VNA
| VBool (b : bool)
| VNum (x : num)
| VStr (s : string).

Definition value_eq_dec (v w : value) : {v = w} + {v <> w}.
Proof.
  decide equality.
  - apply Bool.bool_dec.
  - apply num_eq_dec.
  - apply String.string_dec.
Defined.

(** Label identity as used by [drop_duplicates] and by dictionary
    lookup: missing values are duplicates of each other. *)
Definition value_same (v w : value) : bool :=
  if value_eq_dec v w then true else false.

(** The elementwise [==] of pandas: a missing value equals nothing,
    not even itself. *)
Definition value_eqb (v w : value) : bool :=
  match v, w with
  | VNA, _ | _, VNA => false
  | _, _ => value_same v w
  end.

Definition row : Type := list value.

Definition row_eq_dec (r1 r2 : row) : {r1 = r2} + {r1 <> r2} :=
  list_eq_dec value_eq_dec r1 r2.

(** [(frame == list(r)).all(axis=1)] on one row of the frame. *)
Fixpoint row_eqb (r1 r2 : row) : bool :=
  match r1, r2 with
  | [], [] => true
  | v :: r1', w :: r2' => value_eqb v w && row_eqb r1' r2'
  | _, _ => false
  end.

Record Column : Type := mk_Column {
  col_dtype : dtype;
  col_values : list value
}.

(** An entry of [adata.uns]: a dictionary from covariate value to its
    representation, or anything else. *)
Inductive uns_entry : Type :=
| UnsDict (d : list (value * ndarray))
| UnsOther.

(** [anndata.AnnData].  [attrs] holds the mapping-valued attributes
    that [getattr(adata, attr)[key]] can reach ([obsm], [layers], ...). *)
Record AnnData : Type := mk_AnnData {
  X : ndarray;
  X_is_csr : bool;
  obs : sdict Column;
  uns : sdict uns_entry;
  attrs : sdict (sdict ndarray);
  n_obs : nat
}.

Definition obsm (adata : AnnData) : sdict ndarray :=
  match sget (attrs adata) "obsm" with Some d => d | None => [] end.

Definition set_obs (adata : AnnData) (o : sdict Column) : AnnData :=
  mk_AnnData (X adata) (X_is_csr adata) o (uns adata) (attrs adata)
             (n_obs adata).

(** [adata.obs[key] = col] *)
Definition set_column (adata : AnnData) (key : string) (col : Column)
  : AnnData :=
  set_obs adata (sset (obs adata) key col).

(** Every metadata column has one entry per cell. *)
Definition wf_adata (adata : AnnData) : Prop :=
  forall k c, In (k, c) (obs adata) ->
              List.length (col_values c) = n_obs adata.

(** *** pandas operations on columns *)

(** A value pandas accepts in a conversion to the nullable boolean
    dtype, with the boolean it becomes. *)
Definition bool_like (v : value) : option value :=
  match v with
  | VNA => Some VNA
  | VBool b => Some (VBool b)
  | VNum x =>
      if num_eq_dec x num_zero then Some (VBool false)
      else if num_eq_dec x num_one then Some (VBool true)
      else None
  | VStr _ => None
  end.

Fixpoint traverse {A B : Type} (f : A -> option B) (l : list A)
  : option (list B) :=
  match l with
  | [] => Some []
  | x :: rest =>
      match f x, traverse f rest with
      | Some y, Some ys => Some (y :: ys)
      | _, _ => None
      end
  end.

(** [col.astype("boolean")]; [None] when the conversion raises. *)
Definition astype_boolean (c : Column) : option Column :=
  option_map (mk_Column DBoolean) (traverse bool_like (col_values c)).

(** [float(v)] on one cell. *)
Definition float_like (v : value) : option value :=
  match v with
  | VNA => Some VNA
  | VBool b => Some (VNum (if b then num_one else num_zero))
  | VNum x => Some (VNum x)
  | VStr s => option_map VNum (num_of_string s)
  end.

(** [col.astype(float)]; [None] when the conversion raises
    [ValueError]. *)
Definition astype_float (c : Column) : option Column :=
  option_map (mk_Column DFloat) (traverse float_like (col_values c)).

(** [col.astype("category")] keeps the values and changes the dtype. *)
Definition astype_category (c : Column) : Column :=
  mk_Column DCategory (col_values c).

(** [col.sum()] on a boolean column: the number of true cells. *)
Definition count_true (c : Column) : nat :=
  List.length (filter (fun v => value_same v (VBool true)) (col_values c)).

(** [frame.drop_duplicates()]: the first occurrence of every row, in
    order of appearance. *)
Fixpoint drop_duplicates_from (seen : list row) (rows : list row)
  : list row :=
  match rows with
  | [] => []
  | r :: rest =>
      if in_dec row_eq_dec r seen then drop_duplicates_from seen rest
      else r :: drop_duplicates_from (r :: seen) rest
  end.

Definition drop_duplicates (rows : list row) : list row :=
  drop_duplicates_from [] rows.

(** [adata.obs[keys]] as a list of columns; a missing label raises
    [KeyError]. *)
Fixpoint get_columns (o : sdict Column) (keys : list string)
  : result (list (list value)) :=
  match keys with
  | [] => Ok []
  | k :: rest =>
      match sget o k with
      | None => Raise (KeyError k)
      | Some c => cs <- get_columns o rest ;; Ok (col_values c :: cs)
      end
  end.

(** The rows of a frame given by its columns, one per cell. *)
Definition rows_of (n : nat) (cols : list (list value)) : list row :=
  map (fun i => map (fun c => nth i c VNA) cols) (seq 0 n).

(** [adata.obs[keys]] row by row. *)
Definition frame_rows (adata : AnnData) (keys : list string)
  : result (list row) :=
  cols <- get_columns (obs adata) keys ;; Ok (rows_of (n_obs adata) cols).

(** [arr[mask] = v] on an integer vector. *)
Fixpoint mask_assign (arr : list Z) (mask : list bool) (v : Z) : list Z :=
  match arr, mask with
  | a :: arr', b :: mask' => (if b then v else a) :: mask_assign arr' mask' v
  | _, _ => arr
  end.

(** [mask.sum()] *)
Definition mask_sum (mask : list bool) : nat :=
  List.length (filter (fun b => b) mask).

(** *** The interpreter state an assembler call runs in: the caller's
    dataset object and the warnings issued so far. *)
Record world : Type := mk_world {
  the_adata : AnnData;
  warnings_log : list string
}.

Definition M (A : Type) : Type := world -> world * result A.

Definition ret {A : Type} (a : A) : M A := fun w => (w, Ok a).

Definition raise {A : Type} (e : exn) : M A := fun w => (w, Raise e).

Definition mbind {A B : Type} (m : M A) (k : A -> M B) : M B :=
  fun w =>
    match m w with
    | (w', Ok a) => k a w'
    | (w', Raise e) => (w', Raise e)
    end.

Definition lift {A : Type} (r : result A) : M A := fun w => (w, r).

Definition get_adata : M AnnData := fun w => (w, Ok (the_adata w)).

Definition put_adata (adata : AnnData) : M unit :=
  fun w => (mk_world adata (warnings_log w), Ok tt).

(** [warnings.warn(msg)] *)
Definition warn (msg : string) : M unit :=
  fun w => (mk_world (the_adata w) (warnings_log w ++ [msg]), Ok tt).

(** [for x in l: body(x)] in the stateful monad, threading the local
    variables [s] of the loop. *)
Fixpoint mfor {A S : Type} (body : S -> A -> M S) (l : list A) (s : S)
  : M S :=
  match l with
  | [] => ret s
  | x :: rest => mbind (body s x) (fun s' => mfor body rest s')
  end.
End Dataset.

Notation "x <~ c ;; k" := (mbind c (fun x => k))
(at level 100, c at next level, right associativity) : py_scope.
Notation "c ;;~ k" := (mbind c (fun _ => k))
(at level 100, right associativity) : py_scope.

(** ** Dynamically typed arguments *)

(** The Python values a configuration argument annotated [Any] may hold. *)
#[local] Set Warnings "-register-all".
Inductive pyval : Type :=
| PNone
| PBool (b : bool)
| PInt (z : Z)
| PStr (s : string)
| PTuple (l : list pyval)
| PList (l : list pyval)
| PDict (items : list (pyval * pyval)).
#[local] Set Warnings "register-all".

(** [cfp.data.utils._to_list] is imported from a module outside the
  embedded sources; it is taken to return the elements of a list or a
  tuple and to wrap anything else in a one-element list. *)
Definition _to_list (v : pyval) : list pyval :=
match v with
| PList l | PTuple l => l
| _ => [v]
end.

(** [cfp.data.utils._flatten_list], likewise outside the embedded
  sources: the concatenation of a sequence of lists. *)
Definition _flatten_list {A : Type} (l : list (list A)) : list A :=
List.concat l.

(** [hash(v)] succeeds: lists and dictionaries are unhashable, and so is
  a tuple that holds one. *)
Fixpoint hashable (v : pyval) : bool :=
  match v with
  | PList _ | PDict _ => false
  | PTuple l => forallb hashable l
  | _ => true
  end.

(** The covariate a verified entry names: a column label or the [None]
  placeholder. *)
Definition as_label (v : pyval) : option string :=
match v with
| PStr s => Some s
| _ => None
end.

Definition label_eqb (a b : option string) : bool :=
match a, b with
| Some x, Some y => String.eqb x y
| None, None => true
| _, _ => false
end.

(** Name resolution in a function body: the local names, then the names
  bound at module level in [data.py]. *)
Definition module_globals : list string :=
["abc"; "warnings"; "itertools"; "Callable"; "Sequence"; "dataclass";
 "Any"; "Literal"; "anndata"; "jax"; "jnp"; "np"; "pd"; "sp";
 "preprocessing"; "tqdm"; "CONTROL_HELPER"; "ArrayLike"; "_to_list";
 "_flatten_list"; "__all__"; "BaseData"; "PerturbationData";
 "TrainingData"; "ValidationData"].

Definition resolve_name (locals : list string) (name : string) : result unit :=
if existsb (String.eqb name) (locals ++ module_globals) then Ok tt
else Raise (NameError name).

(** The attributes a lookup [cls.name] finds on [ValidationData] or
  [TrainingData]: the fields of the dataclass [BaseData] and the
  methods defined by [BaseData], [PerturbationData] and the two
  container classes. *)
Definition class_namespace : list string :=
["cell_data"; "src_data"; "tgt_data"; "condition_data";
 "split_covariates_mask"; "split_idx_to_covariates";
 "perturbation_covariates_mask"; "perturbation_idx_to_covariates";
 "control_to_perturbation"; "max_combination_length"; "null_value";
 "null_token"; "load_from_adata";
 "_get_cell_data"; "_verify_control_data";
 "_verify_perturbation_covariates"; "_verify_sample_covariates";
 "_verify_split_covariates"; "_verify_covariate_data";
 "_get_linked_covariates"; "_verify_linked_covars";
 "_verify_covariate_reps"; "_get_max_combination_length";
 "_get_primary_covar_encoder"; "_check_covariate_type"; "_check_shape";
 "_get_idx_to_covariate"; "_pad_to_max_length";
 "_get_perturbation_covariates";
 "n_controls"; "n_perturbations"; "n_perturbation_covariates";
 "_format_params"].

Definition getattr_cls (name : string) : result unit :=
if existsb (String.eqb name) class_namespace then Ok tt
else Raise (AttributeError name).

(** ** [class PerturbationData(BaseData)] *)

(** The [sample_rep] argument of the factories. *)
Inductive sample_rep_arg : Type :=
| SRStr (s : string)
| SRDict (items : list (string * string))
| SROther.

(** What [_get_primary_covar_encoder] hands back: [None], a bare
  encoder, or the pair of an encoder and the categorical flag. *)
Inductive encoder_result (E : Type) : Type :=
| RNone
| REncoder (enc : E)
| RPair (enc : E) (is_categorical : bool).
Arguments RNone {E}.
Arguments REncoder {E} enc.
Arguments RPair {E} enc is_categorical.

Module PerturbationData.
Section Methods.
Context {SC : Scalar}.

Definition error_message : string :=
  "`sample_rep` should be either `X`, a key in `adata.obsm` or a dictionary of the form {`attr`: `key`}.".

(** [PerturbationData._get_cell_data] *)
Definition _get_cell_data (adata : AnnData) (sample_rep : sample_rep_arg)
  : result ndarray :=
  match sample_rep with
  | SRStr s =>
      if String.eqb s "X" then Ok (X adata)
      else
        match sget (obsm adata) s with
        | None => Raise (ValueError error_message)
        | Some a => Ok a
        end
  | SROther => Raise (ValueError error_message)
  | SRDict items =>
      match items with
      | [] => Raise (IndexError "list index out of range")
      | (attr, key) :: _ =>
          match sget (attrs adata) attr with
          | None => Raise (AttributeError attr)
          | Some d =>
              match sget d key with
              | None => Raise (KeyError key)
              | Some a => Ok a
              end
          end
      end
  end.

(** [key in adata.obs] for an arbitrary Python key: the key is hashed
  first, and the column labels are strings. *)
Definition in_obs (adata : AnnData) (key : pyval) : result bool :=
  if hashable key then
    Ok (match key with
        | PStr s => smem (obs adata) s
        | _ => false
        end)
  else Raise (TypeError "unhashable type").

(** [PerturbationData._verify_control_data].  The conversion of the
    control column is assigned back into [adata.obs]. *)
Definition _verify_control_data (key : pyval) : M unit :=
  adata <~ get_adata ;;
  present <~ lift (in_obs adata key) ;;
  match key, present with
  | PStr k, true =>
      match sget (obs adata) k with
      | None => raise (KeyError k)
      | Some col =>
          col' <~ match col_dtype col with
                  | DBoolean => ret col
                  | _ =>
                      match astype_boolean col with
                      | Some c =>
                          put_adata (set_column adata k c) ;;~ ret c
                      | None =>
                          raise (ValueError
                            "Control column could not be converted to boolean.")
                      end
                  end ;;
          if count_true col' =? 0
          then raise (ValueError "No control cells found in adata.")
          else ret tt
      end
  | _, _ => raise (ValueError "Control column not found in adata.obs.")
  end.

(** [PerturbationData._verify_covariate_data] *)
Definition _verify_covariate_data (adata : AnnData) (covars : list pyval)
  : result unit :=
  for_each
    (fun _ covariate =>
       match covariate with
       | PNone => Ok tt
       | _ =>
           present <- in_obs adata covariate ;;
           if present then Ok tt
           else Raise (ValueError "Covariate not found in adata.obs.")
       end)
    covars tt.

(** The local names of [_verify_perturbation_covariates] inside its
    loop. *)
Definition locals_verify_perturbation_covariates : list string :=
  ["cls"; "adata"; "data"; "key"; "covars"].

(** [PerturbationData._verify_perturbation_covariates].  The message
    of the second check formats the names [covar], which must resolve
    before the [ValueError] can be built. *)
Definition _verify_perturbation_covariates (adata : AnnData) (data : pyval)
  : result unit :=
  match data with
  | PDict items =>
      if List.length items =? 0
      then Raise (ValueError "No perturbation covariates provided.")
      else
        for_each
          (fun _ '(key, covars) =>
             match key with
             | PStr _ =>
                 match covars with
                 | PTuple l | PList l =>
                     if List.length l =? 0
                     then Raise (ValueError
                            "No covariates provided for perturbation group.")
                     else _verify_covariate_data adata l
                 | _ =>
                     resolve_name locals_verify_perturbation_covariates
                                  "covar" ;;;
                     Raise (ValueError "Value should be a tuple.")
                 end
             | _ => Raise (ValueError "Key should be a string.")
             end)
          items tt
  | _ =>
      Raise (ValueError "`perturbation_covariates` should be a dictionary.")
  end.

(** The body shared by [_verify_sample_covariates] and
    [_verify_split_covariates], which differ in the message only. *)
Definition verify_covariate_sequence (msg : string) (adata : AnnData)
    (data : pyval) : result unit :=
  match data with
  | PTuple l | PList l =>
      for_each
        (fun _ covar =>
           match covar with
           | PStr _ => _verify_covariate_data adata (_to_list covar)
           | _ => Raise (ValueError "Key should be a string.")
           end)
        l tt
  | _ => Raise (ValueError msg)
  end.

(** [PerturbationData._verify_sample_covariates] *)
Definition _verify_sample_covariates : AnnData -> pyval -> result unit :=
  verify_covariate_sequence "`sample_covariates` should be a tuple or list.".

(** [PerturbationData._verify_split_covariates] *)
Definition _verify_split_covariates : AnnData -> pyval -> result unit :=
  verify_covariate_sequence "`split_covariates` should be a tuple or list.".

(** A covariate-group mapping after verification: group name to the
    list of its covariates. *)
Definition groups : Type := sdict (list (option string)).

(** [PerturbationData._verify_linked_covars] *)
Definition _verify_linked_covars (perturb_covariates : groups)
  : result unit :=
  let lengths := map (fun kv => List.length (snd kv)) perturb_covariates in
  if List.length (nodup Nat.eq_dec lengths) =? 1 then Ok tt
  else Raise (ValueError "Length of perturbation covariate groups must match.").

(** [PerturbationData._get_linked_covariates]: for every primary
    covariate, its linked covariate in each further group. *)
Definition _get_linked_covariates (perturb_covariates : groups)
  : result (list (option string * sdict (option string))) :=
  _verify_linked_covars perturb_covariates ;;;
  match perturb_covariates with
  | [] => Raise (IndexError "list index out of range")
  | (primary_group, primary_covars) :: others =>
      let primary_to_linked :=
        dict_of_items label_eqb (map (fun k => (k, [])) primary_covars) in
      Ok (fold_left
            (fun acc '(cov_group, covars) =>
               fold_left
                 (fun acc' '(primary_cov, linked_cov) =>
                    match dict_get label_eqb acc' primary_cov with
                    | Some d =>
                        dict_set label_eqb acc' primary_cov
                                 (sset d cov_group linked_cov)
                    | None => acc'
                    end)
                 (combine primary_covars covars) acc)
            others primary_to_linked)
  end.

(** [PerturbationData._verify_covariate_reps] *)
Definition _verify_covariate_reps (adata : AnnData) (data : sdict string)
    (covariates : groups) : result unit :=
  for_each
    (fun _ '(key, value) =>
       if negb (smem covariates key)
       then Raise (ValueError "Key not found in covariates.")
       else
         match sget (uns adata) value with
         | None => Raise (ValueError "Representation not found in `adata.uns`.")
         | Some (UnsDict _) => Ok tt
         | Some UnsOther =>
             Raise (ValueError
               "Covariate representation in `adata.uns` should be of type `dict`.")
         end)
    data tt.

(** [max(xs)] on a sequence of lengths; raises on the empty one. *)
Definition py_max (xs : list Z) : result Z :=
  match xs with
  | [] => Raise (ValueError "max() arg is an empty sequence")
  | x :: rest => Ok (fold_left Z.max rest x)
  end.

Definition max_length_warning : string :=
  "Provided `max_combination_length` is smaller than the observed maximum combination length of the perturbation covariates.".

(** [PerturbationData._get_max_combination_length] *)
Definition _get_max_combination_length (perturbation_covariates : groups)
    (max_combination_length : option Z) : M Z :=
  obs_max_combination_length <~
    lift (py_max (map (fun kv => Z.of_nat (List.length (snd kv)))
                      perturbation_covariates)) ;;
  match max_combination_length with
  | None => ret obs_max_combination_length
  | Some m =>
      if (m <? obs_max_combination_length)%Z then
        warn max_length_warning ;;~ ret obs_max_combination_length
      else ret m
  end.

(** [PerturbationData._check_covariate_type].  Each coerced column is
    assigned back into [adata.obs].  In this embedding the conversion
    to the category dtype cannot raise, so the inner handler is not
    represented. *)
Definition _check_covariate_type (covars : list (option string)) : M bool :=
  col_is_cat <~
    mfor
      (fun col_is_cat covariate =>
         adata <~ get_adata ;;
         match covariate with
         | None => raise (KeyError "None")
         | Some k =>
             match sget (obs adata) k with
             | None => raise (KeyError k)
             | Some col =>
                 match astype_float col with
                 | Some c =>
                     put_adata (set_column adata k c) ;;~
                     ret (col_is_cat ++ [false])
                 | None =>
                     put_adata (set_column adata k (astype_category col)) ;;~
                     ret (col_is_cat ++ [true])
                 end
             end
         end)
      covars [] ;;
  match col_is_cat with
  | [] => raise (ValueError "max() arg is an empty sequence")
  | _ =>
      let mx := existsb (fun b => b) col_is_cat in
      let mn := forallb (fun b => b) col_is_cat in
      if negb (Bool.eqb mx mn)
      then raise (ValueError
        "Groups of perturbation covariates should be either all numeric/boolean or all categorical.")
      else ret mx
  end.

(** A fitted [sklearn.preprocessing.OneHotEncoder] on one feature:
    its sorted distinct categories. *)
Record OneHotEncoder : Type := mk_OneHotEncoder {
  categories_ : list string
}.

Fixpoint insert_sorted (s : string) (l : list string) : list string :=
  match l with
  | [] => [s]
  | t :: rest =>
      if String.eqb s t then l
      else if String.leb s t then s :: l
      else t :: insert_sorted s rest
  end.

(** The sorted distinct elements of a list of strings. *)
Definition sort_unique (l : list string) : list string :=
  fold_right insert_sorted [] l.

(** [np.unique] on the flattened values of a frame: ordering is only
    defined when all of them are strings. *)
Definition np_unique (vs : list value) : result (list string) :=
  match traverse (fun v => match v with VStr s => Some s | _ => None end) vs with
  | Some l => Ok (sort_unique l)
  | None => Raise (TypeError "'<' not supported between instances")
  end.

(** [OneHotEncoder(sparse_output=False).fit(xs.reshape(-1, 1))] *)
Definition fit (xs : list string) : result OneHotEncoder :=
  match xs with
  | [] => Raise (ValueError "Found array with 0 sample(s)")
  | _ => Ok (mk_OneHotEncoder (sort_unique xs))
  end.

(** [encoder.transform(np.array(v).reshape(-1, 1))]: the one-hot row
    of [v]; an unknown category raises. *)
Definition transform (enc : OneHotEncoder) (v : value) : result ndarray :=
  match v with
  | VStr s =>
      if existsb (String.eqb s) (categories_ enc)
      then Ok (mk_ndarray [1; List.length (categories_ enc)]
                 (map (fun c => if String.eqb c s then num_one else num_zero)
                      (categories_ enc)))
      else Raise (ValueError "Found unknown categories")
  | _ => Raise (ValueError "Found unknown categories")
  end.

(** The column labels among a list of covariates, dropping the [None]
    placeholders. *)
Definition column_labels (covars : list (option string)) : list string :=
  flat_map (fun c => match c with Some k => [k] | None => [] end) covars.

(** [PerturbationData._get_primary_covar_encoder].  After
    [_check_covariate_type] has returned, no primary covariate is
    [None]. *)
Definition _get_primary_covar_encoder (perturbation_covariates : groups)
    (perturbation_covariate_reps : sdict string)
  : M (encoder_result OneHotEncoder) :=
  match perturbation_covariates with
  | [] => raise (IndexError "list index out of range")
  | (primary_group, primary_covars) :: _ =>
      is_categorical <~ _check_covariate_type primary_covars ;;
      if smem perturbation_covariate_reps primary_group then ret RNone
      else if is_categorical then
        adata <~ get_adata ;;
        rows <~ lift (frame_rows adata (column_labels primary_covars)) ;;
        all_values <~ lift (np_unique (List.concat rows)) ;;
        encoder <~ lift (fit all_values) ;;
        ret (REncoder encoder)
      else
        encoder <~ lift (fit (column_labels primary_covars)) ;;
        ret (RPair encoder is_categorical)
  end.

(** [PerturbationData._check_shape] *)
Definition _check_shape (arr : array_like) : result ndarray :=
  match arr with
  | PyFloat x => Ok (scale (jnp_ones [1; 1]) x)
  | Array a =>
      match shape a with
      | [] => Ok (mk_ndarray [1; 1] (map (num_mul num_one) (data a)))
      | [_] => Ok (jnp_expand_dims0 a)
      | [r; c] =>
          if r =? 1 then Ok a
          else if c =? 1 then Ok (mk_ndarray [c; r] (transpose2 r c (data a)))
          else Raise (ValueError
            "Condition representation has an unexpected shape. Should be (1, n_features) or (n_features, ).")
      | _ :: _ :: _ :: _ =>
          Raise (ValueError
            "Condition representation has too many dimensions. Should be 1 or 2.")
      end
  end.

(** [PerturbationData._get_idx_to_covariate] *)
Definition _get_idx_to_covariate {V : Type} (covariate_groups : sdict V)
  : list (nat * string) * sdict nat :=
  let idx_to_covar :=
    combine (seq 0 (List.length covariate_groups)) (map fst covariate_groups) in
  let covar_to_idx :=
    dict_of_items String.eqb (map (fun kv => (snd kv, fst kv)) idx_to_covar) in
  (idx_to_covar, covar_to_idx).

(** [PerturbationData._pad_to_max_length].  [arr.shape[0]] and
    [arr.shape[1]] raise [IndexError] on a shape tuple that is too
    short; the second is only evaluated when padding is needed. *)
Definition _pad_to_max_length (arr : ndarray) (max_combination_length : Z)
    (null_value : num) : result ndarray :=
  match shape arr with
  | [] => Raise (IndexError "tuple index out of range")
  | r :: rest =>
      if (Z.of_nat r <? max_combination_length)%Z then
        match rest with
        | [] => Raise (IndexError "tuple index out of range")
        | c :: _ =>
            let null_arr :=
              jnp_full [Z.to_nat (max_combination_length - Z.of_nat r); c]
                       null_value in
            concat_rows arr null_arr
        end
      else Ok arr
  end.

(** [rep_dict[group][cov_name]], guarded as in the source by
    [cov_name not in rep_dict[group]]. *)
Definition rep_lookup (rep_dict : sdict uns_entry) (group : string)
    (cov_name : value) : result ndarray :=
  match sget rep_dict group with
  | None => Raise (KeyError group)
  | Some UnsOther => Raise (TypeError "argument is not iterable")
  | Some (UnsDict d) =>
      match dict_get value_same d cov_name with
      | None => Raise (ValueError "Representation not found in `adata.uns`.")
      | Some a => Ok a
      end
  end.

(** The number a cell value stands for in arithmetic and in
    [jnp.asarray]. *)
Definition as_num (v : value) : result num :=
  match v with
  | VNum x => Ok x
  | VBool b => Ok (if b then num_one else num_zero)
  | VStr _ => Raise (TypeError "Value is not a valid JAX array type.")
  | VNA => Raise (TypeError "Value is not a valid JAX array type.")
  end.

(** [jnp.asarray(v)] on one cell value: a rank-0 array. *)
Definition asarray_value (v : value) : result ndarray :=
  x <- as_num v ;; Ok (mk_ndarray [] [x]).

(** [series[label]] on one row of the frame of conditions. *)
Definition series_get (condition_data : sdict value) (label : option string)
  : result value :=
  match label with
  | None => Raise (KeyError "None")
  | Some k =>
      match sget condition_data k with
      | None => Raise (KeyError k)
      | Some v => Ok v
      end
  end.

(** [d[k].append(x)] *)
Definition dict_append {V : Type} (d : sdict (list V)) (k : string) (x : V)
  : result (sdict (list V)) :=
  match sget d k with
  | None => Raise (KeyError k)
  | Some l => Ok (sset d k (l ++ [x]))
  end.

(** [PerturbationData._get_perturbation_covariates] *)
Definition _get_perturbation_covariates
    (condition_data : sdict value)
    (rep_dict : sdict uns_entry)
    (perturb_covariates : groups)
    (sample_covariates : list string)
    (covariate_reps : sdict string)
    (primary_to_linked : list (option string * sdict (option string)))
    (primary_encoder : encoder_result OneHotEncoder)
    (max_combination_length : Z)
    (null_value : num) : result (sdict ndarray) :=
  '(primary_group, primary_covars) <-
    match perturb_covariates with
    | [] => Raise (IndexError "list index out of range")
    | item :: _ => Ok item
    end ;;
  '(primary_encoder, primary_is_cat) <-
    match primary_encoder with
    | RPair enc is_cat => Ok (enc, is_cat)
    | RNone => Raise (TypeError "cannot unpack non-iterable NoneType object")
    | REncoder _ =>
        Raise (TypeError "cannot unpack non-iterable OneHotEncoder object")
    end ;;
  let perturb_covar_emb : sdict (list ndarray) :=
    dict_of_items String.eqb (map (fun kv => (fst kv, [])) perturb_covariates) in
  perturb_covar_emb <-
    for_each
      (fun perturb_covar_emb primary_cov =>
         value <- series_get condition_data primary_cov ;;
         let cov_name :=
           if primary_is_cat : bool then value
           else match primary_cov with
                | Some k => VStr k
                | None => VNA
                end in
         prim_arr <-
           (if smem covariate_reps primary_group
            then rep_lookup rep_dict primary_group cov_name
            else transform primary_encoder cov_name) ;;
         prim_arr <-
           (if primary_is_cat then Ok prim_arr
            else x <- as_num value ;; Ok (scale prim_arr x)) ;;
         prim_arr <- _check_shape (Array prim_arr) ;;
         perturb_covar_emb <-
           dict_append perturb_covar_emb primary_group prim_arr ;;
         linked <-
           match dict_get label_eqb primary_to_linked primary_cov with
           | None => Raise (KeyError "primary_cov")
           | Some d => Ok d
           end ;;
         for_each
           (fun perturb_covar_emb '(linked_group, linked_cov) =>
              match linked_cov with
              | None =>
                  linked_arr <- _check_shape (Array (jnp_full [1; 1] null_value)) ;;
                  dict_append perturb_covar_emb linked_group linked_arr
              | Some _ =>
                  cov_name <- series_get condition_data linked_cov ;;
                  linked_arr <-
                    (if smem covariate_reps linked_group
                     then rep_lookup rep_dict linked_group cov_name
                     else asarray_value cov_name) ;;
                  linked_arr <- _check_shape (Array linked_arr) ;;
                  dict_append perturb_covar_emb linked_group linked_arr
              end)
           linked perturb_covar_emb)
      primary_covars perturb_covar_emb ;;
  perturb_covar_emb <-
    for_each
      (fun acc '(k, v) =>
         arr <- jnp_concatenate v ;;
         arr <- _pad_to_max_length arr max_combination_length null_value ;;
         Ok (sset acc k arr))
      perturb_covar_emb [] ;;
  sample_covar_emb <-
    for_each
      (fun sample_covar_emb sample_cov =>
         cov_arr <-
           (if smem covariate_reps sample_cov then
              match sget rep_dict sample_cov with
              | None => Raise (KeyError sample_cov)
              | Some _ =>
                  series_get condition_data (Some sample_cov) ;;;
                  Raise (AttributeError "values")
              end
            else
              v <- series_get condition_data (Some sample_cov) ;;
              asarray_value v) ;;
         cov_arr <- _check_shape (Array cov_arr) ;;
         tiled <- jnp_tile_rows cov_arr max_combination_length ;;
         Ok (sset sample_covar_emb sample_cov tiled))
      sample_covariates [] ;;
  Ok (dict_union String.eqb perturb_covar_emb sample_covar_emb).
End Methods.
End PerturbationData.

(** ** [class TrainingData(PerturbationData)] *)

Module TrainingData.
Import PerturbationData.
Section Container.
Context {SC : Scalar}.

(** The fields the factory sets on the container. *)
Record t : Type := mk {
  cell_data : ndarray;
  split_covariates_mask : list Z;
  split_idx_to_covariates : list (Z * row);
  perturbation_covariates_mask : list Z;
  perturbation_idx_to_covariates : list (Z * row);
  condition_data : sdict ndarray;
  control_to_perturbation : list (Z * list Z);
  max_combination_length : Z;
  null_value : num
}.

(** The local variables of the two nested loops of the factory. *)
Record locals : Type := mk_locals {
  src_counter : Z;
  tgt_counter : Z;
  l_control_to_perturbation : list (Z * list Z);
  l_split_covariates_mask : list Z;
  l_split_idx_to_covariates : list (Z * row);
  l_perturbation_covariates_mask : list Z;
  l_perturbation_idx_to_covariates : list (Z * row);
  l_condition_data : sdict (list ndarray);
  conditional_distributions : list Z
}.

Definition has_duplicates (keys : list string) : bool :=
  negb (List.length (nodup String.string_dec keys) =? List.length keys).

(** The body of the inner loop, [for _, tgt_cond in pbar]: one
    distinct combination of perturbation and sample covariate values.
    Selecting a repeated label from a row returns every match for each
    occurrence, so the comparison with the frame raises. *)
Definition target_body
    (adata : AnnData)
    (perturbation_covariates : groups)
    (sample_covariates : list string)
    (covariate_reps : sdict string)
    (primary_to_linked : list (option string * sdict (option string)))
    (primary_encoder : encoder_result OneHotEncoder)
    (max_combination_length : Z) (null_value : num)
    (perturb_covar_keys : list string)
    (all_rows : list row)
    (split_cov_mask : list bool)
    (st : locals) (tgt_cond : row) : result locals :=
  if has_duplicates perturb_covar_keys
  then Raise (ValueError "Unable to coerce to Series")
  else
    let mask :=
      map (fun '(r, b) => row_eqb r tgt_cond && b)
          (combine all_rows split_cov_mask) in
    if mask_sum mask =? 0 then Ok st
    else
      let conditional_distributions' :=
        conditional_distributions st ++ [tgt_counter st] in
      let perturbation_covariates_mask' :=
        mask_assign (l_perturbation_covariates_mask st) mask (tgt_counter st) in
      let perturbation_idx_to_covariates' :=
        dict_set Z.eqb (l_perturbation_idx_to_covariates st)
                 (tgt_counter st) tgt_cond in
      embedding <-
        _get_perturbation_covariates
          (combine perturb_covar_keys tgt_cond) (uns adata)
          perturbation_covariates sample_covariates covariate_reps
          primary_to_linked primary_encoder max_combination_length
          null_value ;;
      condition_data' <-
        for_each (fun cd '(pert_cov, emb) => dict_append cd pert_cov emb)
                 embedding (l_condition_data st) ;;
      Ok (mk_locals (src_counter st) (tgt_counter st + 1)
                    (l_control_to_perturbation st)
                    (l_split_covariates_mask st)
                    (l_split_idx_to_covariates st)
                    perturbation_covariates_mask'
                    perturbation_idx_to_covariates'
                    condition_data'
                    conditional_distributions').

(** The body of the outer loop, [for split_combination in
    split_cov_combs]. *)
Definition split_body
    (adata : AnnData)
    (perturbation_covariates : groups)
    (sample_covariates : list string)
    (covariate_reps : sdict string)
    (primary_to_linked : list (option string * sdict (option string)))
    (primary_encoder : encoder_result OneHotEncoder)
    (max_combination_length : Z) (null_value : num)
    (split_covariates : list string)
    (perturb_covar_keys : list string)
    (perturb_covar_df : list row)
    (st : locals) (split_combination : row) : result locals :=
  let filter_dict :=
    dict_of_items String.eqb (combine split_covariates split_combination) in
  filter_rows <- frame_rows adata (map fst filter_dict) ;;
  let split_cov_mask :=
    map (fun r => row_eqb r (map snd filter_dict)) filter_rows in
  let st1 :=
    mk_locals (src_counter st + 1) (tgt_counter st)
              (l_control_to_perturbation st)
              (mask_assign (l_split_covariates_mask st) split_cov_mask
                           (src_counter st))
              (dict_set Z.eqb (l_split_idx_to_covariates st)
                        (src_counter st) split_combination)
              (l_perturbation_covariates_mask st)
              (l_perturbation_idx_to_covariates st)
              (l_condition_data st)
              [] in
  all_rows <- frame_rows adata perturb_covar_keys ;;
  st2 <-
    for_each
      (target_body adata perturbation_covariates sample_covariates
                   covariate_reps primary_to_linked primary_encoder
                   max_combination_length null_value perturb_covar_keys
                   all_rows split_cov_mask)
      perturb_covar_df st1 ;;
  Ok (mk_locals (src_counter st2 + 1) (tgt_counter st2)
                (dict_set Z.eqb (l_control_to_perturbation st2)
                          (src_counter st2) (conditional_distributions st2))
                (l_split_covariates_mask st2)
                (l_split_idx_to_covariates st2)
                (l_perturbation_covariates_mask st2)
                (l_perturbation_idx_to_covariates st2)
                (l_condition_data st2)
                (conditional_distributions st2)).

Definition or_default {A : Type} (o : option A) (d : A) : A :=
  match o with Some a => a | None => d end.

(** [TrainingData.load_from_adata] *)
Definition load_from_adata
    (sample_rep : sample_rep_arg)
    (control_key : string)
    (perturbation_covariates : sdict pyval)
    (perturbation_covariate_reps : option (sdict string))
    (sample_covariates : option (list string))
    (sample_covariate_reps : option (sdict string))
    (split_covariates : option (list string))
    (max_combination_length : option Z)
    (null_value : num) : M t :=
  _verify_control_data (PStr control_key) ;;~
  let perturbation_covariates :=
    dict_of_items String.eqb
      (map (fun '(k, v) => (k, _to_list v)) perturbation_covariates) in
  adata <~ get_adata ;;
  lift (_verify_perturbation_covariates adata
          (PDict (map (fun '(k, l) => (PStr k, PList l))
                      perturbation_covariates))) ;;~
  let perturbation_covariates : groups :=
    map (fun '(k, l) => (k, map as_label l)) perturbation_covariates in
  primary_to_linked <~ lift (_get_linked_covariates perturbation_covariates) ;;
  let sample_covariates := or_default sample_covariates [] in
  lift (_verify_sample_covariates adata (PList (map PStr sample_covariates))) ;;~
  let perturbation_covariate_reps := or_default perturbation_covariate_reps [] in
  let sample_covariate_reps := or_default sample_covariate_reps [] in
  let sample_cov_groups : groups :=
    dict_of_items String.eqb
      (map (fun covar => (covar, [Some covar])) sample_covariates) in
  let covariate_groups :=
    dict_union String.eqb perturbation_covariates sample_cov_groups in
  let covariate_reps :=
    dict_union String.eqb perturbation_covariate_reps sample_covariate_reps in
  lift (_verify_covariate_reps adata covariate_reps covariate_groups) ;;~
  let split_covariates := or_default split_covariates [] in
  lift (_verify_split_covariates adata (PList (map PStr split_covariates))) ;;~
  max_combination_length <~
    _get_max_combination_length perturbation_covariates max_combination_length ;;
  let '(idx_to_covar, covar_to_idx) := _get_idx_to_covariate covariate_groups in
  primary_encoder <~
    _get_primary_covar_encoder perturbation_covariates
                               perturbation_covariate_reps ;;
  adata <~ get_adata ;;
  split_cov_combs <~
    (if 0 <? List.length split_covariates
     then rows <~ lift (frame_rows adata split_covariates) ;;
          ret (drop_duplicates rows)
     else ret [[]]) ;;
  let perturb_covar_keys :=
    column_labels (_flatten_list (map snd perturbation_covariates)
                   ++ map Some sample_covariates) in
  rows <~ lift (frame_rows adata perturb_covar_keys) ;;
  let perturb_covar_df := drop_duplicates rows in
  let st0 :=
    mk_locals 0%Z 0%Z []
              (repeat (-1)%Z (n_obs adata)) []
              (repeat (-1)%Z (n_obs adata)) []
              (map (fun kv => (fst kv, [])) covar_to_idx)
              [] in
  st <~ lift (for_each
                (split_body adata perturbation_covariates sample_covariates
                            covariate_reps primary_to_linked primary_encoder
                            max_combination_length null_value
                            split_covariates perturb_covar_keys
                            perturb_covar_df)
                split_cov_combs st0) ;;
  condition_data <~
    lift (for_each
            (fun acc '(pert_cov, emb) =>
               arr <- jnp_array emb ;; Ok (sset acc pert_cov arr))
            (l_condition_data st) []) ;;
  cell_data <~ lift (_get_cell_data adata sample_rep) ;;
  ret (mk cell_data
          (l_split_covariates_mask st)
          (l_split_idx_to_covariates st)
          (l_perturbation_covariates_mask st)
          (l_perturbation_idx_to_covariates st)
          condition_data
          (l_control_to_perturbation st)
          max_combination_length
          null_value).

(** [TrainingData.n_controls] *)
Definition n_controls (self : t) : nat :=
  List.length (split_idx_to_covariates self).

(** [TrainingData.n_perturbations] *)
Definition n_perturbations (self : t) : nat :=
  List.length (perturbation_idx_to_covariates self).
End Container.
End TrainingData.

(** ** [class ValidationData(PerturbationData)] *)

Module ValidationData.
Import PerturbationData.
Section Container.
Context {SC : Scalar}.

(** The dataclass fields the factory sets, and the further attributes
    a host may have set on the instance ([n_conditions_on_log_iteration]
    and [n_conditions_on_train_end] are read by the callback runner but
    are no fields of the dataclass). *)
Record t : Type := mk {
  src_data : list (Z * ndarray);
  tgt_data : list (Z * list (Z * ndarray));
  condition_data : option (list (Z * list (Z * sdict ndarray)));
  max_combination_length : Z;
  null_value : option value;
  null_token : num;
  instance_attrs : sdict Z
}.

(** [getattr(self, name)] for an integer-valued instance attribute. *)
Definition getattr_int (self : t) (name : string) : result Z :=
  match sget (instance_attrs self) name with
  | Some z => Ok z
  | None => Raise (AttributeError name)
  end.

(** The constant [cfp._constants.CONTROL_HELPER] is defined outside
    the embedded sources and is a parameter of the factory. *)
Variable CONTROL_HELPER : string.

(** Lines 671-674: without split covariates a constant true column is
    written into the caller's [adata.obs] and made categorical. *)
Definition inject_control_helper (split_covariates : option (list string))
  : M (list string) :=
  match split_covariates with
  | Some (c :: rest) => ret (c :: rest)
  | _ =>
      adata <~ get_adata ;;
      put_adata (set_column adata CONTROL_HELPER
                   (mk_Column DBool (repeat (VBool true) (n_obs adata)))) ;;~
      adata <~ get_adata ;;
      match sget (obs adata) CONTROL_HELPER with
      | None => raise (KeyError CONTROL_HELPER)
      | Some col =>
          put_adata (set_column adata CONTROL_HELPER (astype_category col)) ;;~
          ret [CONTROL_HELPER]
      end
  end.

(** [ValidationData.load_from_adata].  [control_data] is the pair of a
    column label and the value marking control cells, and is passed as
    such to [_verify_control_data].  The next call is to
    [cls._verify_obs_perturbation_covariates], a name that no class of
    the hierarchy defines: the lookup raises, the statements after it
    (lines 680-808) are never executed and are not embedded. *)
Definition load_from_adata
    (sample_rep : sample_rep_arg)
    (control_data : pyval)
    (split_covariates : option (list string))
    (obs_perturbation_covariates : list pyval)
    (uns_perturbation_covariates : sdict pyval)
    (max_combination_length : Z)
    (null_value : option value)
    (null_token : num) : M t :=
  split_covariates <~ inject_control_helper split_covariates ;;
  _verify_control_data control_data ;;~
  let obs_perturbation_covariates := map _to_list obs_perturbation_covariates in
  lift (getattr_cls "_verify_obs_perturbation_covariates") ;;~
  raise (AttributeError "_verify_obs_perturbation_covariates").
End Container.
End ValidationData.

(** ** [cfp.training.callbacks] *)

(** [numpy.random.Generator]: the generator state, [default_rng(seed)]
  and [rng.choice(n, size, replace=False)], which returns the drawn
  indices or raises, and advances the state. *)
Class Rng : Type := {
rng_state : Type;
default_rng : Z -> rng_state;
rng_choice : rng_state -> nat -> Z -> rng_state * result (list nat)
}.

Module Callbacks.
Section Runner.
Context {SC : Scalar} {RNG : Rng}.
(** The state of the external sinks, and the opaque batch and
    prediction structures handed through to the callbacks. *)
Context {W TrainData PredData : Type}.

(** What a computation callback receives for one named validation
    dataset: the dataset itself, or the dictionary built by the
    subsampling comprehension.  [ValidationData] has no [__getitem__],
    so that dictionary can hold no value. *)
Inductive sampled : Type :=
| Whole (vd : ValidationData.t)
| Subset (items : list (ascii * Empty_set)).

Definition metrics : Type := sdict num.

(** The hooks of a [ComputationCallback]. *)
Record ComputationCallback : Type := mk_ComputationCallback {
  comp_on_train_begin : W -> W * result unit;
  comp_on_log_iteration :
    sdict sampled -> PredData -> TrainData -> W -> W * result metrics;
  comp_on_train_end :
    sdict sampled -> PredData -> TrainData -> W -> W * result metrics
}.

(** The hooks of a [LoggingCallback]. *)
Record LoggingCallback : Type := mk_LoggingCallback {
  log_on_train_begin : W -> W * result unit;
  log_on_log_iteration : metrics -> W -> W * result unit;
  log_on_train_end : metrics -> W -> W * result unit
}.

(** A callback object with the interfaces its class inherits from:
    [isinstance(c, ComputationCallback)] holds exactly when
    [as_computation c] is present, likewise for logging. *)
Record BaseCallback : Type := mk_BaseCallback {
  as_computation : option ComputationCallback;
  as_logging : option LoggingCallback
}.

Definition select {A B : Type} (f : A -> option B) (l : list A) : list B :=
  flat_map (fun x => match f x with Some y => [y] | None => [] end) l.

Record CallbackRunner : Type := mk_CallbackRunner {
  validation_data : sdict ValidationData.t;
  computation_callbacks : list ComputationCallback;
  logging_callbacks : list LoggingCallback;
  rng : rng_state
}.

(** The condition of the [if] in [CallbackRunner.__init__],
    [len(cc) == 0 & len(lc) != 0].  [&] binds tighter than the
    comparisons, so this is the chained comparison
    [len(cc) == (0 & len(lc)) != 0], that is
    [len(cc) == (0 & len(lc)) and (0 & len(lc)) != 0]. *)
Definition init_condition (n_computation n_logging : nat) : bool :=
  let middle := Z.land 0 (Z.of_nat n_logging) in
  (Z.of_nat n_computation =? middle)%Z && negb (middle =? 0)%Z.

(** [CallbackRunner.__init__] *)
Definition __init__ (callbacks : list BaseCallback)
    (data : sdict ValidationData.t) (seed : Z) : result CallbackRunner :=
  let self :=
    mk_CallbackRunner data
      (select as_computation callbacks)
      (select as_logging callbacks)
      (default_rng seed) in
  if init_condition (List.length (computation_callbacks self))
                    (List.length (logging_callbacks self))
  then Raise (ValueError
         "No computation callbacks defined to compute metrics to log")
  else Ok self.

(** The dictionary comprehension
    [{val_data_name[i]: val_data[val_data_name[i]] for i in idxs}]:
    the key is evaluated first, then the subscript on the dataset. *)
Definition subsample (val_data_name : string) (val_data : ValidationData.t)
    (idxs : list nat) : result (list (ascii * Empty_set)) :=
  for_each
    (fun acc i =>
       match String.get i val_data_name with
       | None => Raise (IndexError "string index out of range")
       | Some _ =>
           Raise (TypeError "'ValidationData' object is not subscriptable")
       end)
    idxs [].

(** [CallbackRunner._sample_validation_data]; the generator is
    advanced by every draw. *)
Definition _sample_validation_data (self : CallbackRunner) (stage : string)
  : rng_state * result (sdict sampled) :=
  let n_conditions_to_sample : result (ValidationData.t -> result Z) :=
    if String.eqb stage "on_train_end"
    then Ok (fun x => ValidationData.getattr_int x "n_conditions_on_train_end")
    else if String.eqb stage "on_log_iteration"
    then Ok (fun x => ValidationData.getattr_int x "n_conditions_on_log_iteration")
    else Raise (ValueError "Stage not supported.") in
  match n_conditions_to_sample with
  | Raise e => (rng self, Raise e)
  | Ok n_conditions_to_sample =>
      fold_left
        (fun '(g, acc) '(val_data_name, val_data) =>
           match acc with
           | Raise e => (g, Raise e)
           | Ok subsampled_validation_data =>
               match n_conditions_to_sample val_data with
               | Raise e => (g, Raise e)
               | Ok n =>
                   if (n =? -1)%Z
                   then (g, Ok (sset subsampled_validation_data
                                     val_data_name (Whole val_data)))
                   else
                     match ValidationData.condition_data val_data with
                     | None =>
                         (g, Raise (TypeError
                                "object of type 'NoneType' has no len()"))
                     | Some cd =>
                         match rng_choice g (List.length cd) n with
                         | (g', Raise e) => (g', Raise e)
                         | (g', Ok idxs) =>
                             (g', items <- subsample val_data_name val_data idxs ;;
                                  Ok (sset subsampled_validation_data
                                           val_data_name (Subset items)))
                         end
                     end
               end
           end)
        (validation_data self) (rng self, Ok [])
  end.

(** The two loops shared by [on_log_iteration] and [on_train_end] as
    written in the source: every computation callback's
    [on_log_iteration] hook, merged with [dict.update], then every
    logging callback's [on_log_iteration] hook. *)
Definition run_computation (self : CallbackRunner)
    (validation_data : sdict sampled) (pred_data : PredData)
    (train_data : TrainData) (w : W) : W * result metrics :=
  fold_left
    (fun '(w, acc) callback =>
       match acc with
       | Raise e => (w, Raise e)
       | Ok dict_to_log =>
           match comp_on_log_iteration callback validation_data pred_data
                                       train_data w with
           | (w', Raise e) => (w', Raise e)
           | (w', Ok results) =>
               (w', Ok (dict_union String.eqb dict_to_log results))
           end
       end)
    (computation_callbacks self) (w, Ok []).

Definition run_logging (self : CallbackRunner) (dict_to_log : metrics)
    (w : W) : W * result unit :=
  fold_left
    (fun '(w, acc) callback =>
       match acc with
       | Raise e => (w, Raise e)
       | Ok _ => log_on_log_iteration callback dict_to_log w
       end)
    (logging_callbacks self) (w, Ok tt).

Definition set_rng (self : CallbackRunner) (g : rng_state) : CallbackRunner :=
  mk_CallbackRunner (validation_data self) (computation_callbacks self)
                    (logging_callbacks self) g.

(** [CallbackRunner.on_log_iteration]: the runner with its generator
    advanced, the state of the sinks, and the returned dictionary. *)
Definition on_log_iteration (self : CallbackRunner) (train_data : TrainData)
    (pred_data : PredData) (w : W) : CallbackRunner * W * result metrics :=
  match _sample_validation_data self "on_log_iteration" with
  | (g, Raise e) => (set_rng self g, w, Raise e)
  | (g, Ok validation_data) =>
      let self := set_rng self g in
      match run_computation self validation_data pred_data train_data w with
      | (w, Raise e) => (self, w, Raise e)
      | (w, Ok dict_to_log) =>
          match run_logging self dict_to_log w with
          | (w, Raise e) => (self, w, Raise e)
          | (w, Ok _) => (self, w, Ok dict_to_log)
          end
      end
  end.

(** [CallbackRunner.on_train_end], as written: it passes
    [stage="on_log_iteration"] to the sampler and calls the
    [on_log_iteration] hooks. *)
Definition on_train_end (self : CallbackRunner) (train_data : TrainData)
    (pred_data : PredData) (w : W) : CallbackRunner * W * result metrics :=
  match _sample_validation_data self "on_log_iteration" with
  | (g, Raise e) => (set_rng self g, w, Raise e)
  | (g, Ok validation_data) =>
      let self := set_rng self g in
      match run_computation self validation_data pred_data train_data w with
      | (w, Raise e) => (self, w, Raise e)
      | (w, Ok dict_to_log) =>
          match run_logging self dict_to_log w with
          | (w, Raise e) => (self, w, Raise e)
          | (w, Ok _) => (self, w, Ok dict_to_log)
          end
      end
  end.

(** The end-of-training hook as the specification words it: the same
    computation, merge and forward sequence on validation data sampled
    with the end-of-training policy. *)
Definition on_train_end_as_specified (self : CallbackRunner)
    (train_data : TrainData) (pred_data : PredData) (w : W)
  : CallbackRunner * W * result metrics :=
  match _sample_validation_data self "on_train_end" with
  | (g, Raise e) => (set_rng self g, w, Raise e)
  | (g, Ok validation_data) =>
      let self := set_rng self g in
      match run_computation self validation_data pred_data train_data w with
      | (w, Raise e) => (self, w, Raise e)
      | (w, Ok dict_to_log) =>
          match run_logging self dict_to_log w with
          | (w, Raise e) => (self, w, Raise e)
          | (w, Ok _) => (self, w, Ok dict_to_log)
          end
      end
  end.

(** [CallbackRunner.on_train_begin]: the [on_train_begin] hook of every
    computation callback, then that of every logging callback. *)
Definition on_train_begin (self : CallbackRunner) (w : W) : W * result unit :=
  let run {C : Type} (hook : C -> W -> W * result unit) (l : list C)
          (start : W * result unit) : W * result unit :=
    fold_left
      (fun '(w, acc) callback =>
         match acc with
         | Raise e => (w, Raise e)
         | Ok _ => hook callback w
         end)
      l start in
  run log_on_train_begin (logging_callbacks self)
      (run comp_on_train_begin (computation_callbacks self) (w, Ok tt)).
End Runner.

(** Name resolution in a method body of [callbacks.py]: the local
    names, then the names bound at module level.  A name bound in a
    class body ([import wandb] and [import omegaconf] in the body of
    [WandbLogger]) is an attribute of the class and is not in scope in
    the methods. *)
Definition callbacks_globals : list string :=
  ["abc"; "Any"; "Literal"; "jt"; "np"; "jax"; "ArrayLike"; "ValidationData";
   "compute_e_distance"; "compute_r_squared"; "compute_scalar_mmd";
   "compute_sinkhorn_div"; "BaseCallback"; "LoggingCallback";
   "ComputationCallback"; "metric_to_func"; "ComputeMetrics"; "WandbLogger";
   "CallbackRunner"].

Definition resolve_global (locals : list string) (name : string) : result unit :=
  if existsb (String.eqb name) (locals ++ callbacks_globals) then Ok tt
  else Raise (NameError name).
End Callbacks.

(** ** [class ComputeMetrics(ComputationCallback)] *)

Module ComputeMetrics.

(** The keys of the module-level dictionary [metric_to_func]. *)
Definition metric_to_func : list string :=
  ["r_squared"; "mmd"; "sinkhorn_div"; "e_distance"].

Inductive aggregation : Type :=
| np_median
| np_mean.

Record t : Type := mk {
  metrics : list string;
  metric_aggregation : pyval;
  _aggregation_func : aggregation
}.

(** [metric_aggregation == "median"] *)
Definition is_median (metric_aggregation : pyval) : bool :=
  match metric_aggregation with
  | PStr s => String.eqb s "median"
  | _ => false
  end.

(** [ComputeMetrics.__init__] *)
Definition __init__ (metrics : list string) (metric_aggregation : pyval)
  : result t :=
  let self :=
    mk metrics metric_aggregation
       (if is_median metric_aggregation then np_median else np_mean) in
  for_each
    (fun _ metric =>
       if negb (existsb (String.eqb metric) metric_to_func)
       then Raise (ValueError "Metric not supported.")
       else Ok tt)
    metrics tt ;;;
  Ok self.

Section Hooks.
(** The Python objects handed to the hooks, and the body of
    [on_log_iteration], which evaluates the imported metric functions
    through [jax.tree] and is external here. *)
Context {SC : Scalar} {Obj : Type}.
Variable on_log_iteration_body : t -> Obj -> Obj -> Obj -> result (sdict num).

(** A call of [self.on_log_iteration]: the positional arguments
    are bound to the parameters [validation_data], [predicted_data] and
    [training_data], none of which has a default, before the body
    runs. *)
Definition on_log_iteration (self : t) (args : list Obj)
  : result (sdict num) :=
  match args with
  | [validation_data; predicted_data; training_data] =>
      on_log_iteration_body self validation_data predicted_data training_data
  | [] | [_] | [_; _] =>
      Raise (TypeError "missing required positional argument")
  | _ => Raise (TypeError "too many positional arguments")
  end.

(** [ComputeMetrics.on_train_end]:
    [return self.on_log_iteration(validation_data, predicted_data)] *)
Definition on_train_end (self : t)
    (validation_data predicted_data training_data : Obj)
  : result (sdict num) :=
  on_log_iteration self [validation_data; predicted_data].
End Hooks.
End ComputeMetrics.

(** ** [class WandbLogger(LoggingCallback)] *)

Module WandbLogger.
Section Hooks.
Context {SC : Scalar} {W : Type}.

(** What the calls into the [wandb] package would do to the sinks once
    the name [wandb] has been resolved: the session set-up of
    [on_train_begin] and [wandb.log]. *)
Variable wandb_session : W -> W * result unit.
Variable wandb_log : sdict num -> W -> W * result unit.

(** The fields [__init__] sets; of [config] only whether it is a
    [dict] matters to the hooks. *)
Record t : Type := mk {
  project : string;
  out_dir : string;
  config_is_dict : bool
}.

(** [WandbLogger.on_train_begin]: with a [dict] configuration the
    first name evaluated is [omegaconf], otherwise [wandb]. *)
Definition on_train_begin (self : t) (w : W) : W * result unit :=
  match (if config_is_dict self
         then Callbacks.resolve_global ["self"] "omegaconf"
         else Ok tt) ;;;
        Callbacks.resolve_global ["self"] "wandb"
  with
  | Raise e => (w, Raise e)
  | Ok _ => wandb_session w
  end.

(** [WandbLogger.on_log_iteration]: [wandb.log(dict_to_log)] *)
Definition on_log_iteration (self : t) (dict_to_log : sdict num) (w : W)
  : W * result unit :=
  match Callbacks.resolve_global ["self"; "dict_to_log"; "_"] "wandb" with
  | Raise e => (w, Raise e)
  | Ok _ => wandb_log dict_to_log w
  end.

(** [WandbLogger.on_train_end]: [wandb.log(dict_to_log)] *)
Definition on_train_end (self : t) (dict_to_log : sdict num) (w : W)
  : W * result unit :=
  match Callbacks.resolve_global ["self"; "dict_to_log"] "wandb" with
  | Raise e => (w, Raise e)
  | Ok _ => wandb_log dict_to_log w
  end.

(** The logger as the runner sees it. *)
Definition as_logging_callback (self : t) : @Callbacks.LoggingCallback SC W :=
  Callbacks.mk_LoggingCallback (on_train_begin self) (on_log_iteration self)
                               (on_train_end self).
End Hooks.
End WandbLogger.

(** * Properties *)

(** The scalar instance used to evaluate the embedding on concrete
    inputs: integers, with decimal numerals as the strings [float]
    accepts. *)
#[export] Instance Z_Scalar : Scalar := {|
  num := Z;
  num_eq_dec := Z.eq_dec;
  num_zero := 0%Z;
  num_one := 1%Z;
  num_mul := Z.mul;
  num_of_string := fun s => option_map Z.of_int (NilEmpty.int_of_string s)
|}.

(** ** Shape normalisation and padding *)

Section ShapeAndPadding.
Context {SC : Scalar}.
Import PerturbationData.

Lemma entry_column (d : list num) (i : nat) :
  entry 1 d i 0 = firstn 1 (skipn i d).
Proof.
  unfold entry. now rewrite Nat.mul_1_r, Nat.add_0_r.
Qed.

Lemma singletons_from (d : list num) (k : nat) :
  flat_map (fun i => firstn 1 (skipn i d)) (seq k (List.length d - k)) = skipn k d.
Proof.
  remember (List.length d - k) as n eqn:Hn.
  revert k Hn. induction n as [|n IH]; intros k Hn.
  - simpl. symmetry. apply skipn_all2. lia.
  - cbn [seq flat_map]. rewrite (IH (S k)) by lia.
    assert (Hk : k < List.length d) by lia.
    clear - Hk. revert k Hk.
    induction d as [|x d IHd]; intros k Hk; simpl in *; [lia|].
    destruct k as [|k]; simpl; [reflexivity|].
    apply IHd. lia.
Qed.

(** Transposing a column gives the row with the same entries. *)
Lemma transpose2_column (d : list num) :
  transpose2 (List.length d) 1 d = d.
Proof.
  unfold transpose2. simpl. rewrite app_nil_r.
  rewrite (flat_map_ext _ (fun i => firstn 1 (skipn i d))) by (intro; apply entry_column).
  pose proof (singletons_from d 0) as H.
  now rewrite Nat.sub_0_r in H.
Qed.

(** C7: [_check_shape] maps a Python scalar, a rank-0 array, a vector of
    length [F] and an [(F, 1)] column to a [(1, F)] row (with [F = 1]
    for the scalars), returns a [(1, F)] row unchanged, raises
    [ValueError] on every other rank-2 shape and on every rank above 2;
    a vector and the row with the same entries give the same result.
    The row of a scalar [x] holds the product [1 * x] that
    [jnp.ones((1, 1)) * x] computes; every other row holds the entries
    of the input in their order. *)
Theorem check_shape_normalizes :
  (forall x : num,
      _check_shape (PyFloat x)
      = Ok (mk_ndarray [1; 1] [num_mul num_one x]))
  /\ (forall x : num,
      _check_shape (Array (mk_ndarray [] [x]))
      = Ok (mk_ndarray [1; 1] [num_mul num_one x]))
  /\ (forall (F : nat) (d : list num),
      _check_shape (Array (mk_ndarray [F] d)) = Ok (mk_ndarray [1; F] d))
  /\ (forall (F : nat) (d : list num), List.length d = F ->
      _check_shape (Array (mk_ndarray [F; 1] d)) = Ok (mk_ndarray [1; F] d))
  /\ (forall (F : nat) (d : list num),
      _check_shape (Array (mk_ndarray [1; F] d)) = Ok (mk_ndarray [1; F] d))
  /\ (forall (r c : nat) (d : list num), r <> 1 -> c <> 1 ->
      exists msg,
        _check_shape (Array (mk_ndarray [r; c] d)) = Raise (ValueError msg))
  /\ (forall (sh : list nat) (d : list num), 2 < List.length sh ->
      exists msg,
        _check_shape (Array (mk_ndarray sh d)) = Raise (ValueError msg))
  /\ (forall (F : nat) (d : list num),
      _check_shape (Array (mk_ndarray [F] d))
      = _check_shape (Array (mk_ndarray [1; F] d))).
Proof.
  refine (conj _ (conj _ (conj _ (conj _ (conj _ (conj _ (conj _ _))))))).
  - reflexivity.
  - reflexivity.
  - reflexivity.
  - intros F d Hd. subst F. unfold _check_shape. cbn [shape data Nat.eqb].
    destruct (Nat.eqb_spec (List.length d) 1) as [E|E].
    + now rewrite E.
    + now rewrite transpose2_column.
  - intros F d. unfold _check_shape. reflexivity.
  - intros r c d Hr Hc. unfold _check_shape. cbn [shape data].
    destruct (Nat.eqb_spec r 1); [contradiction|].
    destruct (Nat.eqb_spec c 1); [contradiction|].
    eexists. reflexivity.
  - intros sh d Hsh. destruct sh as [|a [|b [|c sh]]]; simpl in Hsh; try lia.
    eexists. reflexivity.
  - reflexivity.
Qed.

(** X4: whenever [_check_shape] returns on a well-formed input, the
    result is a well-formed array of shape [(1, F)]. *)
Lemma check_shape_row (arr : array_like) (out : ndarray) :
  match arr with PyFloat _ => True | Array a => wf_array a end ->
  _check_shape arr = Ok out ->
  exists F, shape out = [1; F] /\ wf_array out.
Proof.
  destruct arr as [x|a]; simpl; intros Hwf H.
  - inversion H; subst. exists 1. split; reflexivity.
  - destruct a as [sh d]. unfold wf_array in *. simpl in *.
    destruct sh as [|r [|c [|e sh]]]; simpl in *.
    + inversion H; subst; simpl. exists 1. split; [reflexivity|].
      simpl. now rewrite length_map.
    + inversion H; subst; simpl. exists r. split; [reflexivity|]. simpl. lia.
    + destruct (Nat.eqb_spec r 1) as [E|E].
      * inversion H; subst; simpl. exists c. split; [reflexivity|]. simpl. lia.
      * destruct (Nat.eqb_spec c 1) as [E'|E']; [|discriminate].
        inversion H; subst; simpl. exists r. split; [reflexivity|].
        assert (Hr : r = List.length d) by lia. subst r.
        rewrite transpose2_column. simpl. lia.
    + discriminate.
Qed.

(** C8: on a rank-2 array [_pad_to_max_length] appends null rows up to
    [L] rows when the array has fewer, returns the array itself when it
    has [L] rows or more, and padding a padded array changes nothing. *)
Theorem pad_to_max_length_idempotent
    (arr : ndarray) (r c : nat) (L : Z) (v : num)
    (Hshape : shape arr = [r; c]) :
  ((Z.of_nat r < L)%Z ->
     _pad_to_max_length arr L v
     = Ok (mk_ndarray [Z.to_nat L; c]
             (data arr ++ repeat v ((Z.to_nat L - r) * c))))
  /\ ((L <= Z.of_nat r)%Z -> _pad_to_max_length arr L v = Ok arr)
  /\ ((Z.of_nat r <= L)%Z ->
      (padded <- _pad_to_max_length arr L v ;; _pad_to_max_length padded L v)
      = _pad_to_max_length arr L v).
Proof.
  assert (Hlt : (Z.of_nat r < L)%Z ->
     _pad_to_max_length arr L v
     = Ok (mk_ndarray [Z.to_nat L; c]
             (data arr ++ repeat v ((Z.to_nat L - r) * c)))).
  { intro H. unfold _pad_to_max_length. rewrite Hshape.
    destruct (Z.ltb_spec (Z.of_nat r) L) as [_|]; [|lia].
    unfold concat_rows, jnp_full. rewrite Hshape. simpl.
    rewrite Nat.eqb_refl. rewrite Nat.mul_1_r.
    repeat f_equal; lia. }
  assert (Hge : (L <= Z.of_nat r)%Z -> _pad_to_max_length arr L v = Ok arr).
  { intro H. unfold _pad_to_max_length. rewrite Hshape.
    destruct (Z.ltb_spec (Z.of_nat r) L); [lia|reflexivity]. }
  split; [exact Hlt|]. split; [exact Hge|].
  intro Hle. destruct (Z.eq_dec (Z.of_nat r) L) as [E|E].
  - rewrite Hge by lia. simpl. apply Hge. lia.
  - rewrite Hlt by lia. simpl.
    unfold _pad_to_max_length. cbn [shape].
    destruct (Z.ltb_spec (Z.of_nat (Z.to_nat L)) L); [lia|reflexivity].
Qed.
End ShapeAndPadding.

(** A [(3, 1)] column of integers normalises to the [(1, 3)] row, and
    the scalar 5 to the [(1, 1)] row that holds 5. *)
Lemma check_shape_normalizes_witness :
  PerturbationData._check_shape (Array (mk_ndarray [3; 1] [4; 5; 6]%Z))
  = Ok (mk_ndarray [1; 3] [4; 5; 6]%Z)
  /\ PerturbationData._check_shape (PyFloat 5%Z)
     = Ok (mk_ndarray [1; 1] [5%Z]).
Proof.
  split.
  - apply (proj1 (proj2 (proj2 (proj2 (@check_shape_normalizes Z_Scalar))))).
    reflexivity.
  - exact (proj1 (@check_shape_normalizes Z_Scalar) 5%Z).
Defined.

(** A well-formed [(3, 1)] column normalises to a well-formed row. *)
Lemma check_shape_row_witness :
  wf_array (mk_ndarray [3; 1] [1; 2; 3]%Z)
  /\ PerturbationData._check_shape (Array (mk_ndarray [3; 1] [1; 2; 3]%Z))
     = Ok (mk_ndarray [1; 3] [1; 2; 3]%Z)
  /\ exists F, shape (mk_ndarray [1; 3] [1; 2; 3]%Z) = [1; F]
               /\ wf_array (mk_ndarray [1; 3] [1; 2; 3]%Z).
Proof.
  split; [reflexivity|]. split; [reflexivity|].
  exact (@check_shape_row Z_Scalar (Array (mk_ndarray [3; 1] [1; 2; 3]%Z)) _
           eq_refl eq_refl).
Defined.

(** Padding a one-row array to three rows, once and twice. *)
Lemma pad_to_max_length_idempotent_witness :
  PerturbationData._pad_to_max_length (mk_ndarray [1; 2] [7; 8]%Z) 3 0%Z
  = Ok (mk_ndarray [3; 2] [7; 8; 0; 0; 0; 0]%Z)
  /\ (padded <- PerturbationData._pad_to_max_length
                  (mk_ndarray [1; 2] [7; 8]%Z) 3 0%Z ;;
      PerturbationData._pad_to_max_length padded 3 0%Z)
     = PerturbationData._pad_to_max_length (mk_ndarray [1; 2] [7; 8]%Z) 3 0%Z.
Proof.
  pose proof (@pad_to_max_length_idempotent Z_Scalar
                (mk_ndarray [1; 2] [7; 8]%Z) 1 2 3%Z 0%Z eq_refl) as [H1 [_ H3]].
  split.
  - apply H1. reflexivity.
  - apply H3. discriminate.
Defined.

(** ** The callback runner *)

Section RunnerProperties.
Context {SC : Scalar} {RNG : Rng} {W TrainData PredData : Type}.
Import Callbacks.

(** Whatever the numbers of callbacks, the guard of the constructor
    evaluates to false: [0 & n] is [0], and the chained comparison ends
    in [0 != 0]. *)
Lemma init_condition_false (n_computation n_logging : nat) :
  init_condition n_computation n_logging = false.
Proof.
  unfold init_condition. rewrite Z.land_0_l. simpl.
  apply andb_false_r.
Qed.

(** C1: the constructor never raises; every callback list, with or
    without computation callbacks, yields the runner holding the
    callbacks filtered by interface. *)
Theorem init_never_raises
    (callbacks : list (@BaseCallback SC W TrainData PredData))
    (data : sdict ValidationData.t) (seed : Z) :
  __init__ callbacks data seed
  = Ok (mk_CallbackRunner data (select as_computation callbacks)
                          (select as_logging callbacks) (default_rng seed)).
Proof.
  unfold __init__. cbn [computation_callbacks logging_callbacks].
  now rewrite init_condition_false.
Qed.

(** X3: the end-of-training hook is the per-iteration hook: it samples with
    the per-iteration policy and calls the same callback hooks. *)
Lemma on_train_end_is_on_log_iteration
    (self : @CallbackRunner SC RNG W TrainData PredData)
    (train_data : TrainData) (pred_data : PredData) (w : W) :
  on_train_end self train_data pred_data w
  = on_log_iteration self train_data pred_data w.
Proof. reflexivity. Qed.
End RunnerProperties.

(** A logging callback that appends what it is given to a list. *)
Definition list_logger : @Callbacks.LoggingCallback Z_Scalar (list (sdict Z)) :=
  Callbacks.mk_LoggingCallback
    (fun w => (w, Ok tt))
    (fun d w => (w ++ [d], Ok tt))
    (fun d w => (w ++ [d], Ok tt)).

Definition logging_only
  : @Callbacks.BaseCallback Z_Scalar (list (sdict Z)) unit unit :=
  Callbacks.mk_BaseCallback None (Some list_logger).

(** The failing input of C1: one logging callback and no computation
    callback.  Construction succeeds. *)
Example init_logging_only (RNG : Rng) :
  is_ok (Callbacks.__init__ [logging_only] [] 0%Z) = true.
Proof. reflexivity. Qed.

(** A computation callback reporting how many validation datasets it
    received whole. *)
Definition count_whole
  : @Callbacks.ComputationCallback Z_Scalar (list (sdict Z)) unit unit :=
  let hook :=
    fun (vd : sdict Callbacks.sampled) (_ _ : unit) (w : list (sdict Z)) =>
      (w, Ok [("n_whole",
               Z.of_nat (List.length
                 (filter (fun kv => match snd kv with
                                    | Callbacks.Whole _ => true
                                    | Callbacks.Subset _ => false
                                    end) vd)))]) in
  Callbacks.mk_ComputationCallback (fun w => (w, Ok tt)) hook hook.

(** A validation dataset to be used whole at every log iteration and
    not at all at the end of training. *)
Definition whole_then_none : ValidationData.t :=
  ValidationData.mk [] [] (Some []) 1%Z None 0%Z
    [("n_conditions_on_log_iteration", (-1)%Z);
     ("n_conditions_on_train_end", 0%Z)].

Definition example_runner (RNG : Rng)
  : @Callbacks.CallbackRunner Z_Scalar RNG (list (sdict Z)) unit unit :=
  Callbacks.mk_CallbackRunner
    [("val", whole_then_none)] [count_whole] [list_logger] (default_rng 0%Z).

(** C3: at the end of training the runner hands the callbacks the
    dataset whole, as the per-iteration count [-1] says, although the
    end-of-training count is [0]; sampling with the end-of-training
    policy cannot give that result, whatever the generator draws. *)
Theorem on_train_end_uses_log_iteration_policy (RNG : Rng) :
  Callbacks.on_train_end (example_runner RNG) tt tt []
  = (example_runner RNG, [[("n_whole", 1%Z)]], Ok [("n_whole", 1%Z)])
  /\ snd (Callbacks.on_train_end_as_specified (example_runner RNG) tt tt [])
     <> Ok [("n_whole", 1%Z)].
Proof.
  split; [reflexivity|].
  unfold Callbacks.on_train_end_as_specified, Callbacks._sample_validation_data.
  cbn -[rng_choice default_rng].
  destruct (rng_choice (default_rng 0%Z) 0 0%Z) as [g [idxs|e]];
    [|cbn; discriminate].
  destruct idxs as [|i idxs]; [cbn; discriminate|].
  cbn. destruct i as [|[|[|i]]]; cbn; discriminate.
Qed.

(** ** Reasoning about the stateful monad *)

Section Monad.
Context {SC : Scalar}.

(** Weakest precondition: [Q] holds of the value and the final state
    when [m] returns, [E] of the exception and the final state when it
    raises. *)
Definition wp {A : Type} (m : M A) (Q : A -> world -> Prop)
    (E : exn -> world -> Prop) (w : world) : Prop :=
  match m w with
  | (w', Ok a) => Q a w'
  | (w', Raise e) => E e w'
  end.

Lemma wp_bind {A B : Type} (m : M A) (k : A -> M B) Q E w :
  wp m (fun a w' => wp (k a) Q E w') E w -> wp (mbind m k) Q E w.
Proof.
  unfold wp, mbind. destruct (m w) as [w' [a|e]]; auto.
Qed.

Lemma wp_ret {A : Type} (a : A) (Q : A -> world -> Prop) E w :
  Q a w -> wp (ret a) Q E w.
Proof. auto. Qed.

Lemma wp_raise {A : Type} (e : exn) (Q : A -> world -> Prop)
    (E : exn -> world -> Prop) w :
  E e w -> wp (raise e) Q E w.
Proof. auto. Qed.

Lemma wp_lift {A : Type} (r : result A) (Q : A -> world -> Prop)
    (E : exn -> world -> Prop) w :
  match r with Ok a => Q a w | Raise e => E e w end -> wp (lift r) Q E w.
Proof. unfold wp, lift. destruct r; auto. Qed.

Lemma wp_get (Q : AnnData -> world -> Prop) E w :
  Q (the_adata w) w -> wp get_adata Q E w.
Proof. auto. Qed.

Lemma wp_put (adata : AnnData) (Q : unit -> world -> Prop) E w :
  Q tt (mk_world adata (warnings_log w)) -> wp (put_adata adata) Q E w.
Proof. auto. Qed.

Lemma wp_warn (msg : string) (Q : unit -> world -> Prop) E w :
  Q tt (mk_world (the_adata w) (warnings_log w ++ [msg])) -> wp (warn msg) Q E w.
Proof. auto. Qed.

Lemma wp_mono {A : Type} (m : M A) (Q Q' : A -> world -> Prop)
    (E E' : exn -> world -> Prop) w :
  wp m Q E w ->
  (forall a w', Q a w' -> Q' a w') ->
  (forall e w', E e w' -> E' e w') ->
  wp m Q' E' w.
Proof.
  unfold wp. destruct (m w) as [w' [a|e]]; auto.
Qed.

(** A loop maintains an invariant of the state and the loop locals. *)
Lemma wp_mfor {A S : Type} (body : S -> A -> M S) (I : S -> world -> Prop)
    (E : exn -> world -> Prop) (l : list A) :
  (forall s x w, In x l -> I s w -> wp (body s x) I E w) ->
  forall s w, I s w -> wp (mfor body l s) I E w.
Proof.
  induction l as [|x l IH]; intros Hbody s w HI; simpl.
  - now apply wp_ret.
  - apply wp_bind.
    apply (wp_mono (body s x) I _ E E w); auto.
    + apply Hbody; simpl; auto.
    + intros s' w' HI'. apply IH; auto.
      intros; apply Hbody; simpl; auto.
Qed.

Lemma wp_elim {A : Type} (m : M A) Q E w w' (a : A) :
  wp m Q E w -> m w = (w', Ok a) -> Q a w'.
Proof. unfold wp. intros H Hm. now rewrite Hm in H. Qed.

(** Two computations that, started on the same dataset, return the same
    result and leave the same dataset, whatever the warnings logged. *)
Definition rel {A : Type} (m1 m2 : M A) : Prop :=
  forall w1 w2, the_adata w1 = the_adata w2 ->
    the_adata (fst (m1 w1)) = the_adata (fst (m2 w2))
    /\ snd (m1 w1) = snd (m2 w2).

Lemma rel_bind {A B : Type} (m1 m2 : M A) (k1 k2 : A -> M B) :
  rel m1 m2 -> (forall a, rel (k1 a) (k2 a)) -> rel (mbind m1 k1) (mbind m2 k2).
Proof.
  intros Hm Hk w1 w2 Hw. unfold mbind.
  destruct (Hm w1 w2 Hw) as [Ha Hr].
  destruct (m1 w1) as [w1' r1], (m2 w2) as [w2' r2]; simpl in *. subst r2.
  destruct r1 as [a|e]; [now apply Hk | now split].
Qed.

Lemma rel_ret {A : Type} (a : A) : rel (ret a) (ret a).
Proof. intros w1 w2 Hw. now split. Qed.

Lemma rel_raise {A : Type} (e : exn) : rel (@raise _ A e) (raise e).
Proof. intros w1 w2 Hw. now split. Qed.

Lemma rel_lift {A : Type} (r : result A) : rel (lift r) (lift r).
Proof. intros w1 w2 Hw. now split. Qed.

Lemma rel_get : rel get_adata get_adata.
Proof. intros w1 w2 Hw. simpl. split; [assumption | now rewrite Hw]. Qed.

Lemma rel_put (adata : AnnData) : rel (put_adata adata) (put_adata adata).
Proof. intros w1 w2 Hw. now split. Qed.

Lemma rel_warn_l (msg : string) : rel (warn msg) (ret tt).
Proof. intros w1 w2 Hw. now split. Qed.

Lemma rel_mfor {A S : Type} (body : S -> A -> M S) (l : list A) :
  (forall s x, rel (body s x) (body s x)) ->
  forall s, rel (mfor body l s) (mfor body l s).
Proof.
  intro Hbody. induction l as [|x l IH]; intro s; simpl.
  - apply rel_ret.
  - apply rel_bind; auto.
Qed.
(** A computation that leaves the warnings log alone. *)
Definition silent {A : Type} (m : M A) : Prop :=
  forall w, warnings_log (fst (m w)) = warnings_log w.

Lemma silent_bind {A B : Type} (m : M A) (k : A -> M B) :
  silent m -> (forall a, silent (k a)) -> silent (mbind m k).
Proof.
  intros Hm Hk w. unfold mbind. specialize (Hm w).
  destruct (m w) as [w' [a|e]]; simpl in *; [|assumption].
  now rewrite Hk.
Qed.

Lemma silent_ret {A : Type} (a : A) : silent (ret a).
Proof. now intro w. Qed.

Lemma silent_raise {A : Type} (e : exn) : silent (@raise _ A e).
Proof. now intro w. Qed.

Lemma silent_lift {A : Type} (r : result A) : silent (lift r).
Proof. now intro w. Qed.

Lemma silent_get : silent get_adata.
Proof. now intro w. Qed.

Lemma silent_put (adata : AnnData) : silent (put_adata adata).
Proof. now intro w. Qed.

Lemma silent_mfor {A S : Type} (body : S -> A -> M S) (l : list A) :
  (forall s x, silent (body s x)) -> forall s, silent (mfor body l s).
Proof.
  intro Hbody. induction l as [|x l IH]; intro s; simpl.
  - apply silent_ret.
  - apply silent_bind; auto.
Qed.

Lemma wp_silent {A : Type} (m : M A) (Q : A -> world -> Prop) w :
  silent m ->
  (forall a w', warnings_log w' = warnings_log w -> Q a w') ->
  wp m Q (fun _ _ => True) w.
Proof.
  intros Hm HQ. unfold wp. specialize (Hm w).
  destruct (m w) as [w' [a|e]]; simpl in *; auto.
Qed.

End Monad.

(** One structural step of a proof that a computation respects [rel]
    or [silent]. *)
Ltac monad_step :=
  first
    [ apply rel_ret | apply rel_raise | apply rel_lift | apply rel_get
    | apply rel_put | apply silent_ret | apply silent_raise
    | apply silent_lift | apply silent_get | apply silent_put
    | apply rel_mfor; intros | apply silent_mfor; intros
    | apply rel_bind; [|intros] | apply silent_bind; [|intros]
    | match goal with
      | |- rel (match ?x with _ => _ end) _ => destruct x
      | |- silent (match ?x with _ => _ end) => destruct x
      end ].

Ltac monad_auto := repeat monad_step.

(** ** Covariate verification *)


Section Verification.
Context {SC : Scalar}.
Import PerturbationData.


(** The name [covar] is bound neither in the function nor in the
    module. *)
Lemma covar_is_unbound :
  resolve_name locals_verify_perturbation_covariates "covar"
  = Raise (NameError "covar").
Proof. reflexivity. Qed.


End Verification.

(** ** The maximum combination length *)

(** The covariate groups as [TrainingData.load_from_adata] sees them
    after [_to_list] and verification. *)
Definition normalized_groups (perturbation_covariates : sdict pyval)
  : PerturbationData.groups :=
  map (fun '(k, l) => (k, map as_label l))
      (dict_of_items String.eqb
         (map (fun '(k, v) => (k, _to_list v)) perturbation_covariates)).

(** The lengths of the declared groups. *)
Definition group_lengths (g : PerturbationData.groups) : list Z :=
  map (fun kv => Z.of_nat (List.length (snd kv))) g.

Section MaxCombinationLength.
Context {SC : Scalar}.
Import PerturbationData.

Lemma verify_control_data_rel (key : pyval) :
  rel (_verify_control_data key) (_verify_control_data key).
Proof. unfold _verify_control_data. monad_auto. Qed.

Lemma verify_control_data_silent (key : pyval) :
  silent (_verify_control_data key).
Proof. unfold _verify_control_data. monad_auto. Qed.

Lemma check_covariate_type_rel (covars : list (option string)) :
  rel (_check_covariate_type covars) (_check_covariate_type covars).
Proof. unfold _check_covariate_type. monad_auto. Qed.

Lemma check_covariate_type_silent (covars : list (option string)) :
  silent (_check_covariate_type covars).
Proof. unfold _check_covariate_type. monad_auto. Qed.

Lemma get_primary_covar_encoder_rel (g : groups) (reps : sdict string) :
  rel (_get_primary_covar_encoder g reps) (_get_primary_covar_encoder g reps).
Proof.
  unfold _get_primary_covar_encoder.
  destruct g as [|[primary_group primary_covars] g]; [apply rel_raise|].
  apply rel_bind; [apply check_covariate_type_rel|]. intros. monad_auto.
Qed.

Lemma get_primary_covar_encoder_silent (g : groups) (reps : sdict string) :
  silent (_get_primary_covar_encoder g reps).
Proof.
  unfold _get_primary_covar_encoder.
  destruct g as [|[primary_group primary_covars] g]; [apply silent_raise|].
  apply silent_bind; [apply check_covariate_type_silent|]. intros. monad_auto.
Qed.

(** Without a caller's value the observed maximum is returned and
    nothing is logged. *)
Lemma get_max_combination_length_none (g : groups) (w : world) :
  _get_max_combination_length g None w = (w, py_max (group_lengths g)).
Proof.
  unfold _get_max_combination_length, mbind, lift, group_lengths.
  now destruct (py_max _).
Qed.

(** With a caller's value below the observed maximum, the observed
    maximum is returned and the warning is logged. *)
Lemma get_max_combination_length_small (g : groups) (m z : Z) (w : world) :
  py_max (group_lengths g) = Ok z -> (m < z)%Z ->
  _get_max_combination_length g (Some m) w
  = (mk_world (the_adata w) (warnings_log w ++ [max_length_warning]), Ok z).
Proof.
  intros Hz Hm.
  unfold _get_max_combination_length, mbind, lift.
  fold (group_lengths g). rewrite Hz.
  destruct (Z.ltb_spec m z); [reflexivity | lia].
Qed.

Lemma get_max_combination_length_rel (g : groups) (m z : Z) :
  py_max (group_lengths g) = Ok z -> (m < z)%Z ->
  rel (_get_max_combination_length g (Some m))
      (_get_max_combination_length g None).
Proof.
  intros Hz Hm w1 w2 Hw.
  rewrite (get_max_combination_length_small g m z w1 Hz Hm).
  rewrite get_max_combination_length_none, Hz. simpl. now split.
Qed.

Lemma fold_max_spec (xs : list Z) (x : Z) :
  (fold_left Z.max xs x = x \/ In (fold_left Z.max xs x) xs)
  /\ (x <= fold_left Z.max xs x)%Z
  /\ forall y, In y xs -> (y <= fold_left Z.max xs x)%Z.
Proof.
  revert x. induction xs as [|y xs IH]; intro x; simpl.
  - split; [now left|]. split; [lia|]. intros y [].
  - destruct (IH (Z.max x y)) as [Hin [Hle Hall]]. split; [|split].
    + destruct Hin as [Hin|Hin]; [|now right; right].
      rewrite Hin.
      destruct (Z.max_spec x y) as [[_ E]|[_ E]]; rewrite E; auto.
    + lia.
    + intros y' [<-|Hy']; [lia | now apply Hall].
Qed.

(** [py_max] returns the largest element. *)
Lemma py_max_spec (xs : list Z) (z : Z) :
  py_max xs = Ok z -> In z xs /\ forall x, In x xs -> (x <= z)%Z.
Proof.
  destruct xs as [|x xs]; [discriminate|]. simpl. intros [= <-].
  destruct (fold_max_spec xs x) as [Hin [Hle Hall]]. split.
  - destruct Hin as [->|Hin]; auto.
  - intros y [<-|Hy]; auto.
Qed.

(** Conversely, [py_max] returns an element of the list that no other
    element exceeds. *)
Lemma py_max_largest (xs : list Z) (z : Z) :
  In z xs -> (forall x, In x xs -> (x <= z)%Z) -> py_max xs = Ok z.
Proof.
  intros Hin Hmax.
  destruct (py_max xs) as [z'|e] eqn:E.
  - apply py_max_spec in E as [Hin' Hmax'].
    f_equal. apply Z.le_antisymm; auto.
  - destruct xs; [destruct Hin | discriminate].
Qed.
End MaxCombinationLength.

Section LoadMaxCombinationLength.
Context {SC : Scalar}.
Import PerturbationData.

Variables (sample_rep : sample_rep_arg) (control_key : string)
  (perturbation_covariates : sdict pyval)
  (perturbation_covariate_reps : option (sdict string))
  (sample_covariates : option (list string))
  (sample_covariate_reps : option (sdict string))
  (split_covariates : option (list string))
  (null_value : num).

(** The factory with every argument but [max_combination_length]
    fixed. *)
Definition load_with (max_combination_length : option Z) : M TrainingData.t :=
  TrainingData.load_from_adata sample_rep control_key perturbation_covariates
    perturbation_covariate_reps sample_covariates sample_covariate_reps
    split_covariates max_combination_length null_value.

(** [z] is the largest declared group length: some group has [z]
    covariates and no group has more; the caller's value [m] is
    below it. *)
Variables (m z : Z).
Hypothesis Hin :
  In z (group_lengths (normalized_groups perturbation_covariates)).
Hypothesis Hmax :
  forall x, In x (group_lengths (normalized_groups perturbation_covariates)) ->
            (x <= z)%Z.
Hypothesis Hm : (m < z)%Z.

(** The maximum the code computes is that length. *)
Lemma observed_max :
  py_max (group_lengths (normalized_groups perturbation_covariates)) = Ok z.
Proof. now apply py_max_largest. Qed.

(** A too small value changes neither the outcome of the factory nor
    what it does to the dataset. *)
Lemma load_with_small_rel : rel (load_with (Some m)) (load_with None).
Proof.
  unfold load_with, TrainingData.load_from_adata.
  repeat first
    [ apply verify_control_data_rel
    | apply get_primary_covar_encoder_rel
    | apply (get_max_combination_length_rel _ m z observed_max Hm)
    | monad_step ].
Qed.

(** When the factory returns, the container holds the observed maximum
    and the warning has been logged. *)
Lemma load_with_small_wp (w : world) :
  wp (load_with (Some m))
     (fun c w' =>
        TrainingData.max_combination_length c = z
        /\ warnings_log w' = warnings_log w ++ [max_length_warning])
     (fun _ _ => True) w.
Proof.
  unfold load_with, TrainingData.load_from_adata.
  set (l := warnings_log w).
  assert (Hl : warnings_log w = l) by reflexivity.
  clearbody l. revert w Hl.
  intros w Hl.
  apply wp_bind; apply wp_silent; [apply verify_control_data_silent|].
  intros a w1 E1; rewrite Hl in E1; clear Hl w; cbv beta.
  do 6 (apply wp_bind; apply wp_silent; [monad_auto|];
        let a := fresh "a" in let w' := fresh "w" in let E := fresh "E" in
        intros a w' E;
        match goal with H : warnings_log ?w0 = l |- _ =>
          rewrite H in E; clear H end; cbv beta).
  apply wp_bind. unfold wp at 1.
  pose proof (get_max_combination_length_small _ m z w5 observed_max Hm) as G.
  unfold normalized_groups in G. rewrite G. clear G.
  destruct (_get_idx_to_covariate _) as [idx_to_covar covar_to_idx].
  match goal with |- wp _ _ _ ?w0 =>
    assert (Hl : warnings_log w0 = l ++ [max_length_warning])
      by (simpl; now rewrite E0);
    generalize dependent w0 end.
  intros w6 Hl.
  apply wp_bind; apply wp_silent; [apply get_primary_covar_encoder_silent|].
  intros enc w7 E7; rewrite Hl in E7; clear Hl; cbv beta.
  do 6 (apply wp_bind; apply wp_silent; [monad_auto|];
        let a := fresh "a" in let w' := fresh "w" in let E := fresh "E" in
        intros a w' E;
        match goal with H : warnings_log ?w0 = l ++ _ |- _ =>
          rewrite H in E; clear H end; cbv beta).
  apply wp_ret. split; [reflexivity | assumption].
Qed.

(** C9: a [max_combination_length] [m] below the largest declared
    group length [z] (some group has [z] covariates, none has more)
    does not make the factory fail: the length step returns [z] and
    logs a warning, the factory ends as it does when no value is given
    (same result or same exception, same dataset), and a returned
    container holds [z], not the caller's value. *)
Theorem max_combination_length_overridden (w : world) :
  _get_max_combination_length (normalized_groups perturbation_covariates)
                              (Some m) w
  = (mk_world (the_adata w) (warnings_log w ++ [max_length_warning]), Ok z)
  /\ snd (load_with (Some m) w) = snd (load_with None w)
  /\ the_adata (fst (load_with (Some m) w))
     = the_adata (fst (load_with None w))
  /\ (forall c w', load_with (Some m) w = (w', Ok c) ->
        TrainingData.max_combination_length c = z
        /\ warnings_log w' = warnings_log w ++ [max_length_warning]).
Proof.
  split; [apply get_max_combination_length_small; [apply observed_max|exact Hm]|].
  destruct (load_with_small_rel w w eq_refl) as [Ha Hr].
  split; [exact Hr|]. split; [exact Ha|].
  intros c w' Hrun.
  exact (wp_elim _ _ _ _ _ _ (load_with_small_wp w) Hrun).
Qed.
End LoadMaxCombinationLength.

(** ** A worked dataset *)

(** Six cells: two control cells without a dose and four treated cells
    with three distinct doses; a two-feature matrix. *)
Definition example_adata : AnnData :=
  mk_AnnData
    (mk_ndarray [6; 2] [0; 0; 0; 1; 1; 0; 2; 0; 2; 1; 3; 0]%Z)
    false
    [("control", mk_Column DBool
        [VBool true; VBool true; VBool false; VBool false; VBool false;
         VBool false]);
     ("dose", mk_Column DFloat
        [VNA; VNA; VNum 1%Z; VNum 2%Z; VNum 2%Z; VNum 3%Z])]
    [] [] 6.

Definition example_world : world := mk_world example_adata [].

(** [TrainingData.load_from_adata(adata, "X", "control",
    {"drug": ["dose"]})] with the given [max_combination_length]. *)
Abbreviation example_load max_combination_length :=
  (@load_with Z_Scalar (SRStr "X") "control" [("drug", PList [PStr "dose"])]
              None None None None 0%Z max_combination_length example_world).

(** The same cells with the drug given by name. *)
Definition example_adata_categorical : AnnData :=
  mk_AnnData
    (mk_ndarray [6; 2] [0; 0; 0; 1; 1; 0; 2; 0; 2; 1; 3; 0]%Z)
    false
    [("control", mk_Column DBool
        [VBool true; VBool true; VBool false; VBool false; VBool false;
         VBool false]);
     ("drug", mk_Column DObject
        [VStr "ctrl"; VStr "ctrl"; VStr "B"; VStr "A"; VStr "A"; VStr "C"])]
    [] [] 6.

(** The dataset after the call: the control column has been replaced
    by its conversion to the nullable boolean dtype. *)
Definition example_adata_after : AnnData :=
  mk_AnnData
    (mk_ndarray [6; 2] [0; 0; 0; 1; 1; 0; 2; 0; 2; 1; 3; 0]%Z)
    false
    [("control", mk_Column DBoolean
        [VBool true; VBool true; VBool false; VBool false; VBool false;
         VBool false]);
     ("dose", mk_Column DFloat
        [VNA; VNA; VNum 1%Z; VNum 2%Z; VNum 2%Z; VNum 3%Z])]
    [] [] 6.

(** The container the call returns. *)
Definition example_container : TrainingData.t :=
  TrainingData.mk
    (mk_ndarray [6; 2] [0; 0; 0; 1; 1; 0; 2; 0; 2; 1; 3; 0]%Z)
    [0; 0; 0; 0; 0; 0]%Z
    [(0%Z, [])]
    [-1; -1; 0; 1; 1; 2]%Z
    [(0%Z, [VNum 1%Z]); (1%Z, [VNum 2%Z]); (2%Z, [VNum 3%Z])]
    [("drug", mk_ndarray [3; 1; 1] [1; 2; 3]%Z)]
    [(1%Z, [0; 1; 2]%Z)]
    1%Z
    0%Z.

Lemma example_load_small :
  example_load (Some 0%Z)
  = (mk_world example_adata_after [PerturbationData.max_length_warning],
     Ok example_container).
Proof. reflexivity. Qed.

Lemma example_load_none :
  example_load None = (mk_world example_adata_after [], Ok example_container).
Proof. reflexivity. Qed.

(** Four cells, one of them a control cell, treated with combinations
    of two drugs whose doses are stored in two columns. *)
Definition example_adata_pair : AnnData :=
  mk_AnnData
    (mk_ndarray [4; 1] [0; 1; 2; 3]%Z)
    false
    [("control", mk_Column DBool
        [VBool true; VBool false; VBool false; VBool false]);
     ("dose_a", mk_Column DFloat [VNum 0%Z; VNum 1%Z; VNum 0%Z; VNum 2%Z]);
     ("dose_b", mk_Column DFloat [VNum 0%Z; VNum 0%Z; VNum 3%Z; VNum 3%Z])]
    [] [] 4.

Definition example_adata_pair_after : AnnData :=
  mk_AnnData
    (mk_ndarray [4; 1] [0; 1; 2; 3]%Z)
    false
    [("control", mk_Column DBoolean
        [VBool true; VBool false; VBool false; VBool false]);
     ("dose_a", mk_Column DFloat [VNum 0%Z; VNum 1%Z; VNum 0%Z; VNum 2%Z]);
     ("dose_b", mk_Column DFloat [VNum 0%Z; VNum 0%Z; VNum 3%Z; VNum 3%Z])]
    [] [] 4.

(** The container of the call with the one group
    [{"combo": ["dose_a", "dose_b"]}]: every embedding has two rows. *)
Definition example_container_pair : TrainingData.t :=
  TrainingData.mk
    (mk_ndarray [4; 1] [0; 1; 2; 3]%Z)
    [0; 0; 0; 0]%Z
    [(0%Z, [])]
    [0; 1; 2; 3]%Z
    [(0%Z, [VNum 0%Z; VNum 0%Z]); (1%Z, [VNum 1%Z; VNum 0%Z]);
     (2%Z, [VNum 0%Z; VNum 3%Z]); (3%Z, [VNum 2%Z; VNum 3%Z])]
    [("combo", mk_ndarray [4; 2; 2]
                 [0; 0; 0; 0; 1; 0; 0; 0; 0; 0; 0; 3; 2; 0; 0; 3]%Z)]
    [(1%Z, [0; 1; 2; 3]%Z)]
    2%Z
    0%Z.

Lemma example_load_pair :
  @load_with Z_Scalar (SRStr "X") "control"
    [("combo", PList [PStr "dose_a"; PStr "dose_b"])]
    None None None None 0%Z (Some 1%Z) (mk_world example_adata_pair [])
  = (mk_world example_adata_pair_after [PerturbationData.max_length_warning],
     Ok example_container_pair).
Proof. reflexivity. Qed.

(** A group of two covariates and the caller's value 1: the factory
    returns, the container holds 2 and the warning has been logged.
    With a first group of one covariate and a second of two, the length
    step returns 2 as well, the length of the larger group. *)
Lemma max_combination_length_overridden_witness :
  (In 2%Z (group_lengths
             (normalized_groups
                [("combo", PList [PStr "dose_a"; PStr "dose_b"])]))
   /\ (1 < 2)%Z
   /\ @load_with Z_Scalar (SRStr "X") "control"
        [("combo", PList [PStr "dose_a"; PStr "dose_b"])]
        None None None None 0%Z (Some 1%Z) (mk_world example_adata_pair [])
      = (mk_world example_adata_pair_after
           [PerturbationData.max_length_warning],
         Ok example_container_pair)
   /\ TrainingData.max_combination_length example_container_pair = 2%Z
   /\ warnings_log
        (mk_world example_adata_pair_after
           [PerturbationData.max_length_warning])
      = warnings_log (mk_world example_adata_pair [])
        ++ [PerturbationData.max_length_warning])
  /\ group_lengths
       (normalized_groups
          [("drug", PList [PStr "dose_a"]);
           ("combo", PList [PStr "dose_a"; PStr "dose_b"])])
     = [1; 2]%Z
  /\ PerturbationData._get_max_combination_length
       (normalized_groups
          [("drug", PList [PStr "dose_a"]);
           ("combo", PList [PStr "dose_a"; PStr "dose_b"])])
       (Some 1%Z) (mk_world example_adata_pair [])
     = (mk_world example_adata_pair [PerturbationData.max_length_warning],
        Ok 2%Z).
Proof.
  assert (Hin : In 2%Z (group_lengths
                          (normalized_groups
                             [("combo", PList [PStr "dose_a"; PStr "dose_b"])])))
    by (left; reflexivity).
  assert (Hmax : forall x,
             In x (group_lengths
                     (normalized_groups
                        [("combo", PList [PStr "dose_a"; PStr "dose_b"])])) ->
             (x <= 2)%Z)
    by (intros x [<-|[]]; discriminate).
  assert (Hin' : In 2%Z (group_lengths
                           (normalized_groups
                              [("drug", PList [PStr "dose_a"]);
                               ("combo", PList [PStr "dose_a"; PStr "dose_b"])])))
    by (right; left; reflexivity).
  assert (Hmax' : forall x,
             In x (group_lengths
                     (normalized_groups
                        [("drug", PList [PStr "dose_a"]);
                         ("combo", PList [PStr "dose_a"; PStr "dose_b"])])) ->
             (x <= 2)%Z)
    by (intros x [<-|[<-|[]]]; discriminate).
  split; [|split; [reflexivity|]].
  - split; [exact Hin|]. split; [reflexivity|].
    split; [exact example_load_pair|].
    exact (proj2 (proj2 (proj2
      (@max_combination_length_overridden Z_Scalar (SRStr "X")
         "control" [("combo", PList [PStr "dose_a"; PStr "dose_b"])]
         None None None None 0%Z 1%Z 2%Z Hin Hmax eq_refl
         (mk_world example_adata_pair []))))
      _ _ example_load_pair).
  - exact (proj1
      (@max_combination_length_overridden Z_Scalar (SRStr "X")
         "control"
         [("drug", PList [PStr "dose_a"]);
          ("combo", PList [PStr "dose_a"; PStr "dose_b"])]
         None None None None 0%Z 1%Z 2%Z Hin' Hmax' eq_refl
         (mk_world example_adata_pair []))).
Defined.



(** ** The primary encoder *)

Section PrimaryEncoder.
Context {SC : Scalar}.
Import PerturbationData.

(** C4, what the code returns: [None] when a representation is
    declared for the primary group; in the numeric case the pair of an
    encoder fitted on the covariate names and the flag [False]; in the
    categorical case the bare encoder fitted on the distinct column
    values, not a pair. *)
Theorem get_primary_covar_encoder_result
    (g : groups) (reps : sdict string) (w w' : world)
    (r : encoder_result OneHotEncoder)
    (Hrun : _get_primary_covar_encoder g reps w = (w', Ok r)) :
  exists primary_group primary_covars rest,
    g = (primary_group, primary_covars) :: rest
    /\ match r with
       | RNone => smem reps primary_group = true
       | REncoder enc =>
           smem reps primary_group = false
           /\ _check_covariate_type primary_covars w = (w', Ok true)
           /\ exists rows all_values,
               frame_rows (the_adata w') (column_labels primary_covars) = Ok rows
               /\ np_unique (List.concat rows) = Ok all_values
               /\ fit all_values = Ok enc
       | RPair enc is_categorical =>
           smem reps primary_group = false
           /\ is_categorical = false
           /\ _check_covariate_type primary_covars w = (w', Ok false)
           /\ fit (column_labels primary_covars) = Ok enc
       end.
Proof.
  unfold _get_primary_covar_encoder in Hrun.
  destruct g as [|[primary_group primary_covars] rest]; [discriminate|].
  exists primary_group, primary_covars, rest. split; [reflexivity|].
  unfold mbind in Hrun.
  destruct (_check_covariate_type primary_covars w) as [w1 [b|e]];
    [|discriminate].
  destruct (smem reps primary_group) eqn:Hrep.
  - inversion Hrun; subst. reflexivity.
  - destruct b.
    + unfold get_adata, lift, ret in Hrun.
      destruct (frame_rows (the_adata w1) (column_labels primary_covars))
        as [rows|e] eqn:Hrows; [|discriminate].
      destruct (np_unique (List.concat rows)) as [all_values|e] eqn:Hu;
        [|discriminate].
      destruct (fit all_values) as [enc|e] eqn:Hfit; [|discriminate].
      inversion Hrun; subst.
      split; [reflexivity|]. split; [reflexivity|].
      exists rows, all_values. auto.
    + unfold lift, ret in Hrun.
      destruct (fit (column_labels primary_covars)) as [enc|e] eqn:Hfit;
        [|discriminate].
      inversion Hrun; subst. auto.
Qed.
End PrimaryEncoder.

Definition example_world_categorical : world :=
  mk_world example_adata_categorical [].

(** The failing input of C4: a primary covariate given by name and no
    representation.  The encoder is fitted on the sorted distinct names
    and comes back bare. *)
Lemma example_encoder_categorical :
  snd (PerturbationData._get_primary_covar_encoder
         [("drug", [Some "drug"])] [] example_world_categorical)
  = Ok (REncoder (PerturbationData.mk_OneHotEncoder ["A"; "B"; "C"; "ctrl"])).
Proof. reflexivity. Qed.

Lemma example_encoder_categorical_run :
  PerturbationData._get_primary_covar_encoder
    [("drug", [Some "drug"])] [] example_world_categorical
  = (mk_world (set_column example_adata_categorical "drug"
                 (mk_Column DCategory
                    [VStr "ctrl"; VStr "ctrl"; VStr "B"; VStr "A"; VStr "A";
                     VStr "C"])) [],
     Ok (REncoder (PerturbationData.mk_OneHotEncoder ["A"; "B"; "C"; "ctrl"]))).
Proof. reflexivity. Qed.

Lemma get_primary_covar_encoder_result_witness :
  exists primary_group primary_covars rest,
    [("drug", [Some "drug"])] = (primary_group, primary_covars) :: rest
    /\ smem ([] : sdict string) primary_group = false
    /\ PerturbationData._check_covariate_type primary_covars
         example_world_categorical
       = (mk_world (set_column example_adata_categorical "drug"
                      (mk_Column DCategory
                         [VStr "ctrl"; VStr "ctrl"; VStr "B"; VStr "A";
                          VStr "A"; VStr "C"])) [],
          Ok true)
    /\ exists rows all_values,
         frame_rows (set_column example_adata_categorical "drug"
                       (mk_Column DCategory
                          [VStr "ctrl"; VStr "ctrl"; VStr "B"; VStr "A";
                           VStr "A"; VStr "C"]))
                    (PerturbationData.column_labels primary_covars) = Ok rows
         /\ PerturbationData.np_unique (List.concat rows) = Ok all_values
         /\ PerturbationData.fit all_values
            = Ok (PerturbationData.mk_OneHotEncoder ["A"; "B"; "C"; "ctrl"]).
Proof.
  exact (@get_primary_covar_encoder_result Z_Scalar _ _ _ _ _
           example_encoder_categorical_run).
Defined.

(** As a consequence the factory cannot unpack what it was handed and
    raises on the first target population. *)
Lemma example_load_categorical :
  snd (TrainingData.load_from_adata (SRStr "X") "control"
         [("drug", PList [PStr "drug"])] None None None None None 0%Z
         example_world_categorical)
  = Raise (TypeError "cannot unpack non-iterable OneHotEncoder object").
Proof. reflexivity. Qed.

(** ** What an assembler call does to the caller's dataset *)

Section Frame.
Context {SC : Scalar}.
Import PerturbationData.

Lemma sget_sset_same {V : Type} (d : sdict V) (k : string) (v : V) :
  sget (sset d k v) k = Some v.
Proof.
  unfold sget, sset. induction d as [|[k' v'] d IH]; simpl.
  - now rewrite String.eqb_refl.
  - destruct (String.eqb k' k) eqn:E; simpl; rewrite E; auto.
Qed.

Lemma sget_sset_other {V : Type} (d : sdict V) (k k' : string) (v : V) :
  k' <> k -> sget (sset d k v) k' = sget d k'.
Proof.
  intro Hne. unfold sget, sset. induction d as [|[k0 v0] d IH]; simpl.
  - destruct (String.eqb_spec k k'); [congruence | reflexivity].
  - destruct (String.eqb_spec k0 k) as [->|Hk]; simpl.
    + destruct (String.eqb_spec k k'); [congruence | reflexivity].
    + destruct (String.eqb_spec k0 k'); auto.
Qed.

Lemma labels_sset_present {V : Type} (d : sdict V) (k : string) (v v0 : V) :
  sget d k = Some v0 -> map fst (sset d k v) = map fst d.
Proof.
  unfold sget, sset. induction d as [|[k' v'] d IH]; simpl; [discriminate|].
  destruct (String.eqb_spec k' k) as [->|Hk]; simpl; intro H.
  - reflexivity.
  - f_equal. auto.
Qed.

(** Everything but the named metadata columns is the same in [a'] as in
    [a]; the column labels and their order are the same too. *)
Definition frame (K : list string) (a a' : AnnData) : Prop :=
  X a' = X a /\ X_is_csr a' = X_is_csr a /\ uns a' = uns a
  /\ attrs a' = attrs a /\ n_obs a' = n_obs a
  /\ map fst (obs a') = map fst (obs a)
  /\ forall k, ~ In k K -> sget (obs a') k = sget (obs a) k.

Lemma frame_refl (K : list string) (a : AnnData) : frame K a a.
Proof. unfold frame. intuition. Qed.

Lemma frame_trans (K : list string) (a b c : AnnData) :
  frame K a b -> frame K b c -> frame K a c.
Proof.
  unfold frame. intros (H1 & H2 & H3 & H4 & H5 & H6 & H7)
                       (G1 & G2 & G3 & G4 & G5 & G6 & G7).
  repeat split; try congruence.
  intros k Hk. rewrite G7, H7; auto.
Qed.

Lemma frame_weaken (K K' : list string) (a b : AnnData) :
  incl K K' -> frame K a b -> frame K' a b.
Proof.
  unfold frame. intros Hi (H1 & H2 & H3 & H4 & H5 & H6 & H7).
  repeat split; auto.
Qed.

Lemma frame_set_column (K : list string) (a : AnnData) (k : string)
    (c c0 : Column) :
  sget (obs a) k = Some c0 -> In k K -> frame K a (set_column a k c).
Proof.
  intros Hget Hin. unfold frame, set_column, set_obs. simpl.
  repeat split; auto.
  - eapply labels_sset_present; eauto.
  - intros k' Hk'. apply sget_sset_other. intros ->. contradiction.
Qed.

(** A computation that changes the dataset at most in the columns
    [K]. *)
Definition preserves {A : Type} (K : list string) (m : M A) : Prop :=
  forall w, frame K (the_adata w) (the_adata (fst (m w))).

Lemma preserves_bind {A B : Type} K (m : M A) (k : A -> M B) :
  preserves K m -> (forall a, preserves K (k a)) -> preserves K (mbind m k).
Proof.
  intros Hm Hk w. unfold mbind. specialize (Hm w).
  destruct (m w) as [w' [a|e]]; simpl in *; [|assumption].
  eapply frame_trans; [eassumption | apply Hk].
Qed.

Lemma preserves_ret {A : Type} K (a : A) : preserves K (ret a).
Proof. intro w. apply frame_refl. Qed.

Lemma preserves_raise {A : Type} K (e : exn) : preserves K (@raise _ A e).
Proof. intro w. apply frame_refl. Qed.

Lemma preserves_lift {A : Type} K (r : result A) : preserves K (lift r).
Proof. intro w. apply frame_refl. Qed.

Lemma preserves_get K : preserves K get_adata.
Proof. intro w. apply frame_refl. Qed.

Lemma preserves_warn K (msg : string) : preserves K (warn msg).
Proof. intro w. apply frame_refl. Qed.

Lemma preserves_weaken {A : Type} K K' (m : M A) :
  incl K K' -> preserves K m -> preserves K' m.
Proof. intros Hi Hm w. eapply frame_weaken; eauto. Qed.

(** The verification of the control column changes that column only. *)
Lemma verify_control_data_preserves (k : string) :
  preserves [k] (_verify_control_data (PStr k)).
Proof.
  intro w. unfold _verify_control_data, mbind, get_adata, lift, in_obs,
    put_adata, ret, raise, smem, dict_mem.
  fold (sget (obs (the_adata w)) k).
  destruct (sget (obs (the_adata w)) k) as [col|] eqn:Hget; simpl;
    [|apply frame_refl].
  destruct (col_dtype col); simpl;
    try (destruct (count_true col =? 0); apply frame_refl);
    (destruct (astype_boolean col) as [c|]; simpl; [|apply frame_refl];
     destruct (count_true c =? 0); simpl;
     eapply frame_set_column; eauto; now left).
Qed.

(** Any other control key leaves the dataset alone. *)
Lemma verify_control_data_preserves_any (key : pyval) (K : list string) :
  (forall k, key = PStr k -> In k K) ->
  preserves K (_verify_control_data key).
Proof.
  intro HK. destruct key;
    try (intro w; unfold _verify_control_data, mbind, get_adata, lift, in_obs,
           raise; simpl; try destruct (forallb hashable l); apply frame_refl).
  eapply preserves_weaken; [|apply verify_control_data_preserves].
  intros k [<-|[]]. now apply HK.
Qed.

(** The classification of a group coerces the columns of that group
    only. *)
Lemma check_covariate_type_preserves (covars : list (option string)) :
  preserves (column_labels covars) (_check_covariate_type covars).
Proof.
  unfold _check_covariate_type.
  apply preserves_bind.
  - match goal with
    | |- preserves _ (mfor ?body covars []) =>
        enough (forall acc,
                   preserves (column_labels covars) (mfor body covars acc))
          by auto
    end.
    induction covars as [|c covars IH]; intro acc; simpl.
    + apply preserves_ret.
    + apply preserves_bind.
      * intro w. unfold mbind, get_adata, put_adata, ret, raise.
        destruct c as [k|]; [|apply frame_refl].
        destruct (sget (obs (the_adata w)) k) as [col|] eqn:Hget;
          [|apply frame_refl].
        destruct (astype_float col); simpl;
          eapply frame_set_column; eauto; simpl; destruct covars; simpl; auto.
      * intros acc'. eapply preserves_weaken; [|apply IH].
        unfold column_labels. simpl. apply incl_appr, incl_refl.
  - intros col_is_cat. destruct col_is_cat; [apply preserves_raise|].
    match goal with |- preserves _ (if ?c then _ else _) => destruct c end;
      [apply preserves_raise | apply preserves_ret].
Qed.

Lemma get_primary_covar_encoder_preserves (g : groups) (reps : sdict string) :
  preserves (match g with [] => [] | (_, l) :: _ => column_labels l end)
            (_get_primary_covar_encoder g reps).
Proof.
  unfold _get_primary_covar_encoder.
  destruct g as [|[primary_group primary_covars] rest];
    [apply preserves_raise|].
  apply preserves_bind; [apply check_covariate_type_preserves|].
  intros b. destruct (smem reps primary_group); [apply preserves_ret|].
  destruct b.
  - repeat (apply preserves_bind;
            [first [apply preserves_get | apply preserves_lift]|intros]).
    apply preserves_ret.
  - apply preserves_bind; [apply preserves_lift|intros]. apply preserves_ret.
Qed.
End Frame.

(** One step of the factory that leaves the state alone: reading the
    dataset, or a pure check that may raise. *)
Ltac wp_pure :=
  cbv beta; apply wp_bind;
  lazymatch goal with
  | |- wp get_adata _ _ _ => apply wp_get
  | |- wp (lift _) _ _ _ =>
      apply wp_lift;
      lazymatch goal with
      | |- match ?r with _ => _ end => destruct r; [|exact I]
      end
  end; cbv beta.

(** The columns the primary perturbation covariate group names. *)
Definition primary_labels (perturbation_covariates : sdict pyval)
  : list string :=
  match normalized_groups perturbation_covariates with
  | [] => []
  | (_, l) :: _ => PerturbationData.column_labels l
  end.

Section Coercion.
Context {SC : Scalar}.
Import PerturbationData.

(** The column [k] of the dataset has the nullable boolean dtype. *)
Definition is_boolean (k : string) (a : AnnData) : Prop :=
  exists col, sget (obs a) k = Some col /\ col_dtype col = DBoolean.

(** The column [k] of the dataset has been coerced to float or to
    category. *)
Definition is_coerced (k : string) (a : AnnData) : Prop :=
  exists col, sget (obs a) k = Some col
              /\ (col_dtype col = DFloat \/ col_dtype col = DCategory).

Lemma astype_boolean_dtype (col c : Column) :
  astype_boolean col = Some c -> col_dtype c = DBoolean.
Proof.
  unfold astype_boolean. destruct (traverse bool_like (col_values col));
    simpl; [|discriminate]. now intros [= <-].
Qed.

Lemma astype_float_dtype (col c : Column) :
  astype_float col = Some c -> col_dtype c = DFloat.
Proof.
  unfold astype_float. destruct (traverse float_like (col_values col));
    simpl; [|discriminate]. now intros [= <-].
Qed.

Lemma verify_control_data_boolean (k : string) (w w' : world) (u : unit) :
  _verify_control_data (PStr k) w = (w', Ok u) -> is_boolean k (the_adata w').
Proof.
  unfold _verify_control_data, mbind, get_adata, lift, in_obs,
    put_adata, ret, raise, smem, dict_mem.
  fold (sget (obs (the_adata w)) k).
  destruct (sget (obs (the_adata w)) k) as [col|] eqn:Hget; simpl;
    [|discriminate].
  destruct (col_dtype col) eqn:Hd; simpl;
    try (destruct (astype_boolean col) as [c|] eqn:Hc; simpl; [|discriminate];
         destruct (count_true c =? 0); [discriminate|];
         intros [= <- _]; exists c; simpl; split;
         [apply sget_sset_same | eapply astype_boolean_dtype; eauto]).
  destruct (count_true col =? 0); [discriminate|].
  intros [= <- _]. exists col. auto.
Qed.

Section CoercingLoop.
Variable f : list bool -> option string -> M (list bool).
Hypothesis Hstep :
  forall acc0 c w0 w2 acc2,
    f acc0 c w0 = (w2, Ok acc2) ->
    (exists k, c = Some k /\ is_coerced k (the_adata w2))
    /\ forall k, is_coerced k (the_adata w0) -> is_coerced k (the_adata w2).

Lemma mfor_coerced_keep (l : list (option string)) :
  forall acc w w' acc',
    mfor f l acc w = (w', Ok acc') ->
    forall k, is_coerced k (the_adata w) -> is_coerced k (the_adata w').
Proof.
  induction l as [|c l IH]; intros acc w w' acc' Hloop k Hk; simpl in Hloop.
  - now inversion Hloop; subst.
  - unfold mbind in Hloop.
    destruct (f acc c w) as [w2 [acc2|e]] eqn:Hf; [|discriminate].
    eapply IH; [eassumption|]. eapply Hstep; eauto.
Qed.

Lemma mfor_coerced_all (l : list (option string)) :
  forall acc w w' acc',
    mfor f l acc w = (w', Ok acc') ->
    forall k, In k (column_labels l) -> is_coerced k (the_adata w').
Proof.
  induction l as [|c l IH]; intros acc w w' acc' Hloop k Hk;
    [destruct Hk|].
  simpl in Hloop. unfold mbind in Hloop.
  destruct (f acc c w) as [w2 [acc2|e]] eqn:Hf; [|discriminate].
  destruct (Hstep _ _ _ _ _ Hf) as [(k0 & -> & Hk0) _].
  simpl in Hk. destruct Hk as [<-|Hk].
  - eapply mfor_coerced_keep; eauto.
  - eapply IH; eauto.
Qed.
End CoercingLoop.

Lemma check_covariate_type_coerced (covars : list (option string))
    (w w' : world) (b : bool) :
  _check_covariate_type covars w = (w', Ok b) ->
  forall k, In k (column_labels covars) -> is_coerced k (the_adata w').
Proof.
  unfold _check_covariate_type, mbind at 1.
  match goal with
  | |- context [mfor ?body covars []] => set (f := body)
  end.
  destruct (mfor f covars [] w) as [w1 [acc|e]] eqn:Hloop; [|discriminate].
  intro Hfin.
  assert (w' = w1) as ->.
  { destruct acc; [discriminate|].
    match type of Hfin with (if ?c then _ else _) _ = _ => destruct c end;
      inversion Hfin; reflexivity. }
  clear Hfin. eapply mfor_coerced_all; [|eassumption].
  intros acc0 c w0 w2 acc2. unfold f, mbind, get_adata, put_adata, ret, raise.
  destruct c as [k|]; [|discriminate].
  destruct (sget (obs (the_adata w0)) k) as [col|] eqn:Hget; [|discriminate].
  assert (Hset : forall c0,
             (col_dtype c0 = DFloat \/ col_dtype c0 = DCategory) ->
             (exists k0, Some k = Some k0
                /\ is_coerced k0 (set_column (the_adata w0) k c0))
             /\ forall k0, is_coerced k0 (the_adata w0) ->
                           is_coerced k0 (set_column (the_adata w0) k c0)).
  { intros c0 Hc0. split.
    - exists k. split; [reflexivity|]. exists c0. split; [|assumption].
      apply sget_sset_same.
    - intros k0 (col0 & Hg0 & Hd0).
      destruct (String.string_dec k0 k) as [->|Hne].
      + exists c0. split; [apply sget_sset_same | assumption].
      + exists col0. split; [|assumption].
        simpl. now rewrite sget_sset_other. }
  destruct (astype_float col) as [c0|] eqn:Hf; simpl; intros [= <- _].
  - apply Hset. left. eapply astype_float_dtype; eauto.
  - apply Hset. now right.
Qed.

Lemma get_primary_covar_encoder_coerced (g : groups) (reps : sdict string)
    (w w' : world) (r : encoder_result OneHotEncoder) :
  _get_primary_covar_encoder g reps w = (w', Ok r) ->
  forall k, In k (match g with [] => [] | (_, l) :: _ => column_labels l end) ->
            is_coerced k (the_adata w').
Proof.
  unfold _get_primary_covar_encoder.
  destruct g as [|[primary_group primary_covars] rest]; [discriminate|].
  unfold mbind at 1.
  destruct (_check_covariate_type primary_covars w) as [w1 [b|e]] eqn:Hc;
    [|discriminate].
  intros Hrun k Hk.
  assert (w' = w1) as ->.
  { destruct (smem reps primary_group); [now inversion Hrun|].
    unfold mbind, get_adata, lift, ret in Hrun.
    destruct b.
    - destruct (frame_rows _ _); [|discriminate].
      destruct (np_unique _); [|discriminate].
      destruct (fit _); [|discriminate]. now inversion Hrun.
    - destruct (fit _); [|discriminate]. now inversion Hrun. }
  eapply check_covariate_type_coerced; eauto.
Qed.

Lemma get_max_combination_length_preserves K (g : groups) (mcl : option Z) :
  preserves K (_get_max_combination_length g mcl).
Proof.
  unfold _get_max_combination_length.
  apply preserves_bind; [apply preserves_lift|]. intro z.
  destruct mcl as [m|]; [|apply preserves_ret].
  destruct (m <? z)%Z; [|apply preserves_ret].
  apply preserves_bind; [apply preserves_warn|]. intro. apply preserves_ret.
Qed.

Lemma get_max_combination_length_adata (g : groups) (mcl : option Z) w :
  the_adata (fst (_get_max_combination_length g mcl w)) = the_adata w.
Proof.
  unfold _get_max_combination_length, mbind, lift, warn, ret.
  destruct (py_max _); [|reflexivity].
  destruct mcl as [m|]; [|reflexivity].
  destruct (m <? a)%Z; reflexivity.
Qed.

Variables (sample_rep : sample_rep_arg) (control_key : string)
  (perturbation_covariates : sdict pyval)
  (perturbation_covariate_reps : option (sdict string))
  (sample_covariates : option (list string))
  (sample_covariate_reps : option (sdict string))
  (split_covariates : option (list string))
  (max_combination_length : option Z)
  (null_value : num).

Local Abbreviation load :=
  (load_with sample_rep control_key perturbation_covariates
     perturbation_covariate_reps sample_covariates sample_covariate_reps
     split_covariates null_value max_combination_length).

(** Whatever its outcome, the factory changes the caller's dataset at
    most in the control column and the primary covariate columns. *)
Lemma load_from_adata_preserves :
  preserves (control_key :: primary_labels perturbation_covariates) load.
Proof.
  unfold load_with, TrainingData.load_from_adata, primary_labels,
    normalized_groups.
  repeat first
    [ apply preserves_ret | apply preserves_raise | apply preserves_lift
    | apply preserves_get
    | apply get_max_combination_length_preserves
    | eapply preserves_weaken;
      [|apply verify_control_data_preserves]; intros k [<-|[]]; now left
    | eapply preserves_weaken;
      [|apply get_primary_covar_encoder_preserves]; apply incl_tl, incl_refl
    | apply preserves_bind; [|intros]
    | match goal with
      | |- preserves _ (match ?x with _ => _ end) => destruct x
      end ].
Qed.

(** When the factory returns, the primary covariate columns of the
    caller's dataset have been coerced, and so has the control column
    unless it is a primary covariate itself. *)
Lemma load_from_adata_coerces (w : world) :
  wp load
     (fun _ w' =>
        (forall k, In k (primary_labels perturbation_covariates) ->
                   is_coerced k (the_adata w'))
        /\ (~ In control_key (primary_labels perturbation_covariates) ->
            is_boolean control_key (the_adata w')))
     (fun _ _ => True) w.
Proof.
  unfold load_with, TrainingData.load_from_adata.
  apply wp_bind. unfold wp at 1.
  destruct (_verify_control_data (PStr control_key) w) as [w1 [u|e]] eqn:E1;
    [|exact I].
  apply verify_control_data_boolean in E1.
  do 6 wp_pure.
  apply wp_bind. unfold wp at 1.
  match goal with
  | |- context [_get_max_combination_length ?g ?mcl w1] =>
      pose proof (get_max_combination_length_adata g mcl w1) as E2;
      destruct (_get_max_combination_length g mcl w1) as [w2 [z|e]];
      [|exact I]
  end.
  simpl in E2.
  destruct (_get_idx_to_covariate _) as [idx_to_covar covar_to_idx].
  apply wp_bind. unfold wp at 1.
  match goal with
  | |- context [_get_primary_covar_encoder ?g ?reps w2] =>
      pose proof (get_primary_covar_encoder_preserves g reps w2) as F3;
      pose proof (get_primary_covar_encoder_coerced g reps w2) as C3;
      destruct (_get_primary_covar_encoder g reps w2) as [w3 [enc|e]];
      [|exact I]
  end.
  simpl in F3. specialize (C3 w3 enc eq_refl).
  assert (Hpost :
    (forall k, In k (primary_labels perturbation_covariates) ->
               is_coerced k (the_adata w3))
    /\ (~ In control_key (primary_labels perturbation_covariates) ->
        is_boolean control_key (the_adata w3))).
  { split; [exact C3|]. intro Hnot.
    destruct E1 as (col & Hget & Hd). exists col. split; [|assumption].
    destruct F3 as (_ & _ & _ & _ & _ & _ & F3).
    rewrite F3, E2; auto. }
  clear E1 E2 F3 C3.
  wp_pure.
  apply wp_bind.
  match goal with
  | |- wp (if ?c then _ else _) _ _ _ => destruct c
  end; [wp_pure|]; apply wp_ret; do 4 wp_pure; apply wp_ret; exact Hpost.
Qed.

(** What the verification of the control column can do to a column:
    nothing, or replace it by its boolean conversion. *)
Lemma verify_control_data_column (key : pyval) (w : world) (k : string)
    (col : Column) :
  sget (obs (the_adata w)) k = Some col ->
  exists col',
    sget (obs (the_adata (fst (_verify_control_data key w)))) k = Some col'
    /\ (col' = col \/ astype_boolean col = Some col').
Proof.
  intro Hget.
  assert (Hsame : exists col',
             sget (obs (the_adata w)) k = Some col'
             /\ (col' = col \/ astype_boolean col = Some col'))
    by (exists col; auto).
  unfold _verify_control_data, mbind, get_adata, lift, in_obs,
    put_adata, ret, raise, smem, dict_mem.
  destruct key as [| | |k0|l| |]; simpl; try exact Hsame;
    [|destruct (forallb hashable l); exact Hsame].
  fold (sget (obs (the_adata w)) k0).
  destruct (sget (obs (the_adata w)) k0) as [col0|] eqn:Hget0; simpl;
    [|exact Hsame].
  assert (Hset : forall c, astype_boolean col0 = Some c ->
             exists col',
               sget (sset (obs (the_adata w)) k0 c) k = Some col'
               /\ (col' = col \/ astype_boolean col = Some col')).
  { intros c Hc. destruct (String.string_dec k k0) as [->|Hne].
    - exists c. split; [apply sget_sset_same|]. right. congruence.
    - exists col. split; [|now left]. now rewrite sget_sset_other. }
  destruct (col_dtype col0); simpl;
    try (destruct (astype_boolean col0) as [c|] eqn:Hc; simpl;
         [destruct (count_true c =? 0); simpl; now apply Hset | exact Hsame]).
  destruct (count_true col0 =? 0); exact Hsame.
Qed.

Lemma bool_like_all_true (n : nat) :
  traverse bool_like (repeat (VBool true) n) = Some (repeat (VBool true) n).
Proof.
  induction n as [|n IH]; simpl; [reflexivity|]. now rewrite IH.
Qed.

End Coercion.

(** ** The validation factory *)

Section Validation.
Context {SC : Scalar}.
Import PerturbationData.

Variables (CONTROL_HELPER : string) (sample_rep : sample_rep_arg)
  (control_data : pyval) (split_covariates : option (list string))
  (obs_perturbation_covariates : list pyval)
  (uns_perturbation_covariates : sdict pyval)
  (max_combination_length : Z) (null_value : option value)
  (null_token : num).

Local Abbreviation vload :=
  (ValidationData.load_from_adata CONTROL_HELPER sample_rep control_data
     split_covariates obs_perturbation_covariates uns_perturbation_covariates
     max_combination_length null_value null_token).

(** No class of the hierarchy defines the method the factory calls
    after the verification of the control column. *)
Lemma verify_obs_perturbation_covariates_undefined :
  getattr_cls "_verify_obs_perturbation_covariates"
  = Raise (AttributeError "_verify_obs_perturbation_covariates").
Proof. reflexivity. Qed.

(** A [(column, value)] pair is no column label. *)
Lemma verify_control_data_pair (l : list pyval) (w : world) :
  hashable (PTuple l) = true ->
  _verify_control_data (PTuple l) w
  = (w, Raise (ValueError "Control column not found in adata.obs.")).
Proof.
  intro H. unfold _verify_control_data, mbind, get_adata, lift, in_obs.
  now rewrite H.
Qed.

(** Without split covariates the helper column is written into the
    caller's dataset. *)
Lemma inject_control_helper_column (w : world) :
  split_covariates = None \/ split_covariates = Some [] ->
  exists w',
    ValidationData.inject_control_helper CONTROL_HELPER split_covariates w
    = (w', Ok [CONTROL_HELPER])
    /\ n_obs (the_adata w') = n_obs (the_adata w)
    /\ sget (obs (the_adata w')) CONTROL_HELPER
       = Some (mk_Column DCategory
                 (repeat (VBool true) (n_obs (the_adata w)))).
Proof.
  intro Hs.
  assert (E : ValidationData.inject_control_helper CONTROL_HELPER
                split_covariates w
              = ValidationData.inject_control_helper CONTROL_HELPER None w)
    by (destruct Hs as [->| ->]; reflexivity).
  rewrite E. clear E Hs.
  unfold ValidationData.inject_control_helper, mbind, get_adata, put_adata.
  cbn [the_adata set_column set_obs obs fst snd].
  rewrite sget_sset_same. cbn [the_adata ret].
  eexists. split; [reflexivity|]. cbn [the_adata set_column set_obs obs n_obs].
  split; [reflexivity|]. now rewrite sget_sset_same.
Qed.

(** C5, what the code does: the factory never returns a container.
    Given the documented [(column, value)] pair it raises at the
    verification of the control column, and on any other input it
    raises there or at the call of a method that does not exist.
    Without split covariates the helper column has by then been written
    into the caller's dataset. *)
Theorem validation_load_from_adata_raises (w : world) :
  (exists e, snd (vload w) = Raise e)
  /\ (forall l, control_data = PTuple l -> hashable (PTuple l) = true ->
        snd (vload w)
        = Raise (ValueError "Control column not found in adata.obs."))
  /\ (split_covariates = None \/ split_covariates = Some [] ->
      exists col,
        sget (obs (the_adata (fst (vload w)))) CONTROL_HELPER = Some col
        /\ col_values col = repeat (VBool true) (n_obs (the_adata w))).
Proof.
  unfold ValidationData.load_from_adata.
  split; [|split].
  - unfold mbind.
    destruct (ValidationData.inject_control_helper _ _ w) as [w1 [s|e]];
      [|now exists e].
    destruct (_verify_control_data control_data w1) as [w2 [u|e]];
      [|now exists e].
    simpl. eexists. reflexivity.
  - intros l -> Hl. unfold mbind.
    destruct (ValidationData.inject_control_helper _ _ w) as [w1 [s|e]] eqn:E1.
    + now rewrite verify_control_data_pair.
    + exfalso. revert E1.
      unfold ValidationData.inject_control_helper, mbind, get_adata,
        put_adata, ret.
      destruct split_covariates as [[|c rest]|]; try discriminate;
        cbn [the_adata set_column set_obs obs];
        rewrite sget_sset_same; discriminate.
  - intro Hs.
    destruct (inject_control_helper_column w Hs) as (w1 & E1 & Hn & Hget).
    unfold mbind at 1. rewrite E1.
    destruct (verify_control_data_column control_data w1 _ _ Hget)
      as (col' & Hget' & Hcol).
    exists col'. split.
    + unfold mbind.
      destruct (_verify_control_data control_data w1) as [w2 [u|e]];
        simpl in *; exact Hget'.
    + destruct Hcol as [->|Hcol]; [reflexivity|].
      unfold astype_boolean in Hcol. simpl in Hcol.
      rewrite bool_like_all_true in Hcol. simpl in Hcol.
      now inversion Hcol.
Qed.
End Validation.

(** ** The worked dataset, continued *)

(** C2, the scenario on the code: one boolean control column, one
    numeric primary covariate with three distinct doses, no split
    covariates.  The container has one control population, recorded
    under index 0 in the split mask and in [split_idx_to_covariates];
    its three reachable targets are recorded under key 1 of
    [control_to_perturbation], and key 0 is absent. *)
Theorem control_to_perturbation_key :
  example_load None = (mk_world example_adata_after [], Ok example_container)
  /\ TrainingData.n_controls example_container = 1
  /\ TrainingData.split_covariates_mask example_container
     = [0; 0; 0; 0; 0; 0]%Z
  /\ TrainingData.split_idx_to_covariates example_container = [(0%Z, [])]
  /\ TrainingData.control_to_perturbation example_container
     = [(1%Z, [0; 1; 2]%Z)]
  /\ dict_get Z.eqb (TrainingData.control_to_perturbation example_container)
                    0%Z = None.
Proof. repeat split. Qed.

(** The same cells with the control marker stored as integers and the
    doses as numerals in an object column. *)
Definition example_adata_raw : AnnData :=
  mk_AnnData
    (mk_ndarray [6; 2] [0; 0; 0; 1; 1; 0; 2; 0; 2; 1; 3; 0]%Z)
    false
    [("control", mk_Column DInt
        [VNum 1%Z; VNum 1%Z; VNum 0%Z; VNum 0%Z; VNum 0%Z; VNum 0%Z]);
     ("dose", mk_Column DObject
        [VNA; VNA; VStr "1"; VStr "2"; VStr "2"; VStr "3"])]
    [] [] 6.

(** C6, the claim as stated fails: the factory returns a container, and
    the caller's dataset now holds the coerced control and dose columns
    instead of the ones it was given. *)
Lemma load_from_adata_changes_caller_dataset :
  @load_with Z_Scalar (SRStr "X") "control" [("drug", PList [PStr "dose"])]
             None None None None 0%Z None (mk_world example_adata_raw [])
  = (mk_world example_adata_after [], Ok example_container)
  /\ obs example_adata_after <> obs example_adata_raw
  /\ sget (obs example_adata_raw) "dose"
     = Some (mk_Column DObject
               [VNA; VNA; VStr "1"; VStr "2"; VStr "2"; VStr "3"])
  /\ sget (obs example_adata_after) "dose"
     = Some (mk_Column DFloat
               [VNA; VNA; VNum 1%Z; VNum 2%Z; VNum 2%Z; VNum 3%Z]).
Proof.
  split; [reflexivity|]. split; [discriminate|]. split; reflexivity.
Defined.

(** The failing input of C5: the worked dataset, the control marker
    [("control", True)] and no split covariates.  The factory raises,
    after it has written the helper column into the dataset. *)
Lemma example_validation_load :
  @ValidationData.load_from_adata Z_Scalar "_helper" (SRStr "X")
    (PTuple [PStr "control"; PBool true]) (Some []) [PStr "dose"] [] 1%Z
    None 0%Z example_world
  = (mk_world
       (set_column example_adata "_helper"
          (mk_Column DCategory (repeat (VBool true) 6))) [],
     Raise (ValueError "Control column not found in adata.obs.")).
Proof. reflexivity. Qed.

(** ** Index bookkeeping of the training factory *)

(** Reduce the projections of a record of loop locals. *)
Tactic Notation "locals_simpl" :=
  cbn [TrainingData.src_counter TrainingData.tgt_counter
       TrainingData.l_control_to_perturbation
       TrainingData.l_split_covariates_mask
       TrainingData.l_split_idx_to_covariates
       TrainingData.l_perturbation_covariates_mask
       TrainingData.l_perturbation_idx_to_covariates
       TrainingData.l_condition_data
       TrainingData.conditional_distributions].
Tactic Notation "locals_simpl" "in" hyp(H) :=
  cbn [TrainingData.src_counter TrainingData.tgt_counter
       TrainingData.l_control_to_perturbation
       TrainingData.l_split_covariates_mask
       TrainingData.l_split_idx_to_covariates
       TrainingData.l_perturbation_covariates_mask
       TrainingData.l_perturbation_idx_to_covariates
       TrainingData.l_condition_data
       TrainingData.conditional_distributions] in H.

(** The integers [0, ..., t - 1]. *)
Definition indices (t : Z) : list Z := map Z.of_nat (seq 0 (Z.to_nat t)).

Section Masks.
Context {SC : Scalar}.

Lemma value_eqb_eq (v w : value) : value_eqb v w = true -> v = w.
Proof.
  unfold value_eqb, value_same.
  destruct v, w; try discriminate;
    match goal with
    | |- (if ?d then _ else _) = _ -> _ => destruct d; [auto | discriminate]
    end.
Qed.

Lemma row_eqb_eq (r1 r2 : row) : row_eqb r1 r2 = true -> r1 = r2.
Proof.
  revert r2. induction r1 as [|v r1 IH]; intros [|w r2]; simpl;
    try discriminate; [reflexivity|].
  intro H. apply andb_true_iff in H as [Hv Hr].
  f_equal; [now apply value_eqb_eq | now apply IH].
Qed.

Lemma mask_assign_length (arr : list Z) (mask : list bool) (v : Z) :
  List.length (mask_assign arr mask v) = List.length arr.
Proof.
  revert mask. induction arr as [|a arr IH]; intros [|b mask]; simpl; auto.
Qed.

Lemma mask_assign_nth (arr : list Z) (mask : list bool) (v d : Z) (j : nat) :
  List.length mask <= List.length arr ->
  nth j (mask_assign arr mask v) d
  = if nth j mask false then v else nth j arr d.
Proof.
  revert mask j. induction arr as [|a arr IH]; intros [|b mask] j Hlen;
    simpl in *; try lia.
  - now destruct j.
  - now destruct j.
  - destruct j as [|j]; [reflexivity|]. apply IH. lia.
Qed.

Lemma mask_assign_in (arr : list Z) (mask : list bool) (v x : Z) :
  In x (mask_assign arr mask v) -> x = v \/ In x arr.
Proof.
  revert mask. induction arr as [|a arr IH]; intros [|b mask]; simpl; auto.
  intros [H|H].
  - destruct b; auto.
  - destruct (IH mask H); auto.
Qed.

Lemma mask_sum_positive (mask : list bool) :
  mask_sum mask <> 0 ->
  exists j, j < List.length mask /\ nth j mask false = true.
Proof.
  unfold mask_sum. induction mask as [|b mask IH]; simpl; [congruence|].
  destruct b; simpl.
  - intros _. exists 0. split; [lia | reflexivity].
  - intro H. destruct (IH H) as (j & Hj & Hn). exists (S j). split; [lia|auto].
Qed.

Lemma nth_eq_in {A : Type} (l : list A) (j : nat) (d x : A) :
  j < List.length l -> nth j l d = x -> In x l.
Proof. intros Hj <-. now apply nth_In. Qed.

Lemma cond_mask_nth (rows : list row) (m : list bool) (r : row) (j : nat) :
  nth j (map (fun '(x, b) => row_eqb x r && b) (combine rows m)) false = true ->
  r = nth j rows [] /\ nth j m false = true.
Proof.
  revert m j.
  induction rows as [|x rows IH]; intros [|b m] j; simpl;
    try (destruct j; discriminate).
  destruct j as [|j].
  - intro H. apply andb_true_iff in H as [H1 H2].
    split; [symmetry; now apply row_eqb_eq | assumption].
  - apply IH.
Qed.

Lemma indices_succ (t : Z) :
  (0 <= t)%Z -> indices (t + 1) = indices t ++ [t].
Proof.
  intro Ht. unfold indices.
  replace (Z.to_nat (t + 1)) with (S (Z.to_nat t)) by lia.
  rewrite seq_S, map_app. simpl. now rewrite Z2Nat.id.
Qed.

Lemma in_indices (t i : Z) : In i (indices t) <-> (0 <= i < t)%Z.
Proof.
  unfold indices. rewrite in_map_iff. split.
  - intros (k & <- & Hk). apply in_seq in Hk. lia.
  - intro H. exists (Z.to_nat i). split; [lia|]. apply in_seq. lia.
Qed.

Lemma indices_nodup (t : Z) : NoDup (indices t).
Proof.
  unfold indices. apply NoDup_map_NoDup_ForallPairs.
  - intros x y _ _ H. lia.
  - apply seq_NoDup.
Qed.

Lemma dict_set_fresh {V : Type} (d : list (Z * V)) (k : Z) (v : V) :
  ~ In k (map fst d) -> dict_set Z.eqb d k v = d ++ [(k, v)].
Proof.
  induction d as [|[k' v'] d IH]; simpl; intro H; [reflexivity|].
  destruct (Z.eqb_spec k' k) as [->|Hne]; [tauto|].
  f_equal. apply IH. tauto.
Qed.

Lemma drop_duplicates_from_spec (seen rows : list row) :
  NoDup (drop_duplicates_from seen rows)
  /\ forall r, In r (drop_duplicates_from seen rows) ->
               In r rows /\ ~ In r seen.
Proof.
  revert seen. induction rows as [|r rows IH]; intro seen; simpl.
  - split; [constructor | intros r []].
  - destruct (in_dec row_eq_dec r seen) as [Hin|Hnin].
    + destruct (IH seen) as [Hnd Hsub]. split; [assumption|].
      intros r' Hr'. destruct (Hsub r' Hr'). auto.
    + destruct (IH (r :: seen)) as [Hnd Hsub]. split.
      * constructor; [|assumption]. intro Hr.
        destruct (Hsub r Hr) as [_ Hn]. apply Hn. now left.
      * intros r' [<-|Hr']; [auto|].
        destruct (Hsub r' Hr') as [Hi Hn]. split; [auto|].
        intro. apply Hn. now right.
Qed.

Lemma drop_duplicates_nodup (rows : list row) : NoDup (drop_duplicates rows).
Proof. apply drop_duplicates_from_spec. Qed.

Lemma drop_duplicates_incl (rows : list row) (r : row) :
  In r (drop_duplicates rows) -> In r rows.
Proof. intro H. now apply (drop_duplicates_from_spec [] rows). Qed.
End Masks.

(** The distinct labels of a list, in order of first appearance: the
    keys of the dictionary built from it. *)
Definition uniq_step (ks : list string) (k : string) : list string :=
  if existsb (String.eqb k) ks then ks else ks ++ [k].

Definition uniq (K : list string) : list string := fold_left uniq_step K [].

(** The cell mask of one split combination, as [split_body] computes
    it. *)
Definition split_mask_of {SC : Scalar} (adata : AnnData)
    (split_covariates : list string) (split_combination : row) : list bool :=
  let filter_dict :=
    dict_of_items String.eqb (combine split_covariates split_combination) in
  match frame_rows adata (map fst filter_dict) with
  | Ok filter_rows => map (fun r => row_eqb r (map snd filter_dict)) filter_rows
  | Raise _ => []
  end.

Section SplitMasks.
Context {SC : Scalar}.
Variable adata : AnnData.

(** The values of a metadata column, empty if there is no such
    column. *)
Definition column_values (k : string) : list value :=
  match sget (obs adata) k with
  | Some col => col_values col
  | None => []
  end.

(** The value of column [k] in cell [c]. *)
Definition cell (c : nat) (k : string) : value := nth c (column_values k) VNA.

Lemma get_columns_values (K : list string) (cols : list (list value)) :
  get_columns (obs adata) K = Ok cols -> cols = map column_values K.
Proof.
  revert cols. induction K as [|k K IH]; intros cols; simpl.
  - now intros [= <-].
  - unfold column_values at 1.
    destruct (sget (obs adata) k) as [col|]; [|discriminate].
    destruct (get_columns (obs adata) K) as [cs|e]; [|discriminate].
    simpl. intros [= <-]. f_equal. now apply IH.
Qed.

Lemma frame_rows_cells (K : list string) (rows : list row) :
  frame_rows adata K = Ok rows ->
  rows = map (fun c => map (cell c) K) (seq 0 (n_obs adata)).
Proof.
  unfold frame_rows.
  destruct (get_columns (obs adata) K) as [cols|e] eqn:Hc; [|discriminate].
  simpl. intros [= <-]. apply get_columns_values in Hc. subst cols.
  unfold rows_of. apply map_ext. intro c. now rewrite map_map.
Qed.

Lemma dict_set_map (f : string -> value) (ks : list string) (k : string) :
  dict_set String.eqb (map (fun k => (k, f k)) ks) k (f k)
  = map (fun k => (k, f k)) (uniq_step ks k).
Proof.
  unfold uniq_step. induction ks as [|k' ks IH]; simpl; [reflexivity|].
  rewrite (String.eqb_sym k k').
  destruct (String.eqb_spec k' k) as [->|Hne]; simpl; [reflexivity|].
  rewrite IH. now destruct (existsb (String.eqb k) ks).
Qed.

Lemma dict_of_items_map (f : string -> value) (K : list string) :
  dict_of_items String.eqb (combine K (map f K))
  = map (fun k => (k, f k)) (uniq K).
Proof.
  unfold dict_of_items, dict_union, uniq.
  change (@nil (string * value)) with (map (fun k => (k, f k)) []).
  generalize (@nil string).
  induction K as [|k K IH]; intro ks; simpl; [reflexivity|].
  rewrite dict_set_map. apply IH.
Qed.

Lemma uniq_step_incl (ks : list string) (k k' : string) :
  In k' ks \/ k' = k -> In k' (uniq_step ks k).
Proof.
  unfold uniq_step. destruct (existsb (String.eqb k) ks) eqn:E.
  - intros [H| ->]; [assumption|].
    apply existsb_exists in E as (x & Hx & Hk).
    apply String.eqb_eq in Hk. now subst.
  - rewrite in_app_iff. simpl. intuition.
Qed.

Lemma uniq_complete (K : list string) (k : string) : In k K -> In k (uniq K).
Proof.
  unfold uniq.
  assert (H : forall ks, In k ks \/ In k K -> In k (fold_left uniq_step K ks)).
  { induction K as [|k' K IH]; intros ks; simpl.
    - tauto.
    - intros [H|[->|H]]; apply IH; auto; left; apply uniq_step_incl; auto. }
  intro. apply H. auto.
Qed.

Lemma nth_map_seq {A : Type} (F : nat -> A) (n j : nat) (d : A) :
  j < n -> nth j (map F (seq 0 n)) d = F j.
Proof.
  intro Hj. rewrite (nth_indep _ d (F 0)) by (rewrite length_map, length_seq; lia).
  rewrite map_nth, seq_nth; auto.
Qed.

Variable split_covariates : list string.

Local Abbreviation smask := (split_mask_of adata split_covariates).

(** A cell in the mask of a split combination has that combination's
    values. *)
Lemma split_mask_cell (c j : nat) :
  nth j (smask (map (cell c) split_covariates)) false = true ->
  map (cell j) (uniq split_covariates) = map (cell c) (uniq split_covariates).
Proof.
  unfold split_mask_of. rewrite dict_of_items_map.
  rewrite !map_map. cbn [fst snd].
  rewrite map_id.
  destruct (frame_rows adata (uniq split_covariates)) as [fr|e] eqn:Hfr;
    [|destruct j; discriminate].
  apply frame_rows_cells in Hfr. subst fr. rewrite map_map.
  destruct (Nat.lt_ge_cases j (n_obs adata)) as [Hj|Hj].
  - rewrite nth_map_seq by assumption. apply row_eqb_eq.
  - rewrite nth_overflow by (rewrite length_map, length_seq; lia).
    discriminate.
Qed.

(** A cell lies in the mask of at most one split combination. *)
Lemma split_mask_unique (rows : list row) (s s' : row) (j : nat) :
  frame_rows adata split_covariates = Ok rows ->
  In s rows -> In s' rows ->
  nth j (smask s) false = true -> nth j (smask s') false = true ->
  s = s'.
Proof.
  intros Hrows Hs Hs' Hm Hm'.
  apply frame_rows_cells in Hrows. subst rows.
  apply in_map_iff in Hs as (c & <- & _).
  apply in_map_iff in Hs' as (c' & <- & _).
  apply split_mask_cell in Hm, Hm'.
  apply map_ext_in. intros k Hk.
  apply uniq_complete in Hk.
  assert (E : map (cell c) (uniq split_covariates)
              = map (cell c') (uniq split_covariates)) by congruence.
  clear - E Hk. induction (uniq split_covariates) as [|k0 ks IH];
    [destruct Hk|].
  simpl in E. injection E as E0 E. destruct Hk as [->|Hk]; auto.
Qed.
End SplitMasks.

Section IndexInvariant.
Context {SC : Scalar}.
Import PerturbationData.

Variables (adata : AnnData) (perturbation_covariates : groups)
  (sample_covariates : list string) (covariate_reps : sdict string)
  (primary_to_linked : list (option string * sdict (option string)))
  (primary_encoder : encoder_result OneHotEncoder)
  (max_combination_length : Z) (null_value : num)
  (split_covariates perturb_covar_keys : list string)
  (perturb_covar_df all_rows : list row).

Hypothesis Hall : frame_rows adata perturb_covar_keys = Ok all_rows.

Local Abbreviation split_mask_of := (split_mask_of adata split_covariates).

(** The cell mask of one target condition within one split, as
    [target_body] computes it. *)
Definition target_mask (split_combination tgt_cond : row) : list bool :=
  map (fun '(r, b) => row_eqb r tgt_cond && b)
      (combine all_rows (split_mask_of split_combination)).

(** Cell [j] belongs to the population of the pair. *)
Definition matches (j : nat) (s r : row) : Prop :=
  nth j (target_mask s r) false = true.

Lemma all_rows_length : List.length all_rows = n_obs adata.
Proof.
  unfold frame_rows in Hall.
  destruct (get_columns (obs adata) perturb_covar_keys); [|discriminate].
  simpl in Hall. injection Hall as <-.
  unfold rows_of. now rewrite length_map, length_seq.
Qed.

Lemma target_mask_length (s r : row) :
  List.length (target_mask s r) <= n_obs adata.
Proof.
  unfold target_mask. rewrite length_map, length_combine, all_rows_length. lia.
Qed.

Lemma matches_row (j : nat) (s r : row) :
  matches j s r ->
  r = nth j all_rows [] /\ nth j (split_mask_of s) false = true.
Proof. apply cond_mask_nth. Qed.

(** What the loops have established so far.  [Done] holds of the pairs
    of a split combination and a target condition already processed,
    [cd] is the list of targets collected for the current split. *)
Definition inv (Done : row -> row -> Prop) (cd : list Z)
    (st : TrainingData.locals) : Prop :=
  let t := TrainingData.tgt_counter st in
  let pm := TrainingData.l_perturbation_covariates_mask st in
  (0 <= t)%Z
  /\ List.length pm = n_obs adata
  /\ (forall v, In v pm -> v = (-1)%Z \/ (0 <= v < t)%Z)
  /\ (forall i, (0 <= i < t)%Z -> In i pm)
  /\ (forall j, nth j pm (-1)%Z <> (-1)%Z ->
                exists s r, Done s r /\ matches j s r)
  /\ List.concat (map snd (TrainingData.l_control_to_perturbation st)) ++ cd
     = indices t.

(** The fields the inner loop does not touch. *)
Definition same_outer (st st' : TrainingData.locals) : Prop :=
  TrainingData.src_counter st' = TrainingData.src_counter st
  /\ TrainingData.l_control_to_perturbation st'
     = TrainingData.l_control_to_perturbation st
  /\ TrainingData.l_split_covariates_mask st'
     = TrainingData.l_split_covariates_mask st
  /\ TrainingData.l_split_idx_to_covariates st'
     = TrainingData.l_split_idx_to_covariates st.

Local Abbreviation tbody s :=
  (TrainingData.target_body adata perturbation_covariates sample_covariates
     covariate_reps primary_to_linked primary_encoder max_combination_length
     null_value perturb_covar_keys all_rows (split_mask_of s)).

(** One iteration of the inner loop either skips the condition or
    assigns it the next target index. *)
Lemma target_body_cases (s r : row) (st st' : TrainingData.locals) :
  tbody s st r = Ok st' ->
  (mask_sum (target_mask s r) = 0 /\ st' = st)
  \/ (mask_sum (target_mask s r) <> 0
      /\ TrainingData.tgt_counter st' = (TrainingData.tgt_counter st + 1)%Z
      /\ TrainingData.l_perturbation_covariates_mask st'
         = mask_assign (TrainingData.l_perturbation_covariates_mask st)
                       (target_mask s r) (TrainingData.tgt_counter st)
      /\ TrainingData.conditional_distributions st'
         = TrainingData.conditional_distributions st
           ++ [TrainingData.tgt_counter st]
      /\ same_outer st st').
Proof.
  unfold TrainingData.target_body. fold (target_mask s r).
  destruct (TrainingData.has_duplicates perturb_covar_keys); [discriminate|].
  destruct (Nat.eqb_spec (mask_sum (target_mask s r)) 0) as [E|E].
  - intros [= <-]. now left.
  - destruct (_get_perturbation_covariates _ _ _ _ _ _ _ _ _) as [emb|e];
      [|discriminate]. simpl.
    destruct (for_each _ emb _) as [cd'|e]; [|discriminate]. simpl.
    intros [= <-]. right. unfold same_outer. simpl. auto 10.
Qed.

Lemma target_body_inv (Done : row -> row -> Prop) (s r : row)
    (st st' : TrainingData.locals) :
  inv Done (TrainingData.conditional_distributions st) st ->
  (forall s' r' j, Done s' r' -> matches j s' r' -> matches j s r -> False) ->
  tbody s st r = Ok st' ->
  inv (fun s' r' => Done s' r' \/ (s' = s /\ r' = r))
      (TrainingData.conditional_distributions st') st'
  /\ same_outer st st'.
Proof.
  intros (Ht & Hlen & Hrange & Honto & Hdone & Hlists) Hdisj Hrun.
  destruct (target_body_cases s r st st' Hrun)
    as [[_ ->] | (Hsum & HT & Hpm & Hcd & Hsame)].
  - split; [|unfold same_outer; auto].
    unfold inv. repeat split; auto.
    intros j Hj. destruct (Hdone j Hj) as (s' & r' & Hd & Hm).
    exists s', r'. auto.
  - split; [|assumption].
    assert (Hmlen : List.length (target_mask s r)
                    <= List.length (TrainingData.l_perturbation_covariates_mask st))
      by (rewrite Hlen; apply target_mask_length).
    unfold inv. rewrite HT, Hpm, Hcd.
    destruct Hsame as (_ & -> & _ & _).
    repeat split.
    + lia.
    + now rewrite mask_assign_length.
    + intros v Hv. apply mask_assign_in in Hv as [->|Hv]; [right; lia|].
      destruct (Hrange v Hv); [auto | right; lia].
    + intros i Hi.
      destruct (Z.eq_dec i (TrainingData.tgt_counter st)) as [->|Hne].
      * destruct (mask_sum_positive _ Hsum) as (j & Hj & Hn).
        pose proof (mask_assign_nth _ _ (TrainingData.tgt_counter st)
                      (-1)%Z j Hmlen) as E.
        rewrite Hn in E. eapply nth_eq_in; [|exact E].
        rewrite mask_assign_length. lia.
      * assert (Hin : In i (TrainingData.l_perturbation_covariates_mask st))
          by (apply Honto; lia).
        destruct (In_nth _ _ (-1)%Z Hin) as (j & Hj & Hn).
        pose proof (mask_assign_nth _ _ (TrainingData.tgt_counter st)
                      (-1)%Z j Hmlen) as E.
        destruct (nth j (target_mask s r) false) eqn:Hm.
        -- exfalso.
           destruct (Hdone j) as (s' & r' & Hd & Hm'); [rewrite Hn; lia|].
           exact (Hdisj s' r' j Hd Hm' Hm).
        -- rewrite Hn in E. eapply nth_eq_in; [|exact E].
           rewrite mask_assign_length. lia.
    + intros j Hj.
      rewrite (mask_assign_nth _ _ _ _ j Hmlen) in Hj.
      destruct (nth j (target_mask s r) false) eqn:Hm.
      * exists s, r. split; [now right | exact Hm].
      * destruct (Hdone j Hj) as (s' & r' & Hd & Hm').
        exists s', r'. auto.
    + rewrite app_assoc, Hlists. symmetry. now apply indices_succ.
Qed.

Lemma inv_weaken (Done Done' : row -> row -> Prop) (cd : list Z)
    (st : TrainingData.locals) :
  (forall s r, Done s r -> Done' s r) -> inv Done cd st -> inv Done' cd st.
Proof.
  intros Hsub (Ht & Hlen & Hrange & Honto & Hdone & Hlists).
  unfold inv. repeat split; auto.
  intros j Hj. destruct (Hdone j Hj) as (s & r & Hd & Hm).
  exists s, r. auto.
Qed.

Lemma same_outer_trans (a b c : TrainingData.locals) :
  same_outer a b -> same_outer b c -> same_outer a c.
Proof.
  unfold same_outer. intros (H1 & H2 & H3 & H4) (G1 & G2 & G3 & G4).
  repeat split; congruence.
Qed.

(** The inner loop over the distinct target conditions of one split. *)
Lemma inner_loop_inv (s : row) (rs : list row) :
  NoDup rs ->
  forall (Done : row -> row -> Prop) (st st' : TrainingData.locals),
    inv Done (TrainingData.conditional_distributions st) st ->
    (forall r s' r' j, In r rs -> Done s' r' -> matches j s' r' ->
                       matches j s r -> False) ->
    for_each (tbody s) rs st = Ok st' ->
    inv (fun s' r' => Done s' r' \/ (s' = s /\ In r' rs))
        (TrainingData.conditional_distributions st') st'
    /\ same_outer st st'.
Proof.
  induction 1 as [|r rs Hnotin Hnd IH]; intros Done st st' Hinv Hdisj Hrun.
  - simpl in Hrun. injection Hrun as <-. split.
    + eapply inv_weaken; [|eassumption]. auto.
    + unfold same_outer. auto.
  - simpl in Hrun.
    destruct (tbody s st r) as [st1|e] eqn:Hstep; [|discriminate].
    simpl in Hrun.
    destruct (target_body_inv Done s r st st1 Hinv) as [Hinv1 Hsame1]; auto.
    { intros s' r' j. apply Hdisj. now left. }
    destruct (IH _ st1 st' Hinv1) as [Hinv2 Hsame2]; auto.
    { intros r2 s' r' j Hr2 [Hd|[-> ->]] Hm Hm2.
      - eapply Hdisj; eauto. now right.
      - apply matches_row in Hm as [Hr _].
        apply matches_row in Hm2 as [Hr2' _].
        apply Hnotin. congruence. }
    split; [|eapply same_outer_trans; eauto].
    eapply inv_weaken; [|eassumption].
    intros s' r' [[Hd|[-> ->]]|[-> Hin]]; auto.
    + right. split; [reflexivity | now left].
    + right. split; [reflexivity | now right].
Qed.

(** The even split indices and the odd keys of
    [control_to_perturbation] after [m] splits. *)
Definition evens (m : nat) : list Z :=
  map (fun i => (2 * Z.of_nat i)%Z) (seq 0 m).

Definition odds (m : nat) : list Z :=
  map (fun i => (2 * Z.of_nat i + 1)%Z) (seq 0 m).

(** What holds between two iterations of the outer loop, after [m]
    split combinations [Sdone]. *)
Definition outer_inv (m : nat) (Sdone : list row)
    (st : TrainingData.locals) : Prop :=
  inv (fun s r => In s Sdone /\ In r perturb_covar_df) [] st
  /\ TrainingData.src_counter st = (2 * Z.of_nat m)%Z
  /\ map fst (TrainingData.l_control_to_perturbation st) = odds m
  /\ map fst (TrainingData.l_split_idx_to_covariates st) = evens m.

Local Abbreviation sbody :=
  (TrainingData.split_body adata perturbation_covariates sample_covariates
     covariate_reps primary_to_linked primary_encoder max_combination_length
     null_value split_covariates perturb_covar_keys perturb_covar_df).

Lemma evens_fresh (m : nat) : ~ In (2 * Z.of_nat m)%Z (evens m).
Proof.
  unfold evens. rewrite in_map_iff. intros (i & Hi & Hin).
  apply in_seq in Hin. lia.
Qed.

Lemma odds_fresh (m : nat) : ~ In (2 * Z.of_nat m + 1)%Z (odds m).
Proof.
  unfold odds. rewrite in_map_iff. intros (i & Hi & Hin).
  apply in_seq in Hin. lia.
Qed.

Lemma split_body_inv (m : nat) (Sdone : list row) (s : row)
    (st st' : TrainingData.locals) :
  NoDup perturb_covar_df ->
  outer_inv m Sdone st ->
  (forall s' r' r j, In s' Sdone -> matches j s' r' -> matches j s r ->
                     False) ->
  sbody st s = Ok st' ->
  outer_inv (S m) (Sdone ++ [s]) st'.
Proof.
  intros Hnd (Hinv & Hsrc & Hodd & Heven) Hdisj Hrun.
  unfold TrainingData.split_body in Hrun.
  destruct (frame_rows adata
              (map fst (dict_of_items String.eqb
                          (combine split_covariates s))))
    as [filter_rows|e] eqn:Hfr; [|discriminate].
  simpl in Hrun. rewrite Hall in Hrun. simpl in Hrun.
  assert (Hmask : map (fun r => row_eqb r
                      (map snd (dict_of_items String.eqb
                                  (combine split_covariates s))))
                      filter_rows
                  = split_mask_of s)
    by (unfold split_mask_of; now rewrite Hfr).
  rewrite Hmask in Hrun.
  match type of Hrun with
  | bind (for_each _ _ ?st1) _ = _ => set (st_1 := st1) in *
  end.
  destruct (for_each (tbody s) perturb_covar_df st_1) as [st2|e] eqn:Hloop;
    [|discriminate].
  simpl in Hrun. injection Hrun as <-.
  assert (Hinv1 : inv (fun s' r' => In s' Sdone /\ In r' perturb_covar_df)
                      (TrainingData.conditional_distributions st_1) st_1).
  { destruct Hinv as (Ht & Hlen & Hrange & Honto & Hdone & Hlists).
    unfold inv, st_1. simpl. repeat split; auto. }
  destruct (inner_loop_inv s perturb_covar_df Hnd _ st_1 st2 Hinv1)
    as [Hinv2 (Hs1 & Hs2 & Hs3 & Hs4)]; auto.
  { intros r s' r' j _ [Hs' _]. now apply Hdisj. }
  unfold st_1 in Hs1, Hs2, Hs3, Hs4. locals_simpl in Hs1.
  locals_simpl in Hs2. locals_simpl in Hs3. locals_simpl in Hs4.
  destruct Hinv2 as (Ht & Hlen & Hrange & Honto & Hdone & Hlists).
  unfold outer_inv, inv. locals_simpl.
  rewrite Hs1, Hs2, Hs4, Hsrc.
  rewrite (dict_set_fresh (TrainingData.l_control_to_perturbation st))
    by (rewrite Hodd; apply odds_fresh).
  rewrite (dict_set_fresh (TrainingData.l_split_idx_to_covariates st))
    by (rewrite Heven; apply evens_fresh).
  rewrite !map_app, Hodd, Heven. cbn [map fst snd].
  repeat split; auto.
  - intros j Hj. destruct (Hdone j Hj) as (s' & r' & [[Hs' Hr']|[-> Hr']] & Hm).
    + exists s', r'. rewrite in_app_iff. auto.
    + exists s, r'. rewrite in_app_iff. simpl. auto.
  - rewrite concat_app. cbn [List.concat]. rewrite !app_nil_r.
    rewrite <- Hlists, Hs2. reflexivity.
  - lia.
  - unfold odds. rewrite seq_S, map_app. reflexivity.
  - unfold evens. rewrite seq_S, map_app. reflexivity.
Qed.

(** The outer loop over the split combinations. *)
Lemma outer_loop_inv (rest : list row) :
  NoDup perturb_covar_df ->
  forall (m : nat) (Sdone : list row) (st st' : TrainingData.locals),
    NoDup (Sdone ++ rest) ->
    (forall s s' r r' j, In s (Sdone ++ rest) -> In s' (Sdone ++ rest) ->
                         matches j s r -> matches j s' r' -> s = s') ->
    outer_inv m Sdone st ->
    for_each sbody rest st = Ok st' ->
    outer_inv (m + List.length rest) (Sdone ++ rest) st'.
Proof.
  intro Hnd. induction rest as [|s rest IH];
    intros m Sdone st st' Hnodup Huniq Hinv Hrun.
  - simpl in Hrun. injection Hrun as <-.
    now rewrite app_nil_r, Nat.add_0_r.
  - simpl in Hrun.
    destruct (sbody st s) as [st1|e] eqn:Hstep; [|discriminate].
    simpl in Hrun.
    assert (Hinv1 : outer_inv (S m) (Sdone ++ [s]) st1).
    { eapply split_body_inv; eauto.
      intros s' r' r j Hs' Hm' Hm.
      assert (s' = s).
      { eapply Huniq; eauto; rewrite in_app_iff; simpl; auto. }
      subst s'. apply NoDup_remove_2 in Hnodup.
      apply Hnodup. rewrite in_app_iff. auto. }
    replace (Sdone ++ s :: rest) with ((Sdone ++ [s]) ++ rest) in *
      by (now rewrite <- app_assoc).
    replace (m + List.length (s :: rest)) with (S m + List.length rest)
      by (simpl; lia).
    eapply IH; eauto.
Qed.
End IndexInvariant.

(** What the index bookkeeping of a training container guarantees
    after [m] split combinations: every target index in the perturbation
    mask lies in exactly one reachable-target array, every element of
    such an array occurs in the mask, no index is listed twice, the
    arrays are stored under the odd keys [1, 3, ..., 2m - 1] and the
    control populations are numbered [0, 2, ..., 2m - 2]. *)
Definition consistent_indices (m : nat)
    (perturbation_covariates_mask : list Z)
    (control_to_perturbation : list (Z * list Z))
    (split_idx_keys : list Z) : Prop :=
  (forall i, In i perturbation_covariates_mask -> i <> (-1)%Z ->
     exists entry,
       In entry control_to_perturbation /\ In i (snd entry)
       /\ forall entry', In entry' control_to_perturbation ->
                         In i (snd entry') -> entry' = entry)
  /\ (forall entry i, In entry control_to_perturbation -> In i (snd entry) ->
                      In i perturbation_covariates_mask)
  /\ NoDup (List.concat (map snd control_to_perturbation))
  /\ map fst control_to_perturbation = odds m
  /\ split_idx_keys = evens m.

(** The split combinations the factory iterates over: the distinct
    rows of [adata.obs[split_covariates]], rows with a missing value
    included, or the one empty combination when there is no split
    covariate. *)
Definition split_cov_combs_of {SC : Scalar} (adata : AnnData)
    (split_covariates : list string) : result (list row) :=
  if 0 <? List.length split_covariates
  then rows <- frame_rows adata split_covariates ;; Ok (drop_duplicates rows)
  else Ok [[]].

Section Bookkeeping.
Context {SC : Scalar}.
Import PerturbationData.

Lemma nodup_app_disjoint {B : Type} (l l' : list B) (x : B) :
  NoDup (l ++ l') -> In x l -> In x l' -> False.
Proof.
  induction l as [|a l IH]; simpl; intros Hnd Hl Hl'; [assumption|].
  inversion Hnd as [|? ? Hnotin Hnd']; subst.
  destruct Hl as [->|Hl].
  - apply Hnotin, in_or_app. now right.
  - now apply IH.
Qed.

Lemma concat_nodup_unique {A B : Type} (P : list (A * list B)) (p q : A * list B)
    (x : B) :
  NoDup (List.concat (map snd P)) ->
  In p P -> In q P -> In x (snd p) -> In x (snd q) -> p = q.
Proof.
  induction P as [|a P IH]; simpl; intros Hnd Hp Hq Hxp Hxq; [destruct Hp|].
  assert (Hcross : forall u, In u P -> In x (snd a) -> In x (snd u) -> False).
  { intros u Hu Hxa Hxu.
    apply (nodup_app_disjoint _ _ x Hnd Hxa).
    apply in_concat. exists (snd u). split; [|assumption].
    now apply in_map. }
  destruct Hp as [<-|Hp], Hq as [<-|Hq]; auto.
  - exfalso. eapply Hcross; eauto.
  - exfalso. eapply Hcross; eauto.
  - apply IH; auto. now apply NoDup_app_remove_l in Hnd.
Qed.
End Bookkeeping.

Section LoadIndices.
Context {SC : Scalar}.
Import PerturbationData.

Lemma outer_inv_consistent (adata : AnnData) (split_covariates : list string)
    (perturb_covar_df all_rows : list row) (m : nat) (Sdone : list row)
    (st : TrainingData.locals) :
  outer_inv adata split_covariates perturb_covar_df all_rows m Sdone st ->
  consistent_indices m (TrainingData.l_perturbation_covariates_mask st)
                     (TrainingData.l_control_to_perturbation st)
                     (map fst (TrainingData.l_split_idx_to_covariates st)).
Proof.
  intros ((Ht & Hlen & Hrange & Honto & Hdone & Hlists) & Hsrc & Hodd & Heven).
  rewrite app_nil_r in Hlists.
  assert (Hnd : NoDup (List.concat
                  (map snd (TrainingData.l_control_to_perturbation st)))).
  { rewrite Hlists. apply indices_nodup. }
  refine (conj _ (conj _ (conj Hnd _))).
  - intros i Hi Hne.
    assert (Hin : In i (indices (TrainingData.tgt_counter st))).
    { apply in_indices. destruct (Hrange i Hi); [contradiction|assumption]. }
    rewrite <- Hlists in Hin. apply in_concat in Hin as (l & Hl & Hil).
    apply in_map_iff in Hl as (entry & <- & Hentry).
    exists entry. refine (conj Hentry (conj Hil _)).
    intros entry' Hentry' Hil'.
    exact (concat_nodup_unique _ entry' entry i Hnd Hentry' Hentry Hil' Hil).
  - intros entry i Hentry Hi. apply Honto, in_indices. rewrite <- Hlists.
    apply in_concat. exists (snd entry). split; [now apply in_map|assumption].
  - split; assumption.
Qed.

Lemma initial_locals_inv (adata : AnnData) (split_covariates : list string)
    (perturb_covar_df all_rows : list row)
    (cd0 : sdict (list ndarray)) :
  outer_inv adata split_covariates perturb_covar_df all_rows 0 []
    (TrainingData.mk_locals 0%Z 0%Z []
       (repeat (-1)%Z (n_obs adata)) []
       (repeat (-1)%Z (n_obs adata)) [] cd0 []).
Proof.
  unfold outer_inv, inv. cbn.
  refine (conj (conj _ (conj _ (conj _ (conj _ (conj _ _))))) _).
  - lia.
  - apply repeat_length.
  - intros v Hv. left. now apply repeat_spec in Hv.
  - intros i Hi. lia.
  - intros j Hj. exfalso. apply Hj.
    destruct (Nat.lt_ge_cases j (n_obs adata)) as [Hlt|Hge].
    + now apply nth_repeat_lt.
    + apply nth_overflow. now rewrite repeat_length.
  - reflexivity.
  - repeat split.
Qed.

(** The two nested loops of the factory, started on fresh locals, leave
    consistent indices, whether the dataset is split or not. *)
Lemma loops_consistent (adata : AnnData) (perturbation_covariates : groups)
    (sample_covariates : list string) (covariate_reps : sdict string)
    (primary_to_linked : list (option string * sdict (option string)))
    (primary_encoder : encoder_result OneHotEncoder)
    (max_combination_length : Z) (null_value : num)
    (split_covariates perturb_covar_keys : list string)
    (rows split_cov_combs : list row) (cd0 : sdict (list ndarray))
    (st : TrainingData.locals) :
  frame_rows adata perturb_covar_keys = Ok rows ->
  (split_cov_combs = [[]]
   \/ exists srows, frame_rows adata split_covariates = Ok srows
                    /\ split_cov_combs = drop_duplicates srows) ->
  for_each
    (TrainingData.split_body adata perturbation_covariates sample_covariates
       covariate_reps primary_to_linked primary_encoder max_combination_length
       null_value split_covariates perturb_covar_keys (drop_duplicates rows))
    split_cov_combs
    (TrainingData.mk_locals 0%Z 0%Z []
       (repeat (-1)%Z (n_obs adata)) []
       (repeat (-1)%Z (n_obs adata)) [] cd0 [])
  = Ok st ->
  consistent_indices (List.length split_cov_combs)
                     (TrainingData.l_perturbation_covariates_mask st)
                     (TrainingData.l_control_to_perturbation st)
                     (map fst (TrainingData.l_split_idx_to_covariates st)).
Proof.
  intros Hrows Hcombs Hrun.
  enough (Hinv : outer_inv adata split_covariates (drop_duplicates rows) rows
                   (0 + List.length split_cov_combs) ([] ++ split_cov_combs) st).
  { exact (outer_inv_consistent _ _ _ _ _ _ _ Hinv). }
  eapply (outer_loop_inv adata perturbation_covariates sample_covariates
            covariate_reps primary_to_linked primary_encoder
            max_combination_length null_value split_covariates
            perturb_covar_keys (drop_duplicates rows) rows Hrows
            split_cov_combs (drop_duplicates_nodup rows) 0 []);
    [| |apply initial_locals_inv|exact Hrun]; cbn [app].
  - destruct Hcombs as [->|(srows & _ & ->)].
    + constructor; [intros []|constructor].
    + apply drop_duplicates_nodup.
  - intros s s' r r' j Hs Hs' Hm Hm'.
    destruct Hcombs as [->|(srows & Hsrows & ->)].
    + destruct Hs as [<-|[]], Hs' as [<-|[]]. reflexivity.
    + apply (matches_row adata split_covariates rows) in Hm as [_ Hm].
      apply (matches_row adata split_covariates rows) in Hm' as [_ Hm'].
      apply drop_duplicates_incl in Hs, Hs'.
      exact (split_mask_unique adata split_covariates srows s s' j
               Hsrows Hs Hs' Hm Hm').
Qed.
End LoadIndices.

Section LoadBookkeeping.
Context {SC : Scalar}.
Import PerturbationData.

Variables (sample_rep : sample_rep_arg) (control_key : string)
  (perturbation_covariates : sdict pyval)
  (perturbation_covariate_reps : option (sdict string))
  (sample_covariates : option (list string))
  (sample_covariate_reps : option (sdict string))
  (split_covariates : option (list string))
  (max_combination_length : option Z)
  (null_value : num).

Local Abbreviation load :=
  (load_with sample_rep control_key perturbation_covariates
     perturbation_covariate_reps sample_covariates sample_covariate_reps
     split_covariates null_value max_combination_length).

Lemma load_from_adata_consistent (w : world) :
  wp load
     (fun c w' =>
        (exists split_cov_combs,
            split_cov_combs_of (the_adata w')
              (TrainingData.or_default split_covariates [])
            = Ok split_cov_combs
            /\ consistent_indices (List.length split_cov_combs)
                 (TrainingData.perturbation_covariates_mask c)
                 (TrainingData.control_to_perturbation c)
                 (map fst (TrainingData.split_idx_to_covariates c)))
        /\ (TrainingData.or_default split_covariates [] = [] ->
            map fst (TrainingData.control_to_perturbation c) = [1%Z]
            /\ map fst (TrainingData.split_idx_to_covariates c) = [0%Z]))
     (fun _ _ => True) w.
Proof.
  unfold load_with, TrainingData.load_from_adata.
  apply wp_bind. unfold wp at 1.
  destruct (_verify_control_data (PStr control_key) w) as [w1 [u|e]];
    [|exact I].
  do 6 wp_pure.
  apply wp_bind. unfold wp at 1.
  match goal with
  | |- context [_get_max_combination_length ?g ?mcl w1] =>
      destruct (_get_max_combination_length g mcl w1) as [w2 [z|e]];
      [|exact I]
  end.
  destruct (_get_idx_to_covariate _) as [idx_to_covar covar_to_idx].
  apply wp_bind. unfold wp at 1.
  match goal with
  | |- context [_get_primary_covar_encoder ?g ?reps w2] =>
      destruct (_get_primary_covar_encoder g reps w2) as [w3 [enc|e]];
      [|exact I]
  end.
  wp_pure.
  apply wp_bind.
  match goal with
  | |- wp (if ?c then _ else _) _ _ _ => destruct c eqn:Hsplit
  end.
  - cbv beta. apply wp_bind, wp_lift.
    match goal with
    | |- match ?r with _ => _ end => destruct r as [srows|e] eqn:Hs; [|exact I]
    end.
    apply wp_ret. cbv beta. apply wp_bind, wp_lift.
    match goal with
    | |- match ?r with _ => _ end => destruct r as [rows|e] eqn:Hr; [|exact I]
    end.
    cbv beta. apply wp_bind, wp_lift.
    match goal with
    | |- match ?r with _ => _ end => destruct r as [st|e] eqn:Hl; [|exact I]
    end.
    do 2 wp_pure. apply wp_ret. cbn [TrainingData.perturbation_covariates_mask
      TrainingData.control_to_perturbation TrainingData.split_idx_to_covariates].
    split.
    + exists (drop_duplicates srows). split.
      * unfold split_cov_combs_of. rewrite Hsplit, Hs. reflexivity.
      * eapply loops_consistent; [exact Hr| |exact Hl].
        right. exists srows. split; [exact Hs|reflexivity].
    + intro Hnone. rewrite Hnone in Hsplit. discriminate.
  - apply wp_ret. cbv beta. apply wp_bind, wp_lift.
    match goal with
    | |- match ?r with _ => _ end => destruct r as [rows|e] eqn:Hr; [|exact I]
    end.
    cbv beta. apply wp_bind, wp_lift.
    match goal with
    | |- match ?r with _ => _ end => destruct r as [st|e] eqn:Hl; [|exact I]
    end.
    do 2 wp_pure. apply wp_ret. cbn [TrainingData.perturbation_covariates_mask
      TrainingData.control_to_perturbation TrainingData.split_idx_to_covariates].
    pose proof (loops_consistent _ _ _ _ _ _ _ _ _ _ _ _ _ _ Hr
                  (or_introl eq_refl) Hl) as Hc.
    split.
    + exists [[]]. split; [|exact Hc].
      unfold split_cov_combs_of. now rewrite Hsplit.
    + intros _. destruct Hc as (_ & _ & _ & Hodd & Heven). split; assumption.
Qed.

(** X1: the index bookkeeping of [TrainingData.load_from_adata]: in every
    container the factory returns, each target index of
    [perturbation_covariates_mask] (an entry other than -1) lies in
    exactly one array of [control_to_perturbation], each element of
    such an array occurs in the mask, no target is listed twice, and
    with [m] the number of split combinations of the dataset (the
    distinct rows of its split covariate columns, or 1 without split
    covariates) the arrays are stored under the keys 1, 3, ..., 2m-1
    while [split_idx_to_covariates] has the keys 0, 2, ..., 2m-2. *)
Theorem load_from_adata_indices_consistent (w w' : world)
    (c : TrainingData.t) :
  load w = (w', Ok c) ->
  exists split_cov_combs,
    split_cov_combs_of (the_adata w')
      (TrainingData.or_default split_covariates [])
    = Ok split_cov_combs
    /\ consistent_indices (List.length split_cov_combs)
         (TrainingData.perturbation_covariates_mask c)
         (TrainingData.control_to_perturbation c)
         (map fst (TrainingData.split_idx_to_covariates c)).
Proof.
  intro Hrun.
  exact (proj1 (wp_elim _ _ _ _ _ _ (load_from_adata_consistent w) Hrun)).
Qed.

(** X2: without split covariates the factory has one control population:
    it is numbered 0 in [split_idx_to_covariates], and its array of
    reachable targets is the only entry of [control_to_perturbation],
    stored under key 1. *)
Theorem load_from_adata_unsplit_keys (w w' : world) (c : TrainingData.t) :
  TrainingData.or_default split_covariates [] = [] ->
  load w = (w', Ok c) ->
  map fst (TrainingData.control_to_perturbation c) = [1%Z]
  /\ map fst (TrainingData.split_idx_to_covariates c) = [0%Z].
Proof.
  intros Hnone Hrun.
  exact (proj2 (wp_elim _ _ _ _ _ _ (load_from_adata_consistent w) Hrun) Hnone).
Qed.
End LoadBookkeeping.

(** The six cells of the worked dataset, measured in two batches. *)
Definition example_adata_batches : AnnData :=
  mk_AnnData
    (mk_ndarray [6; 2] [0; 0; 0; 1; 1; 0; 2; 0; 2; 1; 3; 0]%Z)
    false
    [("control", mk_Column DBool
        [VBool true; VBool true; VBool false; VBool false; VBool false;
         VBool false]);
     ("dose", mk_Column DFloat
        [VNA; VNA; VNum 1%Z; VNum 2%Z; VNum 2%Z; VNum 3%Z]);
     ("batch", mk_Column DObject
        [VStr "a"; VStr "b"; VStr "a"; VStr "b"; VStr "a"; VStr "b"])]
    [] [] 6.

Definition example_adata_batches_after : AnnData :=
  mk_AnnData
    (mk_ndarray [6; 2] [0; 0; 0; 1; 1; 0; 2; 0; 2; 1; 3; 0]%Z)
    false
    [("control", mk_Column DBoolean
        [VBool true; VBool true; VBool false; VBool false; VBool false;
         VBool false]);
     ("dose", mk_Column DFloat
        [VNA; VNA; VNum 1%Z; VNum 2%Z; VNum 2%Z; VNum 3%Z]);
     ("batch", mk_Column DObject
        [VStr "a"; VStr "b"; VStr "a"; VStr "b"; VStr "a"; VStr "b"])]
    [] [] 6.

(** The container of the call with [split_covariates=["batch"]]: two
    control populations, numbered 0 and 2, and their reachable targets
    under the keys 1 and 3. *)
Definition example_container_batches : TrainingData.t :=
  TrainingData.mk
    (mk_ndarray [6; 2] [0; 0; 0; 1; 1; 0; 2; 0; 2; 1; 3; 0]%Z)
    [0; 2; 0; 2; 0; 2]%Z
    [(0%Z, [VStr "a"]); (2%Z, [VStr "b"])]
    [-1; -1; 0; 2; 1; 3]%Z
    [(0%Z, [VNum 1%Z]); (1%Z, [VNum 2%Z]); (2%Z, [VNum 2%Z]);
     (3%Z, [VNum 3%Z])]
    [("drug", mk_ndarray [4; 1; 1] [1; 2; 2; 3]%Z)]
    [(1%Z, [0; 1]%Z); (3%Z, [2; 3]%Z)]
    1%Z
    0%Z.

Lemma example_load_batches :
  @load_with Z_Scalar (SRStr "X") "control" [("drug", PList [PStr "dose"])]
    None None None (Some ["batch"]) 0%Z None
    (mk_world example_adata_batches [])
  = (mk_world example_adata_batches_after [], Ok example_container_batches).
Proof. reflexivity. Qed.

(** On the dataset with two batches the factory returns; the dataset
    has the two split combinations [a] and [b], so the bookkeeping
    holds of the container with [m = 2]. *)
Lemma load_from_adata_indices_consistent_witness :
  @load_with Z_Scalar (SRStr "X") "control" [("drug", PList [PStr "dose"])]
    None None None (Some ["batch"]) 0%Z None
    (mk_world example_adata_batches [])
  = (mk_world example_adata_batches_after [], Ok example_container_batches)
  /\ split_cov_combs_of example_adata_batches_after ["batch"]
     = Ok [[VStr "a"]; [VStr "b"]]
  /\ consistent_indices 2
       (TrainingData.perturbation_covariates_mask example_container_batches)
       (TrainingData.control_to_perturbation example_container_batches)
       (map fst (TrainingData.split_idx_to_covariates
                   example_container_batches)).
Proof.
  split; [exact example_load_batches|]. split; [reflexivity|].
  destruct (@load_from_adata_indices_consistent Z_Scalar (SRStr "X")
              "control" [("drug", PList [PStr "dose"])] None None None
              (Some ["batch"]) None 0%Z (mk_world example_adata_batches [])
              _ _ example_load_batches)
    as (combs & Hcombs & Hc).
  assert (E : combs = [[VStr "a"]; [VStr "b"]]).
  { assert (H : Ok combs = Ok [[@VStr Z_Scalar "a"]; [@VStr Z_Scalar "b"]])
      by (rewrite <- Hcombs; reflexivity).
    now injection H. }
  subst combs. exact Hc.
Defined.

(** The six-cell example has no split covariates. *)
Lemma load_from_adata_unsplit_keys_witness :
  TrainingData.or_default (@None (list string)) [] = []
  /\ example_load None = (mk_world example_adata_after [], Ok example_container)
  /\ map fst (TrainingData.control_to_perturbation example_container) = [1%Z]
  /\ map fst (TrainingData.split_idx_to_covariates example_container) = [0%Z].
Proof.
  split; [reflexivity|]. split; [exact example_load_none|].
  exact (@load_from_adata_unsplit_keys Z_Scalar (SRStr "X")
           "control" [("drug", PList [PStr "dose"])] None None None None
           None 0%Z example_world _ _ eq_refl example_load_none).
Defined.

(** ** Which configurations the verification steps accept *)

(** A covariate entry that [_verify_covariate_data] lets pass: the
    [None] placeholder or the label of a metadata column. *)
Definition known_covariate {SC : Scalar} (adata : AnnData) (c : pyval) : bool :=
  match c with
  | PNone => true
  | PStr s => smem (obs adata) s
  | _ => false
  end.

(** The label of a metadata column. *)
Definition known_column {SC : Scalar} (adata : AnnData) (c : pyval) : bool :=
  match c with
  | PStr s => smem (obs adata) s
  | _ => false
  end.

(** An item of [perturbation_covariates] that passes verification: a
    string key with a non-empty tuple or list of known covariates. *)
Definition valid_group {SC : Scalar} (adata : AnnData) (item : pyval * pyval)
  : bool :=
  match item with
  | (PStr _, PTuple l) | (PStr _, PList l) =>
      negb (List.length l =? 0) && forallb (known_covariate adata) l
  | _ => false
  end.

(** An item of [covariate_reps] that passes verification: the key is a
    covariate group and the value names a dictionary in [adata.uns]. *)
Definition valid_rep {SC : Scalar} (adata : AnnData)
    (covariates : PerturbationData.groups) (item : string * string) : bool :=
  smem covariates (fst item)
  && match sget (uns adata) (snd item) with
     | Some (UnsDict _) => true
     | _ => false
     end.

Section VerificationOutcomes.
Context {SC : Scalar}.
Import PerturbationData.

Lemma forallb_eq {A : Type} (f g : A -> bool) (l : list A) :
  (forall x, f x = g x) -> forallb f l = forallb g l.
Proof.
  intro E. induction l as [|x l IH]; simpl; [reflexivity|].
  now rewrite E, IH.
Qed.

Lemma for_each_checks {A : Type} (check : A -> result unit) (l : list A)
    (u : unit) :
  for_each (fun _ x => check x) l u = Ok tt
  <-> forallb (fun x => is_ok (check x)) l = true.
Proof.
  revert u. induction l as [|x l IH]; intro u; simpl.
  - destruct u. tauto.
  - destruct (check x) as [u'|e]; simpl.
    + apply IH.
    + split; discriminate.
Qed.

Lemma verify_covariate_data_ok (adata : AnnData) (covars : list pyval) :
  is_ok (_verify_covariate_data adata covars)
  = forallb (known_covariate adata) covars.
Proof.
  unfold _verify_covariate_data. generalize tt.
  induction covars as [|c covars IH]; intros []; [reflexivity|].
  cbn [for_each forallb].
  destruct c as [| b | z | s | l | l | items]; cbn [known_covariate andb bind];
    try apply IH; unfold in_obs; cbn [hashable bind]; try reflexivity.
  - destruct (smem (obs adata) s); cbn [andb]; [apply IH | reflexivity].
  - destruct (forallb hashable l); reflexivity.
Qed.

(** X5: [_verify_covariate_data] stops at the first entry that is
    neither [None] nor the label of a column of [adata.obs]: it raises
    [TypeError] when that entry is unhashable and the "not found"
    [ValueError] otherwise, and returns when there is no such entry. *)
Theorem verify_covariate_data_first_unknown (adata : AnnData)
    (covars : list pyval) :
  _verify_covariate_data adata covars
  = match find (fun c => negb (known_covariate adata c)) covars with
    | None => Ok tt
    | Some c =>
        Raise (if hashable c
               then ValueError "Covariate not found in adata.obs."
               else TypeError "unhashable type")
    end.
Proof.
  unfold _verify_covariate_data. generalize tt.
  induction covars as [|c covars IH]; intros []; [reflexivity|].
  cbn [for_each find].
  destruct c as [| b | z | s | l | l | items]; cbn [known_covariate negb bind];
    try apply IH; unfold in_obs; cbn [hashable bind]; try reflexivity.
  - destruct (smem (obs adata) s); cbn [negb]; [apply IH | reflexivity].
  - destruct (forallb hashable l); reflexivity.
Qed.

Lemma result_unit_ok (r : result unit) : r = Ok tt <-> is_ok r = true.
Proof.
  destruct r as [[]|e]; simpl; split; auto; discriminate.
Qed.

(** X6: [_verify_perturbation_covariates] returns exactly on a
    non-empty dictionary whose every key is a string and whose every
    value is a non-empty tuple or list of entries that are [None] or
    labels of columns of [adata.obs]. *)
Theorem verify_perturbation_covariates_accepts (adata : AnnData)
    (data : pyval) :
  _verify_perturbation_covariates adata data = Ok tt
  <-> exists items,
        data = PDict items /\ items <> []
        /\ forallb (valid_group adata) items = true.
Proof.
  unfold _verify_perturbation_covariates.
  destruct data as [| b | z | s | l | l | items];
    try (split; [discriminate | intros (items & H & _); discriminate]).
  destruct items as [|item items].
  - split; [discriminate | intros (items & [= <-] & H & _); congruence].
  - cbn [List.length Nat.eqb].
    match goal with
    | |- for_each ?body ?l tt = Ok tt <-> _ =>
        change body with (fun (_ : unit) (x : pyval * pyval) =>
                            (fun x => body tt x) x)
    end.
    rewrite for_each_checks.
    assert (E : forall x : pyval * pyval,
               is_ok (let '(key, covars) := x in
                      match key with
                      | PStr _ =>
                          match covars with
                          | PTuple l | PList l =>
                              if List.length l =? 0
                              then Raise (ValueError
                                     "No covariates provided for perturbation group.")
                              else _verify_covariate_data adata l
                          | _ =>
                              resolve_name locals_verify_perturbation_covariates
                                           "covar" ;;;
                              Raise (ValueError "Value should be a tuple.")
                          end
                      | _ => Raise (ValueError "Key should be a string.")
                      end)
               = valid_group adata x).
    { intros [key covars]. destruct key; try reflexivity.
      destruct covars; try reflexivity; cbn [valid_group];
        (destruct (List.length l =? 0); [reflexivity|];
         cbn [negb andb]; apply verify_covariate_data_ok). }
    rewrite (forallb_eq _ _ _ E).
    split.
    + intro H. exists (item :: items). repeat split; [discriminate | exact H].
    + intros (items' & [= <-] & _ & H). exact H.
Qed.

(** X7: [_verify_sample_covariates] and [_verify_split_covariates]
    return on the same inputs: exactly the tuples and lists whose every
    element is the label of a column of [adata.obs]. *)
Theorem verify_covariate_sequences_accept (adata : AnnData) (data : pyval) :
  (_verify_sample_covariates adata data = Ok tt
   <-> exists l, (data = PTuple l \/ data = PList l)
                 /\ forallb (known_column adata) l = true)
  /\ (_verify_split_covariates adata data = Ok tt
      <-> _verify_sample_covariates adata data = Ok tt).
Proof.
  assert (H : forall msg,
    verify_covariate_sequence msg adata data = Ok tt
    <-> exists l, (data = PTuple l \/ data = PList l)
                  /\ forallb (known_column adata) l = true).
  { intro msg. unfold verify_covariate_sequence.
    assert (E : forall l,
      for_each
        (fun (_ : unit) covar =>
           match covar with
           | PStr _ => _verify_covariate_data adata (_to_list covar)
           | _ => Raise (ValueError "Key should be a string.")
           end) l tt = Ok tt
      <-> forallb (known_column adata) l = true).
    { intro l.
      match goal with
      | |- for_each ?body l tt = Ok tt <-> _ =>
          change body with (fun (_ : unit) (x : pyval) => (fun x => body tt x) x)
      end.
      rewrite for_each_checks.
      erewrite forallb_eq; [reflexivity|].
      intros c. destruct c; try reflexivity.
      cbn [_to_list known_column]. rewrite verify_covariate_data_ok.
      cbn [forallb known_covariate]. apply andb_true_r. }
    destruct data as [| b | z | s | l | l | items];
      try (split; [discriminate | intros (l & [G|G] & _); discriminate]).
    - rewrite E. split.
      + intro G. exists l. auto.
      + intros (l' & [[= <-]|[=]] & G). exact G.
    - rewrite E. split.
      + intro G. exists l. auto.
      + intros (l' & [[=]|[= <-]] & G). exact G. }
  split; [apply H|].
  unfold _verify_split_covariates, _verify_sample_covariates.
  now rewrite !H.
Qed.

(** X8: [_verify_covariate_reps] returns exactly when every key of
    [covariate_reps] is a covariate group and every value is the key of
    a dictionary in [adata.uns]. *)
Theorem verify_covariate_reps_accepts (adata : AnnData) (data : sdict string)
    (covariates : groups) :
  _verify_covariate_reps adata data covariates = Ok tt
  <-> forallb (valid_rep adata covariates) data = true.
Proof.
  unfold _verify_covariate_reps.
  match goal with
  | |- for_each ?body data tt = Ok tt <-> _ =>
      change body with (fun (_ : unit) (x : string * string) =>
                          (fun x => body tt x) x)
  end.
  rewrite for_each_checks.
  erewrite forallb_eq; [reflexivity|].
  intros [key value]. unfold valid_rep. cbn [fst snd].
  destruct (smem covariates key); cbn [negb andb]; [|reflexivity].
  destruct (sget (uns adata) value) as [[d|]|]; reflexivity.
Qed.
End VerificationOutcomes.

(** ** Linked covariates *)

(** The covariate each further group links to the primary covariate at
    position [i]. *)
Definition linked_at (others : PerturbationData.groups) (i : nat)
  : list (string * option string) :=
  map (fun kv => (fst kv, nth i (snd kv) None)) others.

Section LinkedCovariates.
Context {SC : Scalar}.
Import PerturbationData.

Lemma label_eqb_eq (a b : option string) : label_eqb a b = true <-> a = b.
Proof.
  destruct a as [x|], b as [y|]; simpl; split; try discriminate; auto.
  - intro H. apply String.eqb_eq in H. now subst.
  - intros [= ->]. apply String.eqb_refl.
Qed.

Lemma label_eqb_neq (a b : option string) : a <> b -> label_eqb a b = false.
Proof.
  intro H. destruct (label_eqb a b) eqn:E; [|reflexivity].
  apply label_eqb_eq in E. contradiction.
Qed.

Lemma nodup_constant (n : nat) (l : list nat) :
  (forall x, In x l -> x = n) -> nodup Nat.eq_dec (n :: l) = [n].
Proof.
  induction l as [|x l IH]; intro H; [reflexivity|].
  assert (x = n) by (apply H; now left). subst x.
  change (nodup Nat.eq_dec (n :: n :: l))
    with (if in_dec Nat.eq_dec n (n :: l) then nodup Nat.eq_dec (n :: l)
          else n :: nodup Nat.eq_dec (n :: l)).
  destruct (in_dec Nat.eq_dec n (n :: l)) as [_|Hn]; [|exfalso; apply Hn; now left].
  apply IH. intros y Hy. apply H. now right.
Qed.

Lemma fold_left_map {A B C : Type} (f : A -> C -> A) (g : B -> C) (l : list B)
    (a : A) :
  fold_left f (map g l) a = fold_left (fun a x => f a (g x)) l a.
Proof.
  revert a. induction l as [|x l IH]; intro a; simpl; auto.
Qed.

(** One group of linked covariates added to every primary covariate's
    dictionary. *)
Definition extend (ds : list (sdict (option string)))
    (group : string * list (option string)) : list (sdict (option string)) :=
  map (fun dc => sset (fst dc) (fst group) (snd dc)) (combine ds (snd group)).

Lemma dict_get_fresh_app {V : Type} (pre rest : list (option string * V))
    (p : option string) (d : V) :
  ~ In p (map fst pre) ->
  dict_get label_eqb (pre ++ (p, d) :: rest) p = Some d.
Proof.
  induction pre as [|[k v] pre IH]; simpl; intro H.
  - now rewrite (proj2 (label_eqb_eq p p) eq_refl).
  - rewrite label_eqb_neq by (intro; apply H; auto). apply IH. tauto.
Qed.

Lemma dict_set_fresh_app {V : Type} (pre rest : list (option string * V))
    (p : option string) (d d' : V) :
  ~ In p (map fst pre) ->
  dict_set label_eqb (pre ++ (p, d) :: rest) p d' = pre ++ (p, d') :: rest.
Proof.
  induction pre as [|[k v] pre IH]; simpl; intro H.
  - now rewrite (proj2 (label_eqb_eq p p) eq_refl).
  - rewrite label_eqb_neq by (intro; apply H; auto). f_equal. apply IH. tauto.
Qed.

Lemma link_group (h : string) (ps cs : list (option string)) :
  NoDup ps ->
  forall (ds : list (sdict (option string)))
         (pre : list (option string * sdict (option string))),
    List.length ds = List.length ps -> List.length cs = List.length ps ->
    (forall p, In p ps -> ~ In p (map fst pre)) ->
    fold_left
      (fun acc' '(primary_cov, linked_cov) =>
         match dict_get label_eqb acc' primary_cov with
         | Some d => dict_set label_eqb acc' primary_cov (sset d h linked_cov)
         | None => acc'
         end)
      (combine ps cs) (pre ++ combine ps ds)
    = pre ++ combine ps (extend ds (h, cs)).
Proof.
  intro Hnd. revert cs. induction Hnd as [|p ps Hp Hnd IH];
    intros cs ds pre Hds Hcs Hpre.
  - destruct ds; [|discriminate]. reflexivity.
  - destruct ds as [|d ds]; [discriminate|].
    destruct cs as [|c cs]; [discriminate|].
    cbn [combine fold_left].
    rewrite dict_get_fresh_app by (apply Hpre; now left).
    rewrite dict_set_fresh_app by (apply Hpre; now left).
    change (pre ++ (p, sset d h c) :: combine ps ds)
      with (pre ++ [(p, sset d h c)] ++ combine ps ds).
    rewrite app_assoc, IH.
    + rewrite <- app_assoc. reflexivity.
    + simpl in Hds. lia.
    + simpl in Hcs. lia.
    + intros q Hq. rewrite map_app, in_app_iff. simpl.
      intros [H|[H|[]]].
      * eapply Hpre; [right; eassumption | assumption].
      * subst q. contradiction.
Qed.

Lemma extend_length (ds : list (sdict (option string)))
    (group : string * list (option string)) :
  List.length (snd group) = List.length ds ->
  List.length (extend ds group) = List.length ds.
Proof.
  intro H. unfold extend. rewrite length_map, length_combine. lia.
Qed.

Lemma link_groups (ps : list (option string)) (others : groups) :
  NoDup ps ->
  (forall kv, In kv others -> List.length (snd kv) = List.length ps) ->
  forall ds, List.length ds = List.length ps ->
    fold_left
      (fun acc '(cov_group, covars) =>
         fold_left
           (fun acc' '(primary_cov, linked_cov) =>
              match dict_get label_eqb acc' primary_cov with
              | Some d =>
                  dict_set label_eqb acc' primary_cov
                           (sset d cov_group linked_cov)
              | None => acc'
              end)
           (combine ps covars) acc)
      others (combine ps ds)
    = combine ps (fold_left extend others ds).
Proof.
  intros Hnd. induction others as [|[h cs] others IH]; intros Hlen ds Hds;
    [reflexivity|].
  cbn [fold_left].
  assert (Hcs : List.length cs = List.length ps)
    by (apply (Hlen (h, cs)); now left).
  pose proof (link_group h ps cs Hnd ds [] Hds Hcs (fun _ _ H => H)) as G.
  cbn [app] in G. rewrite G. apply IH.
  - intros kv Hkv. apply Hlen. now right.
  - rewrite extend_length; [assumption|]. simpl. now rewrite Hds.
Qed.

Lemma nth_map_combine {A B C : Type} (f : A * B -> C) (l1 : list A)
    (l2 : list B) (i : nat) (dA : A) (dB : B) (dC : C) :
  List.length l2 = List.length l1 -> i < List.length l1 ->
  nth i (map f (combine l1 l2)) dC = f (nth i l1 dA, nth i l2 dB).
Proof.
  revert l2 i. induction l1 as [|a l1 IH]; intros l2 i Hlen Hi;
    [simpl in Hi; lia|].
  destruct l2 as [|b l2]; [discriminate|].
  destruct i as [|i]; simpl; [reflexivity|].
  apply IH; simpl in *; lia.
Qed.

Lemma nth_extend (ds : list (sdict (option string)))
    (group : string * list (option string)) (i : nat) :
  List.length (snd group) = List.length ds -> i < List.length ds ->
  nth i (extend ds group) []
  = sset (nth i ds []) (fst group) (nth i (snd group) None).
Proof.
  intros Hlen Hi. unfold extend.
  now rewrite (nth_map_combine _ ds (snd group) i [] None).
Qed.

Lemma nth_link_groups (others : groups) (n i : nat) :
  (forall kv, In kv others -> List.length (snd kv) = n) -> i < n ->
  forall ds, List.length ds = n ->
    nth i (fold_left extend others ds) []
    = fold_left (fun d kv => sset d (fst kv) (nth i (snd kv) None)) others
                (nth i ds []).
Proof.
  intros Hlen Hi. induction others as [|g others IH]; intros ds Hds;
    [reflexivity|].
  cbn [fold_left].
  assert (Hg : List.length (snd g) = List.length ds)
    by (rewrite Hds; apply Hlen; now left).
  rewrite IH.
  - rewrite nth_extend by (auto; lia). reflexivity.
  - intros kv Hkv. apply Hlen. now right.
  - rewrite extend_length; auto.
Qed.

Lemma dict_set_fresh_label {V : Type} (pre : list (option string * V))
    (p : option string) (v : V) :
  ~ In p (map fst pre) -> dict_set label_eqb pre p v = pre ++ [(p, v)].
Proof.
  induction pre as [|[k v'] pre IH]; simpl; intro Hfresh; [reflexivity|].
  rewrite label_eqb_neq by (intro; apply Hfresh; auto).
  f_equal. apply IH. tauto.
Qed.

Lemma dict_of_items_keys (ps : list (option string)) :
  NoDup ps ->
  dict_of_items label_eqb
    (map (fun k => (k, @nil (string * option string))) ps)
  = combine ps (repeat [] (List.length ps)).
Proof.
  unfold dict_of_items, dict_union.
  enough (H : forall pre : list (option string * sdict (option string)),
             NoDup (map fst pre ++ ps) ->
             fold_left (fun acc kv => dict_set label_eqb acc (fst kv) (snd kv))
                       (map (fun k => (k, [])) ps) pre
             = pre ++ combine ps (repeat [] (List.length ps))).
  { intro Hnd. apply (H []). exact Hnd. }
  induction ps as [|p ps IH]; intros pre Hnd; cbn [map fold_left fst snd].
  - simpl. now rewrite app_nil_r.
  - assert (Hfresh : ~ In p (map fst pre)).
    { apply NoDup_remove_2 in Hnd. intro H. apply Hnd.
      apply in_or_app. now left. }
    rewrite dict_set_fresh_label by assumption. rewrite IH.
    + now rewrite <- app_assoc.
    + rewrite map_app. simpl. rewrite <- app_assoc. exact Hnd.
Qed.

Lemma dict_get_combine (ps : list (option string))
    (ds : list (sdict (option string))) (i : nat) :
  NoDup ps -> List.length ds = List.length ps -> i < List.length ps ->
  dict_get label_eqb (combine ps ds) (nth i ps None) = Some (nth i ds []).
Proof.
  intro Hnd. revert ds i. induction Hnd as [|p ps Hp Hnd IH];
    intros ds i Hds Hi; [simpl in Hi; lia|].
  destruct ds as [|d ds]; [discriminate|].
  destruct i as [|i]; simpl.
  - now rewrite (proj2 (label_eqb_eq p p) eq_refl).
  - rewrite label_eqb_neq.
    + apply IH; simpl in *; lia.
    + intros ->. apply Hp. apply nth_In. simpl in Hi. lia.
Qed.

(** X9: linking is positional.  When the primary covariates are
    distinct and every further group has as many covariates as the
    primary group, [_get_linked_covariates] returns a dictionary whose
    keys are the primary covariates in order, and the entry of the
    primary covariate at position [i] maps every further group to that
    group's covariate at position [i]. *)
Theorem get_linked_covariates_positional (primary_group : string)
    (primary_covars : list (option string)) (others : groups) :
  NoDup primary_covars ->
  (forall kv, In kv others ->
              List.length (snd kv) = List.length primary_covars) ->
  exists primary_to_linked,
    _get_linked_covariates ((primary_group, primary_covars) :: others)
    = Ok primary_to_linked
    /\ map fst primary_to_linked = primary_covars
    /\ forall i, i < List.length primary_covars ->
         dict_get label_eqb primary_to_linked (nth i primary_covars None)
         = Some (dict_of_items String.eqb (linked_at others i)).
Proof.
  intros Hnd Hlen.
  unfold _get_linked_covariates, _verify_linked_covars.
  cbn [map snd]. rewrite nodup_constant.
  2:{ intros x Hx. apply in_map_iff in Hx as (kv & <- & Hkv). now apply Hlen. }
  cbn [List.length Nat.eqb bind].
  rewrite dict_of_items_keys by assumption.
  rewrite link_groups; auto using repeat_length.
  eexists. split; [reflexivity|].
  assert (Hfinal : List.length (fold_left extend others
                     (repeat [] (List.length primary_covars)))
                   = List.length primary_covars).
  { generalize (repeat_length (@nil (string * option string))
                              (List.length primary_covars)).
    generalize (repeat (@nil (string * option string))
                       (List.length primary_covars)).
    clear - Hlen. induction others as [|g others IH]; intros ds Hds; [exact Hds|].
    cbn [fold_left]. apply IH.
    - intros kv Hkv. apply Hlen. now right.
    - rewrite extend_length; [assumption|].
      etransitivity; [apply Hlen; now left | symmetry; exact Hds]. }
  split.
  - clear - Hfinal. revert Hfinal.
    generalize (fold_left extend others (repeat [] (List.length primary_covars))).
    induction primary_covars as [|p ps IH]; intros [|d ds] H;
      try discriminate; [reflexivity|].
    simpl. f_equal. apply IH. simpl in H. lia.
  - intros i Hi.
    rewrite dict_get_combine by assumption. f_equal.
    rewrite (nth_link_groups others (List.length primary_covars))
      by auto using repeat_length.
    rewrite nth_repeat_lt by assumption.
    unfold dict_of_items, dict_union, linked_at.
    rewrite fold_left_map. reflexivity.
Qed.

(** X10: [_get_linked_covariates] returns exactly when there is at
    least one group and all groups have the same number of covariates;
    otherwise it raises the [ValueError] of [_verify_linked_covars], so
    the lookup of the first item never fails. *)
Theorem get_linked_covariates_accepts (perturb_covariates : groups) :
  (is_ok (_get_linked_covariates perturb_covariates) = true
   <-> exists n, perturb_covariates <> []
                 /\ forall kv, In kv perturb_covariates ->
                               List.length (snd kv) = n)
  /\ (is_ok (_get_linked_covariates perturb_covariates) = false ->
      _get_linked_covariates perturb_covariates
      = Raise (ValueError
                 "Length of perturbation covariate groups must match.")).
Proof.
  unfold _get_linked_covariates, _verify_linked_covars.
  set (lengths := map (fun kv => List.length (snd kv)) perturb_covariates).
  destruct (List.length (nodup Nat.eq_dec lengths) =? 1) eqn:E.
  - apply Nat.eqb_eq in E. cbn [bind].
    destruct perturb_covariates as [|[g ps] others]; [discriminate E|].
    split; [|discriminate]. split; [|reflexivity].
    intros _. exists (List.length ps). split; [discriminate|].
    destruct (nodup Nat.eq_dec lengths) as [|x [|y l]] eqn:Hn;
      try discriminate E.
    assert (Hall : forall y, In y lengths -> y = x).
    { intros y Hy. apply (nodup_In Nat.eq_dec) in Hy. rewrite Hn in Hy.
      destruct Hy as [<-|[]]. reflexivity. }
    intros kv Hkv.
    rewrite (Hall (List.length (snd kv)))
      by (unfold lengths; apply in_map_iff; exists kv; auto).
    symmetry. apply Hall. left. reflexivity.
  - cbn [bind is_ok]. split; [|reflexivity]. split; [discriminate|].
    intros (n & Hne & Hlen). exfalso.
    destruct perturb_covariates as [|[g ps] others]; [congruence|].
    unfold lengths in E. cbn [map snd] in E.
    rewrite (nodup_constant (List.length ps)) in E; [discriminate|].
    intros x Hx. apply in_map_iff in Hx as (kv & <- & Hkv).
    rewrite (Hlen kv) by now right.
    symmetry. apply (Hlen (g, ps)). now left.
Qed.
End LinkedCovariates.

(** Two drugs, each linked to its own time column. *)
Lemma get_linked_covariates_positional_witness :
  NoDup [Some "drugA"; Some "drugB"]
  /\ exists primary_to_linked,
       PerturbationData._get_linked_covariates
         [("drug", [Some "drugA"; Some "drugB"]);
          ("time", [Some "timeA"; Some "timeB"])]
       = Ok primary_to_linked
       /\ map fst primary_to_linked = [Some "drugA"; Some "drugB"]
       /\ forall i, i < 2 ->
            dict_get label_eqb primary_to_linked
                     (nth i [Some "drugA"; Some "drugB"] None)
            = Some (dict_of_items String.eqb
                      (linked_at [("time", [Some "timeA"; Some "timeB"])] i)).
Proof.
  assert (Hnd : NoDup [Some "drugA"; Some "drugB"]).
  { constructor; [|constructor; [|constructor]]; simpl; intuition discriminate. }
  split; [exact Hnd|].
  apply (get_linked_covariates_positional "drug"
           [Some "drugA"; Some "drugB"]
           [("time", [Some "timeA"; Some "timeB"])] Hnd).
  intros kv [<-|[]]. reflexivity.
Defined.

(** ** Dictionaries with decidable keys *)

Section DictFacts.
Context {K V : Type} (eqb : K -> K -> bool).
Hypothesis eqb_eq : forall a b, eqb a b = true <-> a = b.

Lemma eqb_refl_of (a : K) : eqb a a = true.
Proof. now apply eqb_eq. Qed.

Lemma eqb_neq_of (a b : K) : a <> b -> eqb a b = false.
Proof.
  intro H. destruct (eqb a b) eqn:E; [|reflexivity].
  apply eqb_eq in E. contradiction.
Qed.

Lemma dict_get_in (d : list (K * V)) (k : K) (v : V) :
  dict_get eqb d k = Some v -> In (k, v) d.
Proof.
  induction d as [|[k' v'] d IH]; simpl; [discriminate|].
  destruct (eqb k' k) eqn:E.
  - apply eqb_eq in E. subst. intros [= ->]. now left.
  - intro H. right. auto.
Qed.

Lemma dict_get_none (d : list (K * V)) (k : K) :
  dict_get eqb d k = None <-> ~ In k (map fst d).
Proof.
  induction d as [|[k' v'] d IH]; simpl; [tauto|].
  destruct (eqb k' k) eqn:E.
  - apply eqb_eq in E. subst. split; [discriminate|]. intro H. exfalso. auto.
  - rewrite IH. split; [|tauto].
    intros H [->|H']; [|tauto]. now rewrite eqb_refl_of in E.
Qed.

Lemma in_dict_get (d : list (K * V)) (k : K) (v : V) :
  NoDup (map fst d) -> In (k, v) d -> dict_get eqb d k = Some v.
Proof.
  induction d as [|[k' v'] d IH]; simpl; intros Hnd Hin; [destruct Hin|].
  inversion Hnd as [|? ? Hfresh Hnd']; subst.
  destruct Hin as [[= -> ->]|Hin].
  - now rewrite eqb_refl_of.
  - rewrite eqb_neq_of; [auto|].
    intros ->. apply Hfresh. apply in_map_iff. now exists (k, v).
Qed.

Lemma dict_set_keys (d : list (K * V)) (k : K) (v : V) :
  map fst (dict_set eqb d k v)
  = if dict_mem eqb d k then map fst d else map fst d ++ [k].
Proof.
  unfold dict_mem. induction d as [|[k' v'] d IH]; simpl; [reflexivity|].
  destruct (eqb k' k) eqn:E; simpl; [reflexivity|].
  rewrite IH. now destruct (dict_get eqb d k).
Qed.

Lemma dict_set_append (d : list (K * V)) (k : K) (v : V) :
  ~ In k (map fst d) -> dict_set eqb d k v = d ++ [(k, v)].
Proof.
  induction d as [|[k' v'] d IH]; simpl; intro H; [reflexivity|].
  rewrite eqb_neq_of by (intros ->; auto). f_equal. apply IH. tauto.
Qed.

Lemma dict_get_set_same (d : list (K * V)) (k : K) (v : V) :
  dict_get eqb (dict_set eqb d k v) k = Some v.
Proof.
  induction d as [|[k' v'] d IH]; simpl.
  - now rewrite eqb_refl_of.
  - destruct (eqb k' k) eqn:E; simpl; rewrite E; auto.
Qed.

Lemma dict_get_set_other (d : list (K * V)) (k k' : K) (v : V) :
  k' <> k -> dict_get eqb (dict_set eqb d k v) k' = dict_get eqb d k'.
Proof.
  intro Hne. induction d as [|[k0 v0] d IH]; simpl.
  - now rewrite eqb_neq_of by congruence.
  - destruct (eqb k0 k) eqn:E; simpl.
    + apply eqb_eq in E. subst k0.
      now rewrite eqb_neq_of by congruence.
    + destruct (eqb k0 k'); auto.
Qed.

(** A dictionary display with distinct keys lists its items as
    written. *)
Lemma dict_of_items_nodup (items : list (K * V)) :
  NoDup (map fst items) -> dict_of_items eqb items = items.
Proof.
  unfold dict_of_items, dict_union.
  enough (H : forall pre, NoDup (map fst (pre ++ items)) ->
             fold_left (fun acc kv => dict_set eqb acc (fst kv) (snd kv))
                       items pre = pre ++ items).
  { intro Hnd. apply (H []). exact Hnd. }
  induction items as [|[k v] items IH]; intros pre Hnd; simpl.
  - now rewrite app_nil_r.
  - rewrite dict_set_append.
    + rewrite IH; rewrite <- app_assoc; [reflexivity | exact Hnd].
    + rewrite map_app in Hnd. apply NoDup_remove_2 in Hnd.
      intro H. apply Hnd. apply in_or_app. now left.
Qed.
End DictFacts.

Lemma string_eqb_eq (a b : string) : String.eqb a b = true <-> a = b.
Proof. apply String.eqb_eq. Qed.

(** ** The maximum combination length, in general *)

Section MaxCombinationLengthBounds.
Context {SC : Scalar}.
Import PerturbationData.

(** X11: when [_get_max_combination_length] returns, the dataset is
    untouched, the result is at least the number of covariates of every
    group and at least the caller's value, it is one of these numbers,
    and the warning is logged exactly when the caller's value is
    smaller than the result. *)
Theorem get_max_combination_length_bounds (perturbation_covariates : groups)
    (max_combination_length : option Z) (w w' : world) (r : Z) :
  _get_max_combination_length perturbation_covariates max_combination_length w
  = (w', Ok r) ->
  the_adata w' = the_adata w
  /\ (forall kv, In kv perturbation_covariates ->
                 (Z.of_nat (List.length (snd kv)) <= r)%Z)
  /\ (max_combination_length = Some r
      \/ exists kv, In kv perturbation_covariates
                    /\ r = Z.of_nat (List.length (snd kv)))
  /\ match max_combination_length with
     | None => warnings_log w' = warnings_log w
     | Some m =>
         (m <= r)%Z
         /\ warnings_log w'
            = warnings_log w ++ (if (m <? r)%Z then [max_length_warning] else [])
     end.
Proof.
  unfold _get_max_combination_length, mbind, lift.
  fold (group_lengths perturbation_covariates).
  destruct (py_max (group_lengths perturbation_covariates)) as [z|e] eqn:Hz;
    [|discriminate].
  apply py_max_spec in Hz as [Hin Hmax].
  assert (Hle : forall kv, In kv perturbation_covariates ->
                           (Z.of_nat (List.length (snd kv)) <= z)%Z).
  { intros kv Hkv. apply Hmax. unfold group_lengths.
    apply in_map_iff. now exists kv. }
  assert (Hex : exists kv, In kv perturbation_covariates
                           /\ z = Z.of_nat (List.length (snd kv))).
  { unfold group_lengths in Hin. apply in_map_iff in Hin as (kv & E & Hkv).
    exists kv. auto. }
  destruct max_combination_length as [m|].
  - destruct (Z.ltb_spec m z) as [Hlt|Hge].
    + unfold warn, ret. intros [= <- <-]. cbn [the_adata warnings_log].
      destruct (Z.ltb_spec m z); [|lia].
      repeat split; auto. lia.
    + unfold ret. intros [= <- <-].
      rewrite Z.ltb_irrefl, app_nil_r.
      repeat split; auto; try lia.
      intros kv Hkv. specialize (Hle kv Hkv). lia.
  - unfold ret. intros [= <- <-]. repeat split; auto.
Qed.
End MaxCombinationLengthBounds.

Lemma get_max_combination_length_bounds_witness :
  PerturbationData._get_max_combination_length
    [("drug", [Some "drugA"; Some "drugB"])] (Some 5%Z) example_world
  = (example_world, Ok 5%Z)
  /\ the_adata example_world = the_adata example_world
  /\ (forall kv, In kv [("drug", [Some "drugA"; Some "drugB"])] ->
                 (Z.of_nat (List.length (snd kv)) <= 5)%Z)
  /\ (Some 5%Z = Some 5%Z
      \/ exists kv, In kv [("drug", [Some "drugA"; Some "drugB"])]
                    /\ 5%Z = Z.of_nat (List.length (snd kv)))
  /\ (5 <= 5)%Z
  /\ warnings_log example_world
     = warnings_log example_world
       ++ (if (5 <? 5)%Z then [PerturbationData.max_length_warning] else []).
Proof.
  split; [reflexivity|].
  exact (@get_max_combination_length_bounds Z_Scalar
           [("drug", [Some "drugA"; Some "drugB"])] (Some 5%Z)
           example_world example_world 5%Z eq_refl).
Defined.

(** ** The control column *)

Definition is_boolean_dtype (d : dtype) : bool :=
  match d with DBoolean => true | _ => false end.

Section ControlColumn.
Context {SC : Scalar}.
Import PerturbationData.

(** The outcome of [_verify_control_data] on a string key, case by
    case. *)
Lemma verify_control_data_run (k : string) (w : world) :
  _verify_control_data (PStr k) w
  = match sget (obs (the_adata w)) k with
    | None => (w, Raise (ValueError "Control column not found in adata.obs."))
    | Some col =>
        if is_boolean_dtype (col_dtype col) then
          (w, if count_true col =? 0
              then Raise (ValueError "No control cells found in adata.")
              else Ok tt)
        else
          match astype_boolean col with
          | None =>
              (w, Raise (ValueError
                           "Control column could not be converted to boolean."))
          | Some c =>
              (mk_world (set_column (the_adata w) k c) (warnings_log w),
               if count_true c =? 0
               then Raise (ValueError "No control cells found in adata.")
               else Ok tt)
          end
    end.
Proof.
  unfold _verify_control_data, mbind, get_adata, lift, in_obs, smem, dict_mem.
  cbn [hashable]. fold (sget (obs (the_adata w)) k).
  destruct (sget (obs (the_adata w)) k) as [col|]; [|reflexivity].
  destruct (col_dtype col); cbn [is_boolean_dtype];
    try (destruct (astype_boolean col) as [c|]; [|reflexivity];
         unfold put_adata, ret, raise;
         destruct (count_true c =? 0); reflexivity).
  unfold ret, raise. destruct (count_true col =? 0); reflexivity.
Qed.

Lemma verify_control_data_other (key : pyval) (w : world) :
  (forall k, key <> PStr k) ->
  exists e, _verify_control_data key w = (w, Raise e).
Proof.
  intro H. unfold _verify_control_data, mbind, get_adata, lift, in_obs.
  destruct key as [| b | z | k | l | l | items]; cbn [hashable];
    try (eexists; reflexivity);
    try (destruct (forallb hashable l); eexists; reflexivity).
  exfalso. now apply (H k).
Qed.

(** X12: when [_verify_control_data] returns, its key is the label of
    a column that now has the nullable boolean dtype and at least one
    true cell, and verifying again returns without changing anything
    further. *)
Theorem verify_control_data_idempotent (key : pyval) (w w' : world) :
  _verify_control_data key w = (w', Ok tt) ->
  (exists k col,
      key = PStr k /\ sget (obs (the_adata w')) k = Some col
      /\ col_dtype col = DBoolean /\ 0 < count_true col)
  /\ _verify_control_data key w' = (w', Ok tt).
Proof.
  intro Hrun.
  assert (Hkey : exists k, key = PStr k).
  { destruct key as [| b | z | k | l | l | items]; try (now exists k);
      (match type of Hrun with
       | _verify_control_data ?key0 _ = _ =>
           destruct (verify_control_data_other key0 w) as [e He];
           [intros k; discriminate | rewrite He in Hrun; discriminate]
       end). }
  destruct Hkey as [k ->].
  assert (Hdone : exists col,
             sget (obs (the_adata w')) k = Some col
             /\ col_dtype col = DBoolean /\ (count_true col =? 0) = false).
  { rewrite verify_control_data_run in Hrun.
    destruct (sget (obs (the_adata w)) k) as [col|] eqn:Hget; [|discriminate].
    destruct (is_boolean_dtype (col_dtype col)) eqn:Hd.
    - destruct (count_true col =? 0) eqn:Hn; [discriminate|].
      injection Hrun as <-. exists col. repeat split; auto.
      destruct (col_dtype col); try discriminate. reflexivity.
    - destruct (astype_boolean col) as [c|] eqn:Hc; [|discriminate].
      destruct (count_true c =? 0) eqn:Hn; [discriminate|].
      injection Hrun as <-. exists c. cbn [the_adata].
      repeat split; auto.
      + apply sget_sset_same.
      + eapply astype_boolean_dtype; eauto. }
  destruct Hdone as (col & Hget & Hd & Hn). split.
  - exists k, col. repeat split; auto. apply Nat.eqb_neq in Hn. lia.
  - rewrite verify_control_data_run, Hget, Hd. cbn [is_boolean_dtype].
    now rewrite Hn.
Qed.

(** X13: a failing [_verify_control_data] leaves the dataset as it
    was, with one exception: a control column without a true cell that
    had to be converted stays converted although the call raises. *)
Theorem verify_control_data_failure (key : pyval) (w w' : world) (e : exn) :
  _verify_control_data key w = (w', Raise e) ->
  w' = w
  \/ exists k col c,
       key = PStr k /\ sget (obs (the_adata w)) k = Some col
       /\ col_dtype col <> DBoolean /\ astype_boolean col = Some c
       /\ count_true c = 0
       /\ e = ValueError "No control cells found in adata."
       /\ w' = mk_world (set_column (the_adata w) k c) (warnings_log w).
Proof.
  intro Hrun.
  destruct key as [| b | z | k | l | l | items];
    try (match type of Hrun with
         | _verify_control_data ?key0 _ = _ =>
             destruct (verify_control_data_other key0 w) as [e' He];
             [intros k; discriminate | rewrite He in Hrun; injection Hrun; auto]
         end).
  rewrite verify_control_data_run in Hrun.
  destruct (sget (obs (the_adata w)) k) as [col|] eqn:Hget;
    [|injection Hrun; auto].
  destruct (is_boolean_dtype (col_dtype col)) eqn:Hd; [injection Hrun; auto|].
  destruct (astype_boolean col) as [c|] eqn:Hc; [|injection Hrun; auto].
  destruct (count_true c =? 0) eqn:Hn; [|discriminate].
  injection Hrun as <- <-. right. exists k, col, c.
  repeat split; auto.
  - intro H. rewrite H in Hd. discriminate.
  - now apply Nat.eqb_eq.
Qed.
End ControlColumn.

(** Six cells none of which is marked as control, the marker stored as
    plain booleans. *)
Definition example_adata_no_control : AnnData :=
  mk_AnnData
    (mk_ndarray [6; 2] [0; 0; 0; 1; 1; 0; 2; 0; 2; 1; 3; 0]%Z)
    false
    [("control", mk_Column DBool (repeat (VBool false) 6))]
    [] [] 6.

Lemma verify_control_data_idempotent_witness :
  PerturbationData._verify_control_data (PStr "control") example_world
  = (mk_world example_adata_after [], Ok tt)
  /\ (exists k col,
         PStr "control" = PStr k
         /\ sget (obs (the_adata (mk_world example_adata_after []))) k = Some col
         /\ col_dtype col = DBoolean /\ 0 < count_true col)
  /\ PerturbationData._verify_control_data (PStr "control")
       (mk_world example_adata_after [])
     = (mk_world example_adata_after [], Ok tt).
Proof.
  split; [reflexivity|].
  exact (@verify_control_data_idempotent Z_Scalar (PStr "control")
           example_world (mk_world example_adata_after []) eq_refl).
Defined.

Lemma verify_control_data_failure_witness :
  PerturbationData._verify_control_data (PStr "control")
    (mk_world example_adata_no_control [])
  = (mk_world (set_column example_adata_no_control "control"
                 (mk_Column DBoolean (repeat (VBool false) 6))) [],
     Raise (ValueError "No control cells found in adata."))
  /\ (mk_world (set_column example_adata_no_control "control"
                  (mk_Column DBoolean (repeat (VBool false) 6))) []
      = mk_world example_adata_no_control []
      \/ exists k col c,
           PStr "control" = PStr k
           /\ sget (obs (the_adata (mk_world example_adata_no_control []))) k
              = Some col
           /\ col_dtype col <> DBoolean /\ astype_boolean col = Some c
           /\ count_true c = 0
           /\ ValueError "No control cells found in adata."
              = ValueError "No control cells found in adata."
           /\ mk_world (set_column example_adata_no_control "control"
                          (mk_Column DBoolean (repeat (VBool false) 6))) []
              = mk_world
                  (set_column
                     (the_adata (mk_world example_adata_no_control [])) k c)
                  (warnings_log (mk_world example_adata_no_control []))).
Proof.
  split; [reflexivity|].
  exact (@verify_control_data_failure Z_Scalar (PStr "control")
           (mk_world example_adata_no_control []) _ _ eq_refl).
Defined.

(** ** The classification of the primary covariates *)

Section CovariateType.
Context {SC : Scalar}.
Import PerturbationData.

(** Column [k] of the dataset is classified by the flag [b]: it has the
    category dtype and does not convert to float when [b] holds, it has
    the float dtype and converts to float otherwise. *)
Definition classified (k : string) (b : bool) (a : AnnData) : Prop :=
  exists col,
    sget (obs a) k = Some col
    /\ col_dtype col = (if b then DCategory else DFloat)
    /\ (astype_float col = None <-> b = true).

Lemma traverse_float_like_again (vs ws : list value) :
  traverse float_like vs = Some ws -> traverse float_like ws = Some ws.
Proof.
  revert ws. induction vs as [|v vs IH]; intros ws; simpl.
  - now intros [= <-].
  - destruct (float_like v) as [y|] eqn:Hy; [|discriminate].
    destruct (traverse float_like vs) as [ys|]; [|discriminate].
    intros [= <-]. simpl. rewrite (IH ys eq_refl).
    assert (float_like y = Some y) as ->; [|reflexivity].
    destruct v as [| b | x | s]; simpl in Hy.
    + now injection Hy as <-.
    + now injection Hy as <-.
    + now injection Hy as <-.
    + destruct (num_of_string s); [|discriminate]. now injection Hy as <-.
Qed.

Lemma astype_float_again (col c : Column) :
  astype_float col = Some c -> astype_float c = Some c.
Proof.
  unfold astype_float.
  destruct (traverse float_like (col_values col)) as [ws|] eqn:H;
    [|discriminate].
  intros [= <-]. cbn [col_values].
  now rewrite (traverse_float_like_again _ _ H).
Qed.

(** One iteration of the loop of [_check_covariate_type]. *)
Definition classify_step (col_is_cat : list bool) (covariate : option string)
  : M (list bool) :=
  adata <~ get_adata ;;
  match covariate with
  | None => raise (KeyError "None")
  | Some k =>
      match sget (obs adata) k with
      | None => raise (KeyError k)
      | Some col =>
          match astype_float col with
          | Some c =>
              put_adata (set_column adata k c) ;;~
              ret (col_is_cat ++ [false])
          | None =>
              put_adata (set_column adata k (astype_category col)) ;;~
              ret (col_is_cat ++ [true])
          end
      end
  end.

Lemma classify_step_spec (acc acc' : list bool) (c : option string)
    (w w' : world) :
  classify_step acc c w = (w', Ok acc') ->
  exists k b,
    c = Some k /\ acc' = acc ++ [b] /\ classified k b (the_adata w')
    /\ forall k0 b0, classified k0 b0 (the_adata w) ->
                     classified k0 b0 (the_adata w').
Proof.
  unfold classify_step, mbind, get_adata, put_adata, ret, raise.
  destruct c as [k|]; [|discriminate].
  destruct (sget (obs (the_adata w)) k) as [col|] eqn:Hget; [|discriminate].
  destruct (astype_float col) as [c|] eqn:Hf; intros [= <- <-];
    cbn [the_adata].
  - assert (Hk : classified k false (set_column (the_adata w) k c)).
    { exists c. split; [apply sget_sset_same|]. split.
      - eapply astype_float_dtype; eauto.
      - rewrite (astype_float_again _ _ Hf). split; discriminate. }
    exists k, false. repeat split; auto.
    intros k0 b0 (col0 & Hg0 & Hd0 & Hb0).
    destruct (String.string_dec k0 k) as [->|Hne].
    + assert (col0 = col) by congruence. subst col0.
      assert (b0 = false) as ->; [|exact Hk].
      destruct b0; [|reflexivity].
      destruct Hb0 as [_ Hb0]. rewrite Hb0 in Hf; [discriminate|reflexivity].
    + exists col0. cbn [set_column set_obs obs].
      rewrite sget_sset_other by assumption. auto.
  - assert (Hk : classified k true (set_column (the_adata w) k
                                                (astype_category col))).
    { exists (astype_category col). split; [apply sget_sset_same|].
      split; [reflexivity|].
      unfold astype_float, astype_category in *. cbn [col_values].
      rewrite Hf. tauto. }
    exists k, true. repeat split; auto.
    intros k0 b0 (col0 & Hg0 & Hd0 & Hb0).
    destruct (String.string_dec k0 k) as [->|Hne].
    + assert (col0 = col) by congruence. subst col0.
      assert (b0 = true) as ->; [|exact Hk].
      now apply Hb0.
    + exists col0. cbn [set_column set_obs obs].
      rewrite sget_sset_other by assumption. auto.
Qed.

Lemma classify_loop (l : list (option string)) :
  forall (acc acc' : list bool) (w w' : world),
    mfor classify_step l acc w = (w', Ok acc') ->
    exists flags,
      acc' = acc ++ flags
      /\ List.length flags = List.length l
      /\ (forall k b, In (Some k, b) (combine l flags) ->
                      classified k b (the_adata w'))
      /\ forall k b, classified k b (the_adata w) ->
                     classified k b (the_adata w').
Proof.
  induction l as [|c l IH]; intros acc acc' w w' Hrun; simpl in Hrun.
  - injection Hrun as <- <-. exists []. rewrite app_nil_r.
    repeat split; auto. intros k b [].
  - unfold mbind in Hrun.
    destruct (classify_step acc c w) as [w1 [acc1|e]] eqn:Hstep;
      [|discriminate].
    apply classify_step_spec in Hstep as (k & b & -> & -> & Hk & Hkeep).
    apply IH in Hrun as (flags & -> & Hlen & Hall & Hkeep').
    exists (b :: flags). rewrite <- app_assoc. repeat split; auto.
    + simpl. now rewrite Hlen.
    + intros k0 b0 [[= <- <-]|Hin]; auto.
Qed.

Lemma all_flags_equal (flags : list bool) (b : bool) :
  Bool.eqb (existsb (fun x => x) flags) (forallb (fun x => x) flags) = true ->
  In b flags -> b = existsb (fun x => x) flags.
Proof.
  intros E Hin. apply Bool.eqb_prop in E.
  destruct (existsb (fun x => x) flags) eqn:Hex.
  - symmetry in E. rewrite forallb_forall in E. now apply E.
  - destruct b; [|reflexivity].
    assert (existsb (fun x => x) flags = true)
      by (apply existsb_exists; now exists true).
    congruence.
Qed.

(** The dtype of the listed columns after classification. *)
Lemma check_covariate_type_columns (covars : list (option string))
    (w w' : world) (is_categorical : bool) :
  _check_covariate_type covars w = (w', Ok is_categorical) ->
  forall k, In (Some k) covars ->
    exists col,
      sget (obs (the_adata w')) k = Some col
      /\ col_dtype col = (if is_categorical then DCategory else DFloat).
Proof.
  unfold _check_covariate_type. fold classify_step. unfold mbind at 1.
  destruct (mfor classify_step covars [] w) as [w1 [acc|e]] eqn:Hloop;
    [|discriminate].
  apply classify_loop in Hloop as (flags & -> & Hlen & Hall & _).
  cbn [app]. intros Hfin k Hk.
  assert (Hres : Bool.eqb (existsb (fun b => b) flags)
                          (forallb (fun b => b) flags) = true
                 /\ w' = w1 /\ is_categorical = existsb (fun b => b) flags).
  { destruct flags as [|f fl]; [discriminate|].
    destruct (Bool.eqb (existsb (fun b => b) (f :: fl))
                       (forallb (fun b => b) (f :: fl))) eqn:E;
      cbn [negb] in Hfin; [|discriminate].
    injection Hfin as <- <-. auto. }
  destruct Hres as (E & Hw & Hb). revert Hw Hb. intros -> ->.
  apply (In_nth _ _ None) in Hk as (i & Hi & Hnth).
  assert (Hin : In (Some k, nth i flags false) (combine covars flags)).
  { rewrite <- Hnth, <- combine_nth by (symmetry; exact Hlen).
    apply nth_In. rewrite length_combine. lia. }
  destruct (Hall _ _ Hin) as (col & Hget & Hd & _).
  exists col. split; [exact Hget|].
  rewrite <- (all_flags_equal flags (nth i flags false) E); [exact Hd|].
  apply nth_In. lia.
Qed.

(** The column [_check_covariate_type] puts in the place of [col]: its
    conversion to float, or to the category dtype when that raises. *)
Definition as_covariate (col : Column) : Column :=
  match astype_float col with
  | Some c => c
  | None => astype_category col
  end.

Lemma astype_float_as_covariate (col : Column) :
  astype_float (as_covariate col) = None <-> astype_float col = None.
Proof.
  unfold as_covariate. destruct (astype_float col) as [c|] eqn:Hf.
  - rewrite (astype_float_again _ _ Hf). tauto.
  - unfold astype_float, astype_category in *. cbn [col_values].
    rewrite Hf. tauto.
Qed.

(** Converting a converted column changes nothing. *)
Lemma as_covariate_again (col : Column) :
  as_covariate (as_covariate col) = as_covariate col.
Proof.
  unfold as_covariate. destruct (astype_float col) as [c|] eqn:Hf.
  - now rewrite (astype_float_again _ _ Hf).
  - unfold astype_float, astype_category in *. cbn [col_values].
    now rewrite Hf.
Qed.

(** One iteration replaces the column of its covariate by the converted
    column and touches no other column. *)
Lemma classify_step_column (acc acc' : list bool) (c : option string)
    (w w' : world) :
  classify_step acc c w = (w', Ok acc') ->
  exists k col,
    c = Some k /\ sget (obs (the_adata w)) k = Some col
    /\ sget (obs (the_adata w')) k = Some (as_covariate col)
    /\ forall k', k' <> k ->
         sget (obs (the_adata w')) k' = sget (obs (the_adata w)) k'.
Proof.
  unfold classify_step, mbind, get_adata, put_adata, ret, raise.
  destruct c as [k|]; [|discriminate].
  destruct (sget (obs (the_adata w)) k) as [col|] eqn:Hget; [|discriminate].
  intro Hrun. exists k, col. split; [reflexivity|]. split; [exact Hget|].
  unfold as_covariate.
  destruct (astype_float col) as [c|]; injection Hrun as <- _;
    cbn [the_adata set_column set_obs obs];
    (split; [apply sget_sset_same | intros k' Hne; now apply sget_sset_other]).
Qed.

(** The loop replaces every listed column by its conversion, a column
    listed twice included, and leaves the other columns alone. *)
Lemma classify_loop_columns (l : list (option string)) :
  forall (acc acc' : list bool) (w w' : world),
    mfor classify_step l acc w = (w', Ok acc') ->
    (forall k, In (Some k) l ->
       exists col,
         sget (obs (the_adata w)) k = Some col
         /\ sget (obs (the_adata w')) k = Some (as_covariate col))
    /\ (forall k, ~ In (Some k) l ->
          sget (obs (the_adata w')) k = sget (obs (the_adata w)) k).
Proof.
  induction l as [|c l IH]; intros acc acc' w w' Hrun; simpl in Hrun.
  - injection Hrun as <- _. split; [intros k []|reflexivity].
  - unfold mbind in Hrun.
    destruct (classify_step acc c w) as [w1 [acc1|e]] eqn:Hstep;
      [|discriminate].
    apply classify_step_column in Hstep as (k0 & col0 & -> & Hg0 & Hg1 & Hrest).
    apply IH in Hrun as [Hin Hout]. split.
    + intros k Hk.
      assert (Hdec : forall x y : option string, {x = y} + {x <> y})
        by (decide equality; apply String.string_dec).
      destruct (in_dec Hdec (Some k) l) as [Hl|Hl].
      * destruct (Hin k Hl) as (col1 & Hc1 & Hc').
        destruct (String.string_dec k k0) as [->|Hne].
        -- exists col0. split; [exact Hg0|].
           rewrite Hg1 in Hc1. injection Hc1 as <-.
           now rewrite Hc', as_covariate_again.
        -- exists col1. split; [|exact Hc'].
           now rewrite <- (Hrest k Hne).
      * destruct Hk as [[= <-]|Hk]; [|contradiction].
        exists col0. split; [exact Hg0|]. now rewrite (Hout k0 Hl).
    + intros k Hk.
      assert (Hne : k <> k0) by (intros ->; apply Hk; now left).
      rewrite Hout, Hrest; auto. intro Hl. apply Hk. now right.
Qed.

(** What [_check_covariate_type] has done to the dataset when it
    returns. *)
Lemma check_covariate_type_conversion (covars : list (option string))
    (w w' : world) (is_categorical : bool) :
  _check_covariate_type covars w = (w', Ok is_categorical) ->
  (forall k, In (Some k) covars ->
     exists col,
       sget (obs (the_adata w)) k = Some col
       /\ sget (obs (the_adata w')) k = Some (as_covariate col)
       /\ (astype_float col = None <-> is_categorical = true))
  /\ (forall k, ~ In (Some k) covars ->
        sget (obs (the_adata w')) k = sget (obs (the_adata w)) k).
Proof.
  unfold _check_covariate_type. fold classify_step. unfold mbind at 1.
  destruct (mfor classify_step covars [] w) as [w1 [acc|e]] eqn:Hloop;
    [|discriminate].
  pose proof (classify_loop_columns _ _ _ _ _ Hloop) as [Hin Hout].
  apply classify_loop in Hloop as (flags & -> & Hlen & Hall & _).
  cbn [app]. intros Hfin.
  assert (Hres : Bool.eqb (existsb (fun b => b) flags)
                          (forallb (fun b => b) flags) = true
                 /\ w' = w1 /\ is_categorical = existsb (fun b => b) flags).
  { destruct flags as [|f fl]; [discriminate|].
    destruct (Bool.eqb (existsb (fun b => b) (f :: fl))
                       (forallb (fun b => b) (f :: fl))) eqn:E;
      cbn [negb] in Hfin; [|discriminate].
    injection Hfin as <- <-. auto. }
  destruct Hres as (E & Hw & Hb). revert Hw Hb. intros -> ->.
  split; [|exact Hout].
  intros k Hk. destruct (Hin k Hk) as (col & Hget & Hget').
  exists col. split; [exact Hget|]. split; [exact Hget'|].
  apply (In_nth _ _ None) in Hk as (i & Hi & Hnth).
  assert (Hc : In (Some k, nth i flags false) (combine covars flags)).
  { rewrite <- Hnth, <- combine_nth by (symmetry; exact Hlen).
    apply nth_In. rewrite length_combine. lia. }
  destruct (Hall _ _ Hc) as (col' & Hg' & _ & Hb).
  rewrite Hget' in Hg'. injection Hg' as <-.
  rewrite <- (all_flags_equal flags (nth i flags false) E)
    by (apply nth_In; lia).
  rewrite <- Hb. symmetry. apply astype_float_as_covariate.
Qed.

(** X14: when [_check_covariate_type] returns [True], every listed
    column has been replaced in [adata.obs] by its conversion to the
    category dtype (none of them converts to float); when it returns
    [False], every listed column has been replaced by its conversion to
    float.  The columns that are not listed are the ones the dataset
    had. *)
Theorem check_covariate_type_dtype (covars : list (option string))
    (w w' : world) (is_categorical : bool) :
  _check_covariate_type covars w = (w', Ok is_categorical) ->
  (forall k, In (Some k) covars ->
     exists col,
       sget (obs (the_adata w)) k = Some col
       /\ if is_categorical
          then astype_float col = None
               /\ sget (obs (the_adata w')) k = Some (astype_category col)
          else exists c,
                 astype_float col = Some c
                 /\ sget (obs (the_adata w')) k = Some c)
  /\ (forall k, ~ In (Some k) covars ->
        sget (obs (the_adata w')) k = sget (obs (the_adata w)) k).
Proof.
  intro Hrun.
  destruct (check_covariate_type_conversion _ _ _ _ Hrun) as [Hin Hout].
  split; [|exact Hout].
  intros k Hk. destruct (Hin k Hk) as (col & Hget & Hget' & Hb).
  exists col. split; [exact Hget|].
  unfold as_covariate in Hget'.
  destruct is_categorical.
  - assert (Hf : astype_float col = None) by now apply Hb.
    rewrite Hf in Hget'. now split.
  - destruct (astype_float col) as [c|] eqn:Hf.
    + exists c. now split.
    + destruct Hb as [Hb _]. discriminate (Hb eq_refl).
Qed.
End CovariateType.

(** The drug names of the worked dataset do not convert to float: the
    column is replaced by its conversion to the category dtype.  The
    doses stored as numerals convert: the column is replaced by the
    float column. *)
Lemma check_covariate_type_dtype_witness :
  (PerturbationData._check_covariate_type [Some "drug"]
     example_world_categorical
   = (mk_world (set_column example_adata_categorical "drug"
                  (mk_Column DCategory
                     [VStr "ctrl"; VStr "ctrl"; VStr "B"; VStr "A"; VStr "A";
                      VStr "C"])) [],
      Ok true)
   /\ exists col,
        sget (obs example_adata_categorical) "drug" = Some col
        /\ astype_float col = None
        /\ sget (obs (set_column example_adata_categorical "drug"
                        (mk_Column DCategory
                           [VStr "ctrl"; VStr "ctrl"; VStr "B"; VStr "A";
                            VStr "A"; VStr "C"]))) "drug"
           = Some (astype_category col))
  /\ PerturbationData._check_covariate_type [Some "dose"]
       (mk_world example_adata_raw [])
     = (mk_world (set_column example_adata_raw "dose"
                    (mk_Column DFloat
                       [VNA; VNA; VNum 1%Z; VNum 2%Z; VNum 2%Z; VNum 3%Z])) [],
        Ok false)
  /\ exists col c,
       sget (obs example_adata_raw) "dose" = Some col
       /\ astype_float col = Some c
       /\ sget (obs (set_column example_adata_raw "dose"
                       (mk_Column DFloat
                          [VNA; VNA; VNum 1%Z; VNum 2%Z; VNum 2%Z; VNum 3%Z])))
               "dose"
          = Some c.
Proof.
  split; [split; [reflexivity|] | split; [reflexivity|]].
  - destruct (proj1 (@check_covariate_type_dtype Z_Scalar [Some "drug"]
                       example_world_categorical _ true eq_refl)
                "drug" (or_introl eq_refl))
      as (col & Hget & Hf & Hget').
    exists col. auto.
  - destruct (proj1 (@check_covariate_type_dtype Z_Scalar [Some "dose"]
                       (mk_world example_adata_raw []) _ false eq_refl)
                "dose" (or_introl eq_refl))
      as (col & Hget & c & Hf & Hget').
    exists col, c. auto.
Defined.

(** ** The columns an assembler call replaces *)

(** What [_verify_control_data] leaves in the place of the control
    column: the column itself when it has the nullable boolean dtype
    already, its conversion to that dtype otherwise. *)
Definition as_control {SC : Scalar} (col : Column) : option Column :=
  if is_boolean_dtype (col_dtype col) then Some col else astype_boolean col.

Section InPlaceCoercion.
Context {SC : Scalar}.
Import PerturbationData.

Lemma verify_control_data_conversion (k : string) (w w' : world) (u : unit) :
  _verify_control_data (PStr k) w = (w', Ok u) ->
  exists col b,
    sget (obs (the_adata w)) k = Some col /\ as_control col = Some b
    /\ sget (obs (the_adata w')) k = Some b
    /\ forall k', k' <> k ->
         sget (obs (the_adata w')) k' = sget (obs (the_adata w)) k'.
Proof.
  rewrite verify_control_data_run. unfold as_control.
  destruct (sget (obs (the_adata w)) k) as [col|] eqn:Hget; [|discriminate].
  destruct (is_boolean_dtype (col_dtype col)) eqn:Hd.
  - destruct (count_true col =? 0); [discriminate|].
    intros [= <-]. exists col, col. rewrite Hd. auto.
  - destruct (astype_boolean col) as [c|] eqn:Hc; [|discriminate].
    destruct (count_true c =? 0); [discriminate|].
    intros [= <-]. exists col, c. rewrite Hd.
    cbn [the_adata set_column set_obs obs].
    repeat split; auto.
    + apply sget_sset_same.
    + intros k' Hne. now apply sget_sset_other.
Qed.

Lemma in_column_labels (l : list (option string)) (k : string) :
  In k (column_labels l) <-> In (Some k) l.
Proof.
  unfold column_labels. rewrite in_flat_map. split.
  - intros ([k'|] & Hin & Hk); [|destruct Hk].
    destruct Hk as [<-|[]]. exact Hin.
  - intro Hin. exists (Some k). split; [exact Hin | now left].
Qed.

Lemma get_primary_covar_encoder_conversion (g : groups) (reps : sdict string)
    (w w' : world) (r : encoder_result OneHotEncoder) :
  _get_primary_covar_encoder g reps w = (w', Ok r) ->
  forall k, In k (match g with [] => [] | (_, l) :: _ => column_labels l end) ->
    exists col,
      sget (obs (the_adata w)) k = Some col
      /\ sget (obs (the_adata w')) k = Some (as_covariate col).
Proof.
  unfold _get_primary_covar_encoder.
  destruct g as [|[primary_group primary_covars] rest]; [discriminate|].
  unfold mbind at 1.
  destruct (_check_covariate_type primary_covars w) as [w1 [b|e]] eqn:Hc;
    [|discriminate].
  intros Hrun k Hk.
  assert (w' = w1) as ->.
  { destruct (smem reps primary_group); [now inversion Hrun|].
    unfold mbind, get_adata, lift, ret in Hrun.
    destruct b.
    - destruct (frame_rows _ _); [|discriminate].
      destruct (np_unique _); [|discriminate].
      destruct (fit _); [|discriminate]. now inversion Hrun.
    - destruct (fit _); [|discriminate]. now inversion Hrun. }
  apply in_column_labels in Hk.
  destruct (proj1 (check_covariate_type_conversion _ _ _ _ Hc) k Hk)
    as (col & Hget & Hget' & _).
  exists col. now split.
Qed.

(** Without split covariates the validation factory leaves the helper
    column in the caller's dataset, whatever its outcome. *)
Lemma validation_load_writes_helper (CONTROL_HELPER : string)
    (sample_rep : sample_rep_arg) (control_data : pyval)
    (split_covariates : option (list string))
    (obs_perturbation_covariates : list pyval)
    (uns_perturbation_covariates : sdict pyval)
    (max_combination_length : Z) (null_value : option value)
    (null_token : num) (w : world) :
  split_covariates = None \/ split_covariates = Some [] ->
  exists col,
    sget (obs (the_adata (fst
            (ValidationData.load_from_adata CONTROL_HELPER sample_rep
               control_data split_covariates obs_perturbation_covariates
               uns_perturbation_covariates max_combination_length null_value
               null_token w)))) CONTROL_HELPER
    = Some col
    /\ col_values col = repeat (VBool true) (n_obs (the_adata w)).
Proof.
  intro Hs. unfold ValidationData.load_from_adata.
  destruct (inject_control_helper_column CONTROL_HELPER split_covariates w Hs)
    as (w1 & E1 & Hn & Hget).
  unfold mbind at 1. rewrite E1.
  destruct (verify_control_data_column control_data w1 _ _ Hget)
    as (col' & Hget' & Hcol).
  exists col'. split.
  - unfold mbind.
    destruct (_verify_control_data control_data w1) as [w2 [u|e]];
      simpl in *; exact Hget'.
  - destruct Hcol as [->|Hcol]; [reflexivity|].
    unfold astype_boolean in Hcol. simpl in Hcol.
    rewrite bool_like_all_true in Hcol. simpl in Hcol.
    now inversion Hcol.
Qed.

Variables (sample_rep : sample_rep_arg) (control_key : string)
  (perturbation_covariates : sdict pyval)
  (perturbation_covariate_reps : option (sdict string))
  (sample_covariates : option (list string))
  (sample_covariate_reps : option (sdict string))
  (split_covariates : option (list string))
  (max_combination_length : option Z)
  (null_value : num).

Local Abbreviation load :=
  (load_with sample_rep control_key perturbation_covariates
     perturbation_covariate_reps sample_covariates sample_covariate_reps
     split_covariates null_value max_combination_length).

(** The columns of the caller's dataset when the factory returns: the
    control column [col0] has been replaced by [b], its conversion to
    the nullable boolean dtype, and then every primary covariate column
    by its conversion to float or to category. *)
Definition columns_replaced (a a' : AnnData) : Prop :=
  exists col0 b,
    sget (obs a) control_key = Some col0 /\ as_control col0 = Some b
    /\ (forall k, In k (primary_labels perturbation_covariates) ->
          exists col,
            sget (obs a) k = Some col
            /\ sget (obs a') k
               = Some (as_covariate
                         (if String.eqb k control_key then b else col)))
    /\ (~ In control_key (primary_labels perturbation_covariates) ->
        sget (obs a') control_key = Some b).

Lemma load_from_adata_replaces (w : world) :
  wp load (fun _ w' => columns_replaced (the_adata w) (the_adata w'))
     (fun _ _ => True) w.
Proof.
  unfold load_with, TrainingData.load_from_adata.
  apply wp_bind. unfold wp at 1.
  destruct (_verify_control_data (PStr control_key) w) as [w1 [u|e]] eqn:E1;
    [|exact I].
  apply verify_control_data_conversion in E1
    as (col0 & b & Hget0 & Hb & Hget1 & Hrest1).
  do 6 wp_pure.
  apply wp_bind. unfold wp at 1.
  match goal with
  | |- context [_get_max_combination_length ?g ?mcl w1] =>
      pose proof (get_max_combination_length_adata g mcl w1) as E2;
      destruct (_get_max_combination_length g mcl w1) as [w2 [z|e]];
      [|exact I]
  end.
  simpl in E2.
  destruct (_get_idx_to_covariate _) as [idx_to_covar covar_to_idx].
  apply wp_bind. unfold wp at 1.
  match goal with
  | |- context [_get_primary_covar_encoder ?g ?reps w2] =>
      pose proof (get_primary_covar_encoder_preserves g reps w2) as F3;
      pose proof (get_primary_covar_encoder_conversion g reps w2) as C3;
      destruct (_get_primary_covar_encoder g reps w2) as [w3 [enc|e]];
      [|exact I]
  end.
  simpl in F3. specialize (C3 w3 enc eq_refl).
  assert (Hpost : columns_replaced (the_adata w) (the_adata w3)).
  { exists col0, b. split; [exact Hget0|]. split; [exact Hb|]. split.
    - intros k Hk. destruct (C3 k Hk) as (col & Hget & Hget').
      rewrite E2 in Hget.
      destruct (String.eqb_spec k control_key) as [->|Hne].
      + exists col0. split; [exact Hget0|].
        rewrite Hget1 in Hget. injection Hget as <-. exact Hget'.
      + exists col. split; [|exact Hget'].
        now rewrite <- (Hrest1 k Hne).
    - intro Hnot.
      destruct F3 as (_ & _ & _ & _ & _ & _ & F3).
      rewrite F3, E2; auto. }
  clear Hget0 Hb Hget1 Hrest1 E2 F3 C3.
  wp_pure.
  apply wp_bind.
  match goal with
  | |- wp (if ?c then _ else _) _ _ _ => destruct c
  end; [wp_pure|]; apply wp_ret; do 4 wp_pure; apply wp_ret; exact Hpost.
Qed.

(** C6, as amended: the factory works on the caller's dataset itself.
    Whatever the outcome of the call, the feature matrix, [uns], the
    array annotations, the number of cells, the column labels and every
    metadata column other than the control column and the primary
    covariate columns are as before.  When the call returns, the
    control column has been replaced by its conversion to the nullable
    boolean dtype, and every primary covariate column by the conversion
    to float (or to category) of the column the dataset then held,
    which is the caller's column, or the converted control column if
    the control column is a primary covariate; so these columns have
    the boolean and the float or category dtype.  Without split
    covariates the validation factory leaves its helper column, true in
    every cell, in the caller's dataset. *)
Theorem load_from_adata_coerces_in_place (w : world) :
  frame (control_key :: primary_labels perturbation_covariates)
        (the_adata w) (the_adata (fst (load w)))
  /\ (forall c w', load w = (w', Ok c) ->
        columns_replaced (the_adata w) (the_adata w')
        /\ (forall k, In k (primary_labels perturbation_covariates) ->
                      is_coerced k (the_adata w'))
        /\ (~ In control_key (primary_labels perturbation_covariates) ->
            is_boolean control_key (the_adata w')))
  /\ (forall (CONTROL_HELPER : string) (validation_sample_rep : sample_rep_arg)
             (control_data : pyval)
             (validation_split_covariates : option (list string))
             (obs_perturbation_covariates : list pyval)
             (uns_perturbation_covariates : sdict pyval)
             (validation_max_combination_length : Z)
             (validation_null_value : option value) (null_token : num),
        validation_split_covariates = None
        \/ validation_split_covariates = Some [] ->
        exists col,
          sget (obs (the_adata (fst
                  (ValidationData.load_from_adata CONTROL_HELPER
                     validation_sample_rep control_data
                     validation_split_covariates obs_perturbation_covariates
                     uns_perturbation_covariates
                     validation_max_combination_length validation_null_value
                     null_token w)))) CONTROL_HELPER
          = Some col
          /\ col_values col = repeat (VBool true) (n_obs (the_adata w))).
Proof.
  split; [apply load_from_adata_preserves|]. split.
  - intros c w' Hrun. split.
    + exact (wp_elim _ _ _ _ _ _ (load_from_adata_replaces w) Hrun).
    + exact (wp_elim _ _ _ _ _ _
               (load_from_adata_coerces sample_rep control_key
                  perturbation_covariates perturbation_covariate_reps
                  sample_covariates sample_covariate_reps split_covariates
                  max_combination_length null_value w) Hrun).
  - intros. now apply validation_load_writes_helper.
Qed.
End InPlaceCoercion.

(** The amended statement on the call that refutes the claim: only the
    control and the dose column differ; the control column is the
    boolean conversion of the integers the caller stored, the dose
    column the float conversion of the numerals.  The validation
    factory, called on the worked dataset without split covariates,
    leaves the helper column behind. *)
Lemma load_from_adata_coerces_in_place_witness :
  frame ["control"; "dose"] example_adata_raw example_adata_after
  /\ (astype_boolean
        (mk_Column DInt
           [VNum 1%Z; VNum 1%Z; VNum 0%Z; VNum 0%Z; VNum 0%Z; VNum 0%Z])
      = Some (mk_Column DBoolean
                [VBool true; VBool true; VBool false; VBool false;
                 VBool false; VBool false])
      /\ sget (obs example_adata_after) "control"
         = Some (mk_Column DBoolean
                   [VBool true; VBool true; VBool false; VBool false;
                    VBool false; VBool false]))
  /\ (astype_float
        (mk_Column DObject
           [VNA; VNA; VStr "1"; VStr "2"; VStr "2"; VStr "3"])
      = Some (mk_Column DFloat
                [VNA; VNA; VNum 1%Z; VNum 2%Z; VNum 2%Z; VNum 3%Z])
      /\ sget (obs example_adata_after) "dose"
         = Some (mk_Column DFloat
                   [VNA; VNA; VNum 1%Z; VNum 2%Z; VNum 2%Z; VNum 3%Z]))
  /\ is_coerced "dose" example_adata_after
  /\ is_boolean "control" example_adata_after
  /\ exists col,
       sget (obs (the_adata (fst
               (@ValidationData.load_from_adata Z_Scalar "_helper" (SRStr "X")
                  (PTuple [PStr "control"; PBool true]) (Some [])
                  [PStr "dose"] [] 1%Z None 0%Z
                  (mk_world example_adata_raw []))))) "_helper"
       = Some col
       /\ col_values col = repeat (VBool true) 6.
Proof.
  pose proof (@load_from_adata_coerces_in_place Z_Scalar (SRStr "X")
                "control" [("drug", PList [PStr "dose"])] None None None None
                None 0%Z (mk_world example_adata_raw []))
    as (Hframe & Hpost & Hval).
  destruct (Hpost _ _ (proj1 load_from_adata_changes_caller_dataset))
    as ((col0 & b & Hget0 & Hb & Hprim & Hctrl) & Hc & Hbool).
  assert (Hnot : ~ In "control" (primary_labels [("drug", PList [PStr "dose"])]))
    by (intros [E|[]]; discriminate).
  injection Hget0 as <-. vm_compute in Hb. injection Hb as <-.
  destruct (Hprim "dose" (or_introl eq_refl)) as (col & Hget & Hget').
  injection Hget as <-.
  split; [exact Hframe|].
  split; [split; [reflexivity | exact (Hctrl Hnot)]|].
  split; [split; [reflexivity | exact Hget']|].
  split; [apply Hc; now left|].
  split; [exact (Hbool Hnot)|].
  exact (Hval "_helper" (SRStr "X") (PTuple [PStr "control"; PBool true])
           (Some []) [PStr "dose"] [] 1%Z None 0%Z (or_intror eq_refl)).
Defined.

(** ** The numbering of covariate groups *)

Section GroupNumbering.
Context {V : Type}.
Import PerturbationData.

Lemma map_fst_combine_eq {A B : Type} (l1 : list A) (l2 : list B) :
  List.length l1 = List.length l2 -> map fst (combine l1 l2) = l1.
Proof.
  revert l2. induction l1 as [|a l1 IH]; intros [|b l2] H; try discriminate;
    simpl; [reflexivity|].
  f_equal. apply IH. simpl in H. lia.
Qed.

Lemma map_snd_combine_eq {A B : Type} (l1 : list A) (l2 : list B) :
  List.length l1 = List.length l2 -> map snd (combine l1 l2) = l2.
Proof.
  revert l2. induction l1 as [|a l1 IH]; intros [|b l2] H; try discriminate;
    simpl; [reflexivity|].
  f_equal. apply IH. simpl in H. lia.
Qed.

Lemma nat_eqb_eq (a b : nat) : Nat.eqb a b = true <-> a = b.
Proof. apply Nat.eqb_eq. Qed.

(** X15: on a dictionary of covariate groups (distinct names)
    [_get_idx_to_covariate] numbers the groups from 0 in order, and the
    two dictionaries it returns are inverse to each other. *)
Theorem get_idx_to_covariate_round_trip (covariate_groups : sdict V) :
  NoDup (map fst covariate_groups) ->
  map fst (fst (_get_idx_to_covariate covariate_groups))
  = seq 0 (List.length covariate_groups)
  /\ map snd (fst (_get_idx_to_covariate covariate_groups))
     = map fst covariate_groups
  /\ map fst (snd (_get_idx_to_covariate covariate_groups))
     = map fst covariate_groups
  /\ forall (idx : nat) (cov_group : string),
       dict_get Nat.eqb (fst (_get_idx_to_covariate covariate_groups)) idx
       = Some cov_group
       <-> sget (snd (_get_idx_to_covariate covariate_groups)) cov_group
           = Some idx.
Proof.
  intro Hnd. unfold _get_idx_to_covariate. cbn [fst snd].
  set (names := map fst covariate_groups) in *.
  set (idxs := seq 0 (List.length covariate_groups)).
  assert (Hlen : List.length idxs = List.length names)
    by (unfold idxs, names; now rewrite length_seq, length_map).
  assert (Hkeys : map fst (map (fun kv : nat * string => (snd kv, fst kv))
                               (combine idxs names)) = names).
  { rewrite map_map. cbn [fst]. now apply map_snd_combine_eq. }
  rewrite (dict_of_items_nodup String.eqb string_eqb_eq)
    by (rewrite Hkeys; exact Hnd).
  rewrite map_fst_combine_eq, map_snd_combine_eq, Hkeys by assumption.
  repeat split; auto.
  - intro H. apply (dict_get_in Nat.eqb nat_eqb_eq) in H.
    apply (in_dict_get String.eqb string_eqb_eq); [now rewrite Hkeys|].
    apply in_map_iff. now exists (idx, cov_group).
  - intro H. apply (dict_get_in String.eqb string_eqb_eq) in H.
    apply in_map_iff in H as ([i c] & [= <- <-] & Hin).
    apply (in_dict_get Nat.eqb nat_eqb_eq); [|exact Hin].
    rewrite map_fst_combine_eq by assumption. apply seq_NoDup.
Qed.
End GroupNumbering.

Lemma get_idx_to_covariate_round_trip_witness :
  NoDup (map fst [("drug", tt); ("dose", tt)])
  /\ PerturbationData._get_idx_to_covariate [("drug", tt); ("dose", tt)]
     = ([(0, "drug"); (1, "dose")], [("drug", 0); ("dose", 1)])
  /\ forall (idx : nat) (cov_group : string),
       dict_get Nat.eqb
         (fst (PerturbationData._get_idx_to_covariate
                 [("drug", tt); ("dose", tt)])) idx
       = Some cov_group
       <-> sget (snd (PerturbationData._get_idx_to_covariate
                        [("drug", tt); ("dose", tt)])) cov_group
           = Some idx.
Proof.
  assert (Hnd : NoDup (map fst [("drug", tt); ("dose", tt)])).
  { constructor; [|constructor; [|constructor]]; simpl; intuition discriminate. }
  split; [exact Hnd|]. split; [reflexivity|].
  exact (proj2 (proj2 (proj2
    (get_idx_to_covariate_round_trip [("drug", tt); ("dose", tt)] Hnd)))).
Defined.

(** ** Metric callbacks and loggers *)

Section ComputeMetricsProperties.
Import ComputeMetrics.

(** X16: [ComputeMetrics.__init__] returns exactly when every
    requested metric is a key of [metric_to_func], and raises
    [ValueError] otherwise; the callback it builds aggregates with the
    median exactly when [metric_aggregation] is the string ["median"],
    so a list of aggregation names selects the mean. *)
Theorem compute_metrics_init (metrics : list string)
    (metric_aggregation : pyval) :
  __init__ metrics metric_aggregation
  = (if forallb (fun m => existsb (String.eqb m) metric_to_func) metrics
     then Ok (mk metrics metric_aggregation
                 (if is_median metric_aggregation then np_median else np_mean))
     else Raise (ValueError "Metric not supported."))
  /\ forall self, __init__ metrics metric_aggregation = Ok self ->
       (_aggregation_func self = np_median
        <-> metric_aggregation = PStr "median").
Proof.
  assert (H : __init__ metrics metric_aggregation
    = (if forallb (fun m => existsb (String.eqb m) metric_to_func) metrics
       then Ok (mk metrics metric_aggregation
                   (if is_median metric_aggregation then np_median else np_mean))
       else Raise (ValueError "Metric not supported."))).
  { unfold __init__.
    generalize (mk metrics metric_aggregation
                   (if is_median metric_aggregation then np_median else np_mean)).
    intro self. generalize tt.
    induction metrics as [|m metrics IH]; intros []; [reflexivity|].
    cbn [for_each forallb].
    destruct (existsb (String.eqb m) metric_to_func); cbn [negb andb bind];
      [apply IH | reflexivity]. }
  split; [exact H|].
  intros self Hself. rewrite H in Hself.
  destruct (forallb _ metrics); [|discriminate].
  injection Hself as <-. cbn [_aggregation_func].
  destruct metric_aggregation as [| b | z | s | l | l | items];
    cbn [is_median]; try (split; discriminate).
  destruct (String.eqb_spec s "median") as [->|Hne].
  - split; reflexivity.
  - split; [discriminate|]. intros [= ->]. contradiction.
Qed.

(** X17: [ComputeMetrics.on_train_end] passes two arguments to
    [on_log_iteration], which requires three: whatever the metric
    computation would do, the call raises [TypeError]. *)
Theorem compute_metrics_on_train_end_raises {SC : Scalar} {Obj : Type}
    (on_log_iteration_body : t -> Obj -> Obj -> Obj -> result (sdict num))
    (self : t) (validation_data predicted_data training_data : Obj) :
  on_train_end on_log_iteration_body self validation_data predicted_data
               training_data
  = Raise (TypeError "missing required positional argument")
  /\ forall a b c,
       on_log_iteration on_log_iteration_body self [a; b; c]
       = on_log_iteration_body self a b c.
Proof. split; reflexivity. Qed.
End ComputeMetricsProperties.

Section LoggerProperties.
Context {SC : Scalar} {RNG : Rng} {W TrainData PredData : Type}.
Import Callbacks.

(** Every hook of [WandbLogger] raises [NameError] before it reaches
    the [wandb] package, and leaves the sinks untouched. *)
Lemma wandb_logger_hooks_raise
    (wandb_session : W -> W * result unit)
    (wandb_log : sdict num -> W -> W * result unit)
    (self : WandbLogger.t) (dict_to_log : sdict num) (w : W) :
  WandbLogger.on_train_begin wandb_session self w
  = (w, Raise (NameError (if WandbLogger.config_is_dict self
                          then "omegaconf" else "wandb")))
  /\ WandbLogger.on_log_iteration wandb_log self dict_to_log w
     = (w, Raise (NameError "wandb"))
  /\ WandbLogger.on_train_end wandb_log self dict_to_log w
     = (w, Raise (NameError "wandb")).
Proof.
  unfold WandbLogger.on_train_begin.
  destruct (WandbLogger.config_is_dict self); repeat split; reflexivity.
Qed.

Lemma hook_fold_raises {C : Type} (hook : C -> W -> W * result unit) (c : C)
    (l : list C) :
  (forall w, exists w' e, hook c w = (w', Raise e)) ->
  forall start : W * result unit,
    (exists e, snd start = Raise e) \/ In c l ->
    exists e,
      snd (fold_left
             (fun '(w, acc) callback =>
                match acc with
                | Raise e => (w, Raise e)
                | Ok _ => hook callback w
                end) l start) = Raise e.
Proof.
  intro Hc. induction l as [|x l IH]; intros [w acc] H.
  - destruct H as [H|[]]. exact H.
  - cbn [fold_left]. apply IH.
    destruct acc as [u|e]; [|left; now exists e].
    destruct H as [[e H]|[->|H]]; [discriminate| |now right].
    left. destruct (Hc w) as (w' & e & ->). now exists e.
Qed.

Lemma failing_logger_blocks
    (self : @CallbackRunner SC RNG W TrainData PredData)
    (c : LoggingCallback) :
  In c (logging_callbacks self) ->
  (forall d w, exists w' e, log_on_log_iteration c d w = (w', Raise e)) ->
  forall (train_data : TrainData) (pred_data : PredData) (w : W),
    exists e, snd (on_log_iteration self train_data pred_data w) = Raise e.
Proof.
  intros Hin Hc train_data pred_data w.
  unfold on_log_iteration.
  destruct (_sample_validation_data self "on_log_iteration") as [g [vd|e]];
    [|now exists e].
  destruct (run_computation _ vd pred_data train_data w) as [w1 [d|e]];
    [|now exists e].
  destruct (hook_fold_raises (fun cb => log_on_log_iteration cb d) c
              (logging_callbacks (set_rng self g))
              (Hc d) (w1, Ok tt) (or_intror Hin)) as [e He].
  unfold run_logging.
  destruct (fold_left _ (logging_callbacks (set_rng self g)) (w1, Ok tt))
    as [w2 [u|e']]; [discriminate|].
  now exists e'.
Qed.

(** X19: a logging callback whose [on_log_iteration] hook always
    raises makes the runner's [on_log_iteration] and [on_train_end]
    raise on every call: no dictionary is ever returned. *)
Theorem runner_with_failing_logger
    (self : @CallbackRunner SC RNG W TrainData PredData)
    (c : LoggingCallback) :
  In c (logging_callbacks self) ->
  (forall d w, exists w' e, log_on_log_iteration c d w = (w', Raise e)) ->
  forall (train_data : TrainData) (pred_data : PredData) (w : W),
    (exists e, snd (on_log_iteration self train_data pred_data w) = Raise e)
    /\ (exists e, snd (on_train_end self train_data pred_data w) = Raise e).
Proof.
  intros Hin Hc train_data pred_data w.
  split; exact (failing_logger_blocks self c Hin Hc train_data pred_data w).
Qed.

(** X18: a runner that holds a [WandbLogger] among its logging
    callbacks cannot be used: [on_train_begin], [on_log_iteration] and
    [on_train_end] raise on every call, whatever the [wandb] package
    would do. *)
Theorem wandb_logger_blocks_runner
    (wandb_session : W -> W * result unit)
    (wandb_log : sdict num -> W -> W * result unit)
    (logger : WandbLogger.t)
    (self : @CallbackRunner SC RNG W TrainData PredData) :
  In (WandbLogger.as_logging_callback wandb_session wandb_log logger)
     (logging_callbacks self) ->
  forall (train_data : TrainData) (pred_data : PredData) (w : W),
    (exists e, snd (on_train_begin self w) = Raise e)
    /\ (exists e, snd (on_log_iteration self train_data pred_data w) = Raise e)
    /\ (exists e, snd (on_train_end self train_data pred_data w) = Raise e).
Proof.
  intros Hin train_data pred_data w.
  assert (H : exists e,
             snd (on_log_iteration self train_data pred_data w) = Raise e).
  { apply (failing_logger_blocks self _ Hin).
    intros d w0. exists w0, (NameError "wandb").
    apply (wandb_logger_hooks_raise wandb_session wandb_log logger d w0). }
  split; [|split; exact H].
  unfold on_train_begin.
  apply (hook_fold_raises log_on_train_begin
           (WandbLogger.as_logging_callback wandb_session wandb_log logger)).
  - intro w0. eexists w0, _.
    apply (wandb_logger_hooks_raise wandb_session wandb_log logger [] w0).
  - now right.
Qed.

Lemma in_sset {V : Type} (d : sdict V) (k k' : string) (v v' : V) :
  In (k, v) (sset d k' v') -> (k = k' /\ v = v') \/ In (k, v) d.
Proof.
  unfold sset. induction d as [|[k0 v0] d IH]; simpl.
  - intros [[= <- <-]|[]]. auto.
  - destruct (String.eqb_spec k0 k') as [->|Hne]; simpl.
    + intros [[= <- <-]|H]; auto.
    + intros [H|H]; auto. destruct (IH H); auto.
Qed.



(** X21: when every validation dataset of the runner asks for all of
    its conditions ([n_conditions_on_log_iteration] is [-1]), sampling
    for a log iteration returns every dataset whole under its name and
    does not touch the generator; a stage other than the two known
    ones raises [ValueError], again without a draw. *)
Theorem sample_validation_data_whole
    (self : @CallbackRunner SC RNG W TrainData PredData) :
  ((forall name vd, In (name, vd) (validation_data self) ->
       ValidationData.getattr_int vd "n_conditions_on_log_iteration"
       = Ok (-1)%Z) ->
   _sample_validation_data self "on_log_iteration"
   = (rng self,
      Ok (dict_of_items String.eqb
            (map (fun kv => (fst kv, Whole (snd kv))) (validation_data self)))))
  /\ (forall stage, stage <> "on_train_end" -> stage <> "on_log_iteration" ->
        _sample_validation_data self stage
        = (rng self, Raise (ValueError "Stage not supported."))).
Proof.
  split.
  - intro Hall. unfold _sample_validation_data. cbn [String.eqb Ascii.eqb Bool.eqb].
    unfold dict_of_items, dict_union.
    generalize (@nil (string * sampled)). revert Hall.
    induction (validation_data self) as [|[name vd] l IH]; intros Hall acc;
      [reflexivity|].
    cbn [fold_left map fst snd].
    rewrite (Hall name vd) by now left.
    cbn [Z.eqb Pos.eqb]. apply IH.
    intros name' vd' Hin. apply (Hall name'). now right.
  - intros stage H1 H2. unfold _sample_validation_data.
    destruct (String.eqb_spec stage "on_train_end"); [contradiction|].
    destruct (String.eqb_spec stage "on_log_iteration"); [contradiction|].
    reflexivity.
Qed.

Lemma computation_fold_raised (vd : sdict sampled) (pred_data : PredData)
    (train_data : TrainData) (l : list ComputationCallback) (w : W) (e : exn) :
  fold_left
    (fun '(w, acc) callback =>
       match acc with
       | Raise e => (w, Raise e)
       | Ok dict_to_log =>
           match comp_on_log_iteration callback vd pred_data train_data w with
           | (w', Raise e) => (w', Raise e)
           | (w', Ok results) =>
               (w', Ok (dict_union String.eqb dict_to_log results))
           end
       end) l (w, Raise e)
  = (w, Raise e).
Proof. induction l as [|x l IH]; [reflexivity | exact IH]. Qed.

(** X22: the first computation callback that raises ends
    [on_log_iteration]: the exception is the runner's, and the sinks are
    left as that callback left them, so that neither a later
    computation callback nor any logging callback has run. *)
Theorem computation_failure_stops
    (self : @CallbackRunner SC RNG W TrainData PredData)
    (pre post : list ComputationCallback) (c : ComputationCallback)
    (g : rng_state) (vd : sdict sampled)
    (train_data : TrainData) (pred_data : PredData)
    (w w1 w2 : W) (d1 : metrics) (e : exn) :
  computation_callbacks self = pre ++ c :: post ->
  _sample_validation_data self "on_log_iteration" = (g, Ok vd) ->
  run_computation
    (mk_CallbackRunner (validation_data self) pre (logging_callbacks self) g)
    vd pred_data train_data w = (w1, Ok d1) ->
  comp_on_log_iteration c vd pred_data train_data w1 = (w2, Raise e) ->
  on_log_iteration self train_data pred_data w = (set_rng self g, w2, Raise e).
Proof.
  intros Hcbs Hsample Hpre Hc.
  unfold on_log_iteration. rewrite Hsample.
  unfold run_computation in *. cbn [computation_callbacks set_rng] in *.
  rewrite Hcbs, fold_left_app.
  match type of Hpre with ?a = _ =>
    match goal with |- context [fold_left _ (c :: post) ?b] =>
      change b with a end end.
  rewrite Hpre. cbn [fold_left]. rewrite Hc.
  now rewrite computation_fold_raised.
Qed.
End LoggerProperties.

(** A generator that draws the first indices. *)
#[export] Instance first_indices : Rng := {|
  rng_state := unit;
  default_rng := fun _ => tt;
  rng_choice := fun g _ size => (g, Ok (seq 0 (Z.to_nat size)))
|}.

(** A runner whose only callback is a [WandbLogger]. *)
Definition wandb_runner
  : @Callbacks.CallbackRunner Z_Scalar first_indices unit unit unit :=
  Callbacks.mk_CallbackRunner []
    []
    [WandbLogger.as_logging_callback (fun w => (w, Ok tt))
       (fun _ w => (w, Ok tt)) (WandbLogger.mk "project" "out" true)]
    tt.


Lemma wandb_logger_blocks_runner_witness :
  In (WandbLogger.as_logging_callback (fun w => (w, Ok tt))
        (fun _ w => (w, Ok tt)) (WandbLogger.mk "project" "out" true))
     (Callbacks.logging_callbacks wandb_runner)
  /\ (exists e, snd (Callbacks.on_train_begin wandb_runner tt) = Raise e)
  /\ (exists e, snd (Callbacks.on_log_iteration wandb_runner tt tt tt) = Raise e)
  /\ (exists e, snd (Callbacks.on_train_end wandb_runner tt tt tt) = Raise e).
Proof.
  split; [now left|].
  apply (wandb_logger_blocks_runner (fun w => (w, Ok tt))
           (fun _ w => (w, Ok tt)) (WandbLogger.mk "project" "out" true)
           wandb_runner).
  now left.
Defined.

(** A computation callback that always raises. *)
Definition failing_metric
  : @Callbacks.ComputationCallback Z_Scalar (list (sdict Z)) unit unit :=
  let hook :=
    fun (_ : sdict Callbacks.sampled) (_ _ : unit) (w : list (sdict Z)) =>
      (w, Raise (ValueError "metric failed")) in
  Callbacks.mk_ComputationCallback (fun w => (w, Ok tt)) hook hook.

(** The failing callback between two working ones, and a logger. *)
Definition failing_runner
  : @Callbacks.CallbackRunner Z_Scalar first_indices (list (sdict Z)) unit unit :=
  Callbacks.mk_CallbackRunner
    [("val", whole_then_none)] [count_whole; failing_metric; count_whole]
    [list_logger] tt.

Lemma computation_failure_stops_witness :
  Callbacks.on_log_iteration failing_runner tt tt []
  = (Callbacks.set_rng failing_runner tt, [], Raise (ValueError "metric failed")).
Proof.
  apply (@computation_failure_stops Z_Scalar first_indices (list (sdict Z))
           unit unit failing_runner [count_whole] [count_whole] failing_metric
           tt [("val", Callbacks.Whole whole_then_none)] tt tt
           [] [] [] [("n_whole", 1%Z)] (ValueError "metric failed"));
    reflexivity.
Defined.

Lemma runner_with_failing_logger_witness :
  In (WandbLogger.as_logging_callback (fun w => (w, Ok tt))
        (fun _ w => (w, Ok tt)) (WandbLogger.mk "project" "out" true))
     (Callbacks.logging_callbacks wandb_runner)
  /\ (exists e, snd (Callbacks.on_log_iteration wandb_runner tt tt tt) = Raise e)
  /\ (exists e, snd (Callbacks.on_train_end wandb_runner tt tt tt) = Raise e).
Proof.
  split; [now left|].
  apply (runner_with_failing_logger wandb_runner
           (WandbLogger.as_logging_callback (fun w => (w, Ok tt))
              (fun _ w => (w, Ok tt)) (WandbLogger.mk "project" "out" true))).
  - now left.
  - intros d w. exists w, (NameError "wandb"). reflexivity.
Defined.

(** ** The embedding of one condition *)

(** A rank-2 array with at least [L] rows. *)
Definition padded {SC : Scalar} (L : Z) (a : ndarray) : Prop :=
  exists R F, shape a = [R; F] /\ (L <= Z.of_nat R)%Z.

Section ConditionEmbedding.
Context {SC : Scalar}.
Import PerturbationData.

Lemma bind_ok {A B : Type} (c : result A) (k : A -> result B) (r : B) :
  bind c k = Ok r -> exists a, c = Ok a /\ k a = Ok r.
Proof. destruct c as [a|e]; [|discriminate]. intro H. now exists a. Qed.

Lemma for_each_inv {A S : Type} (I : S -> Prop) (body : S -> A -> result S)
    (l : list A) :
  forall s s', for_each body l s = Ok s' ->
    (forall s0 x s1, In x l -> I s0 -> body s0 x = Ok s1 -> I s1) ->
    I s -> I s'.
Proof.
  induction l as [|x l IH]; intros s s' Hrun Hstep H0; simpl in Hrun.
  - now injection Hrun as <-.
  - apply bind_ok in Hrun as (s1 & Hx & Hrun).
    apply (IH s1 s' Hrun).
    + intros s0 y s2 Hy. apply Hstep. now right.
    + apply (Hstep s x s1); auto. now left.
Qed.

Lemma for_each_ok_in {A S : Type} (body : S -> A -> result S) (l : list A) :
  forall s s', for_each body l s = Ok s' ->
    forall x, In x l -> exists s0 s1, body s0 x = Ok s1.
Proof.
  induction l as [|y l IH]; intros s s' Hrun x Hx; [destruct Hx|].
  simpl in Hrun. apply bind_ok in Hrun as (s1 & Hy & Hrun).
  destruct Hx as [->|Hx]; [now exists s, s1|].
  eapply IH; eauto.
Qed.

Lemma in_keys_sset {V : Type} (d : sdict V) (k k' : string) (v : V) :
  In k (map fst (sset d k' v)) <-> In k (map fst d) \/ k = k'.
Proof.
  unfold sset. rewrite (dict_set_keys String.eqb).
  unfold dict_mem.
  destruct (dict_get String.eqb d k') as [v0|] eqn:E.
  - split; [auto|]. intros [H| ->]; [assumption|].
    apply (dict_get_in String.eqb string_eqb_eq) in E.
    apply in_map_iff. now exists (k', v0).
  - rewrite in_app_iff. simpl. intuition.
Qed.

Lemma in_keys_dict_union {V : Type} (a b : sdict V) (k : string) :
  In k (map fst (dict_union String.eqb a b))
  <-> In k (map fst a) \/ In k (map fst b).
Proof.
  unfold dict_union. revert a.
  induction b as [|[k' v'] b IH]; intro a; simpl; [tauto|].
  rewrite IH. fold (sset a k' v'). rewrite in_keys_sset. intuition.
Qed.

Lemma in_dict_union {V : Type} (a b : sdict V) (k : string) (v : V) :
  In (k, v) (dict_union String.eqb a b) -> In (k, v) a \/ In (k, v) b.
Proof.
  unfold dict_union. revert a.
  induction b as [|[k' v'] b IH]; intro a; simpl; [auto|].
  intro H. apply IH in H as [H|H]; [|auto].
  apply in_sset in H as [[-> ->]|H]; auto.
Qed.

(** The keys a loop sets are the keys of its result. *)
Lemma for_each_sset_keys {A V : Type} (f : A -> string)
    (body : sdict V -> A -> result (sdict V)) (l : list A) :
  (forall s x s', body s x = Ok s' -> exists v, s' = sset s (f x) v) ->
  forall acc r, for_each body l acc = Ok r ->
    forall k, In k (map fst r) <-> In k (map fst acc) \/ In k (map f l).
Proof.
  intro Hbody. induction l as [|x l IH]; intros acc r Hrun k; simpl in Hrun.
  - injection Hrun as <-. simpl. tauto.
  - apply bind_ok in Hrun as (s1 & Hx & Hrun).
    rewrite (IH _ _ Hrun).
    destruct (Hbody _ _ _ Hx) as [v ->].
    rewrite in_keys_sset. simpl. intuition.
Qed.

Lemma check_shape_out (arr : array_like) (out : ndarray) :
  _check_shape arr = Ok out -> exists F, shape out = [1; F].
Proof.
  destruct arr as [x|a]; simpl.
  - intros [= <-]. now exists 1.
  - destruct (shape a) as [|r [|c [|e sh]]] eqn:Hs.
    + intros [= <-]. now exists 1.
    + intros [= <-]. exists r. simpl. now rewrite Hs.
    + destruct (Nat.eqb_spec r 1) as [->|_].
      * intros [= <-]. now exists c.
      * destruct (Nat.eqb_spec c 1) as [->|_]; [|discriminate].
        intros [= <-]. now exists r.
    + discriminate.
Qed.

Lemma concat_rows_shape (a b o : ndarray) :
  concat_rows a b = Ok o ->
  exists ra rb c, shape a = [ra; c] /\ shape b = [rb; c]
                  /\ shape o = [ra + rb; c].
Proof.
  unfold concat_rows.
  destruct (shape a) as [|ra [|ca [|? ?]]]; try discriminate.
  destruct (shape b) as [|rb [|cb [|? ?]]]; try discriminate.
  destruct (Nat.eqb_spec ca cb) as [->|_]; [|discriminate].
  intros [= <-]. now exists ra, rb, cb.
Qed.

Lemma jnp_concatenate_shape (a : ndarray) (rest : list ndarray) (o : ndarray)
    (r c : nat) :
  jnp_concatenate (a :: rest) = Ok o -> shape a = [r; c] ->
  exists r', shape o = [r'; c].
Proof.
  unfold jnp_concatenate. revert a r.
  induction rest as [|b rest IH]; intros a r Hrun Ha; simpl in Hrun.
  - injection Hrun as <-. now exists r.
  - apply bind_ok in Hrun as (a1 & Hab & Hrun).
    apply concat_rows_shape in Hab as (ra & rb & c' & Ha' & _ & Ho).
    rewrite Ha in Ha'. injection Ha' as <- <-.
    eapply IH; eauto.
Qed.

Lemma pad_to_max_length_shape (arr o : ndarray) (L : Z) (v : num) (r c : nat) :
  _pad_to_max_length arr L v = Ok o -> shape arr = [r; c] ->
  exists r', shape o = [r'; c] /\ (L <= Z.of_nat r')%Z.
Proof.
  unfold _pad_to_max_length. intros Hrun Hs. rewrite Hs in Hrun.
  destruct (Z.ltb_spec (Z.of_nat r) L) as [Hlt|Hge].
  - apply concat_rows_shape in Hrun as (ra & rb & c' & Ha & Hb & Ho).
    rewrite Hs in Ha. injection Ha as <- <-.
    simpl in Hb. injection Hb as <-.
    exists (r + Z.to_nat (L - Z.of_nat r)). split; [exact Ho | lia].
  - injection Hrun as <-. exists r. split; [exact Hs | lia].
Qed.

Lemma jnp_tile_rows_shape (a o : ndarray) (L : Z) (c : nat) :
  jnp_tile_rows a L = Ok o -> shape a = [1; c] -> padded L o.
Proof.
  unfold jnp_tile_rows. intros Hrun Hs. rewrite Hs in Hrun.
  destruct (Z.ltb_spec L 0) as [|Hge]; [discriminate|].
  injection Hrun as <-. exists (Z.to_nat L * 1), c. split; [reflexivity|lia].
Qed.

(** The lists of arrays collected per group hold one-row arrays only,
    under the keys [K]. *)
Definition rows_collected (K : list string) (d : sdict (list ndarray)) : Prop :=
  map fst d = K
  /\ forall k l a, In (k, l) d -> In a l -> exists F, shape a = [1; F].

Lemma dict_append_collected (K : list string) (d d' : sdict (list ndarray))
    (k : string) (x : ndarray) :
  dict_append d k x = Ok d' -> rows_collected K d ->
  (exists F, shape x = [1; F]) -> rows_collected K d'.
Proof.
  unfold dict_append. destruct (sget d k) as [l|] eqn:Hget; [|discriminate].
  intros [= <-] [Hkeys Hrows] Hx. split.
  - rewrite <- Hkeys. eapply labels_sset_present; eauto.
  - intros k0 l0 a Hin Ha.
    apply in_sset in Hin as [[-> ->]|Hin]; [|eauto].
    apply in_app_or in Ha as [Ha|[<-|[]]]; [|exact Hx].
    apply (dict_get_in String.eqb string_eqb_eq) in Hget. eauto.
Qed.

(** What a returning call of [_get_perturbation_covariates]
    presupposes and delivers. *)
Lemma get_perturbation_covariates_facts
    (condition_data : sdict value) (rep_dict : sdict uns_entry)
    (perturb_covariates : groups) (sample_covariates : list string)
    (covariate_reps : sdict string)
    (primary_to_linked : list (option string * sdict (option string)))
    (primary_encoder : encoder_result OneHotEncoder)
    (max_combination_length : Z) (null_value : num)
    (embedding : sdict ndarray) :
  _get_perturbation_covariates condition_data rep_dict perturb_covariates
    sample_covariates covariate_reps primary_to_linked primary_encoder
    max_combination_length null_value = Ok embedding ->
  (exists enc is_cat, primary_encoder = RPair enc is_cat)
  /\ (forall s, In s sample_covariates -> smem covariate_reps s = false)
  /\ (forall k, In k (map fst embedding)
                <-> In k (map fst perturb_covariates)
                    \/ In k sample_covariates)
  /\ (forall k a, In (k, a) embedding -> padded max_combination_length a).
Proof.
  intro H. unfold _get_perturbation_covariates in H.
  destruct perturb_covariates as [|[pg pcs] g']; [discriminate|].
  destruct primary_encoder as [|enc0|enc0 cat]; try discriminate.
  cbn [bind] in H.
  apply bind_ok in H as (emb1 & H1 & H).
  apply bind_ok in H as (emb2 & H2 & H).
  apply bind_ok in H as (semb & H3 & H).
  injection H as <-.
  set (g := (pg, pcs) :: g') in *.
  set (emb0 := dict_of_items String.eqb
                 (map (fun kv : string * list (option string) =>
                         (fst kv, @nil ndarray)) g)) in *.
  (* the lists collected by the first loop *)
  assert (Hemb0 : rows_collected (map fst emb0) emb0).
  { split; [reflexivity|]. intros k l a Hin Ha.
    unfold emb0, dict_of_items in Hin.
    apply in_dict_union in Hin as [[]|Hin].
    apply in_map_iff in Hin as (kv & [= _ <-] & _). destruct Ha. }
  assert (Hemb1 : rows_collected (map fst emb0) emb1).
  { refine (for_each_inv _ _ _ _ _ H1 _ Hemb0).
    intros s0 primary_cov s1 _ HI Hb.
    apply bind_ok in Hb as (value & _ & Hb).
    apply bind_ok in Hb as (arr1 & _ & Hb).
    apply bind_ok in Hb as (arr2 & _ & Hb).
    apply bind_ok in Hb as (arr3 & Hshape & Hb).
    apply bind_ok in Hb as (s2 & Happ & Hb).
    apply bind_ok in Hb as (linked & _ & Hb).
    apply check_shape_out in Hshape.
    pose proof (dict_append_collected _ _ _ _ _ Happ HI Hshape) as HI2.
    refine (for_each_inv _ _ _ _ _ Hb _ HI2).
    intros s3 [linked_group linked_cov] s4 _ HI3 Hl.
    destruct linked_cov as [lc|].
    - apply bind_ok in Hl as (cov_name & _ & Hl).
      apply bind_ok in Hl as (arr4 & _ & Hl).
      apply bind_ok in Hl as (arr5 & Hshape5 & Hl).
      apply check_shape_out in Hshape5.
      exact (dict_append_collected _ _ _ _ _ Hl HI3 Hshape5).
    - apply bind_ok in Hl as (arr5 & Hshape5 & Hl).
      apply check_shape_out in Hshape5.
      exact (dict_append_collected _ _ _ _ _ Hl HI3 Hshape5). }
  destruct Hemb1 as [Hkeys1 Hrows1].
  refine (conj _ (conj _ (conj _ _))).
  - now exists enc0, cat.
  - intros s Hs.
    destruct (for_each_ok_in _ _ _ _ H3 s Hs) as (s0 & s1 & Hb).
    cbv beta in Hb.
    destruct (smem covariate_reps s); [|reflexivity]. exfalso.
    apply bind_ok in Hb as (cov_arr & Hb & _).
    destruct (sget rep_dict s); [|discriminate].
    apply bind_ok in Hb as (v & _ & Hb). discriminate.
  - assert (Hk2 : forall k, In k (map fst emb2)
                            <-> In k (map fst (@nil (string * ndarray)))
                                \/ In k (map fst emb1)).
    { refine (for_each_sset_keys fst _ _ _ _ _ H2).
      intros s0 [k0 v] s1 Hb.
      apply bind_ok in Hb as (arr & _ & Hb).
      apply bind_ok in Hb as (arr' & _ & Hb).
      injection Hb as <-. now eexists. }
    assert (Hk3 : forall k, In k (map fst semb)
                            <-> In k (map fst (@nil (string * ndarray)))
                                \/ In k (map (fun x => x) sample_covariates)).
    { refine (for_each_sset_keys (fun x => x) _ _ _ _ _ H3).
      intros s0 x s1 Hb.
      apply bind_ok in Hb as (arr & _ & Hb).
      apply bind_ok in Hb as (arr' & _ & Hb).
      apply bind_ok in Hb as (tiled & _ & Hb).
      injection Hb as <-. now eexists. }
    intro k. rewrite in_keys_dict_union, Hk2, Hk3, Hkeys1.
    unfold emb0, dict_of_items.
    rewrite in_keys_dict_union, !map_map, map_id. cbn [fst map In].
    change (map (fun x : string * list (option string) => fst x) g)
      with (map fst g).
    tauto.
  - intros k a Hin. apply in_dict_union in Hin as [Hin|Hin].
    + revert k a Hin.
      refine (for_each_inv
                (fun acc : sdict ndarray =>
                   forall k a, In (k, a) acc -> padded max_combination_length a)
                _ _ _ _ H2 _ (fun _ _ (F : False) => match F with end)).
      intros s0 [k0 v] s1 Hx HI Hb k a Hin.
      apply bind_ok in Hb as (arr & Hcat & Hb).
      apply bind_ok in Hb as (arr' & Hpad & Hb).
      injection Hb as <-.
      apply in_sset in Hin as [[-> ->]|Hin]; [|eauto].
      destruct v as [|a0 rest]; [discriminate|].
      destruct (Hrows1 k0 (a0 :: rest) a0 Hx (or_introl eq_refl)) as [F HF].
      destruct (jnp_concatenate_shape _ _ _ _ _ Hcat HF) as [r' Hr'].
      destruct (pad_to_max_length_shape _ _ _ _ _ _ Hpad Hr') as (R & HR & HL).
      now exists R, F.
    + revert k a Hin.
      refine (for_each_inv
                (fun acc : sdict ndarray =>
                   forall k a, In (k, a) acc -> padded max_combination_length a)
                _ _ _ _ H3 _ (fun _ _ (F : False) => match F with end)).
      intros s0 sample_cov s1 _ HI Hb k a Hin.
      apply bind_ok in Hb as (arr & _ & Hb).
      apply bind_ok in Hb as (arr' & Hshape & Hb).
      apply bind_ok in Hb as (tiled & Htile & Hb).
      injection Hb as <-.
      apply in_sset in Hin as [[-> ->]|Hin]; [|eauto].
      apply check_shape_out in Hshape as [F HF].
      eapply jnp_tile_rows_shape; eauto.
Qed.

(** X23: what a returning call of [_get_perturbation_covariates]
    presupposes and delivers.  The encoder argument is a pair (the
    bare encoder of the categorical case and the [None] of the
    representation case cannot be unpacked), no sample covariate has an
    entry in [covariate_reps], the keys of the result are the group
    names and the sample covariates, and every embedding is a rank-2
    array with at least [max_combination_length] rows. *)
Theorem get_perturbation_covariates_result
    (condition_data : sdict value) (rep_dict : sdict uns_entry)
    (perturb_covariates : groups) (sample_covariates : list string)
    (covariate_reps : sdict string)
    (primary_to_linked : list (option string * sdict (option string)))
    (primary_encoder : encoder_result OneHotEncoder)
    (max_combination_length : Z) (null_value : num)
    (embedding : sdict ndarray) :
  _get_perturbation_covariates condition_data rep_dict perturb_covariates
    sample_covariates covariate_reps primary_to_linked primary_encoder
    max_combination_length null_value = Ok embedding ->
  (exists enc is_cat, primary_encoder = RPair enc is_cat)
  /\ (forall s, In s sample_covariates -> smem covariate_reps s = false)
  /\ (forall k, In k (map fst embedding)
                <-> In k (map fst perturb_covariates)
                    \/ In k sample_covariates)
  /\ (forall k a, In (k, a) embedding -> padded max_combination_length a).
Proof. apply get_perturbation_covariates_facts. Qed.
End ConditionEmbedding.

(** One drug given by its dose and one sample covariate, padded to two
    rows. *)
Lemma get_perturbation_covariates_result_witness :
  PerturbationData._get_perturbation_covariates
    [("dose", VNum 2%Z); ("age", VNum 30%Z)] [] [("drug", [Some "dose"])]
    ["age"] [] [(Some "dose", [])]
    (RPair (PerturbationData.mk_OneHotEncoder ["dose"]) false) 2%Z 0%Z
  = Ok [("drug", mk_ndarray [2; 1] [2; 0]%Z);
        ("age", mk_ndarray [2; 1] [30; 30]%Z)]
  /\ (exists enc is_cat,
         RPair (PerturbationData.mk_OneHotEncoder ["dose"]) false
         = RPair enc is_cat)
  /\ (forall s, In s ["age"] -> smem (@nil (string * string)) s = false)
  /\ (forall k, In k (map fst [("drug", mk_ndarray [2; 1] [2; 0]%Z);
                               ("age", mk_ndarray [2; 1] [30; 30]%Z)])
                <-> In k (map fst [("drug", [Some "dose"])]) \/ In k ["age"])
  /\ (forall k a, In (k, a) [("drug", mk_ndarray [2; 1] [2; 0]%Z);
                             ("age", mk_ndarray [2; 1] [30; 30]%Z)] ->
                  padded 2%Z a).
Proof.
  split; [reflexivity|].
  exact (@get_perturbation_covariates_result Z_Scalar
           [("dose", VNum 2%Z); ("age", VNum 30%Z)] [] [("drug", [Some "dose"])]
           ["age"] [] [(Some "dose", [])]
           (RPair (PerturbationData.mk_OneHotEncoder ["dose"]) false) 2%Z 0%Z
           _ eq_refl).
Defined.

(** ** What the indices of a training container mean *)

Lemma Z_eqb_eq (a b : Z) : Z.eqb a b = true <-> a = b.
Proof. apply Z.eqb_eq. Qed.

Lemma mask_sum_zero_nth (mask : list bool) (j : nat) :
  mask_sum mask = 0 -> nth j mask false = false.
Proof.
  unfold mask_sum. revert j. induction mask as [|b mask IH]; intros j H.
  - now destruct j.
  - destruct b; simpl in H; [discriminate|].
    destruct j; simpl; auto.
Qed.

Lemma nth_not_default_lt {A : Type} (l : list A) (j : nat) (d : A) :
  nth j l d <> d -> j < List.length l.
Proof.
  intro H. destruct (Nat.lt_ge_cases j (List.length l)) as [|Hge]; [assumption|].
  exfalso. apply H. now apply nth_overflow.
Qed.

Section Completeness.
Context {SC : Scalar}.

Lemma value_eqb_refl (v : value) : v <> VNA -> value_eqb v v = true.
Proof.
  destruct v; try contradiction; intros _; unfold value_eqb, value_same;
    now destruct (value_eq_dec _ _).
Qed.

Lemma row_eqb_refl (r : row) : ~ In VNA r -> row_eqb r r = true.
Proof.
  induction r as [|v r IH]; intro H; [reflexivity|]. simpl.
  rewrite value_eqb_refl by (intros ->; apply H; now left).
  apply IH. intro. apply H. now right.
Qed.

Lemma row_eqb_complete (r1 r2 : row) : row_eqb r1 r2 = true -> ~ In VNA r1.
Proof.
  revert r2. induction r1 as [|v r1 IH]; intros [|w r2] H; try discriminate;
    [intros []|].
  simpl in H. apply andb_prop in H as [Hv Hr].
  intros [->|Hin]; [discriminate|]. eapply IH; eauto.
Qed.

Lemma drop_duplicates_from_complete (seen rows : list row) (r : row) :
  In r rows -> In r seen \/ In r (drop_duplicates_from seen rows).
Proof.
  revert seen. induction rows as [|x rows IH]; intros seen Hin; [destruct Hin|].
  simpl. destruct (in_dec row_eq_dec x seen) as [Hx|Hx].
  - destruct Hin as [<-|Hin]; auto.
  - destruct Hin as [<-|Hin]; [right; now left|].
    destruct (IH (x :: seen) Hin) as [[<-|H]|H]; auto.
    + right. now left.
    + right. now right.
Qed.

Lemma drop_duplicates_complete (rows : list row) (r : row) :
  In r rows -> In r (drop_duplicates rows).
Proof.
  intro H. destruct (drop_duplicates_from_complete [] rows r H) as [[]|H'].
  exact H'.
Qed.

Lemma uniq_sound (K : list string) (k : string) : In k (uniq K) -> In k K.
Proof.
  unfold uniq.
  enough (H : forall acc, In k (fold_left uniq_step K acc) ->
                          In k acc \/ In k K).
  { intro Hin. destruct (H [] Hin) as [[]|H']. exact H'. }
  induction K as [|k' K IH]; intros acc Hin; simpl in *; [auto|].
  destruct (IH _ Hin) as [H|H]; [|auto].
  unfold uniq_step in H. destruct (existsb (String.eqb k') acc); [auto|].
  apply in_app_or in H as [H|[<-|[]]]; auto.
Qed.

Variable adata : AnnData.

Lemma get_columns_subset (K K' : list string) (cols : list (list value)) :
  get_columns (obs adata) K = Ok cols -> incl K' K ->
  exists cols', get_columns (obs adata) K' = Ok cols'.
Proof.
  intros HK Hincl.
  assert (Hpresent : forall k, In k K -> sget (obs adata) k <> None).
  { clear Hincl. revert cols HK. induction K as [|k0 K IH]; intros cols HK k Hk;
      [destruct Hk|].
    simpl in HK. destruct (sget (obs adata) k0) eqn:E; [|discriminate].
    destruct (get_columns (obs adata) K) as [cs|]; [|discriminate].
    destruct Hk as [<-|Hk]; [congruence|]. eapply IH; eauto. }
  induction K' as [|k K' IH]; [now exists []|].
  destruct IH as [cs Hcs]; [intros x Hx; apply Hincl; now right|].
  simpl. destruct (sget (obs adata) k) as [c|] eqn:E.
  - rewrite Hcs. simpl. eauto.
  - exfalso. apply (Hpresent k); [apply Hincl; now left | exact E].
Qed.

Lemma frame_rows_nth (K : list string) (rows : list row) (j : nat) :
  frame_rows adata K = Ok rows -> j < n_obs adata ->
  nth j rows [] = map (cell adata j) K.
Proof.
  intros H Hj. apply frame_rows_cells in H. subst rows.
  now rewrite nth_map_seq.
Qed.

Lemma frame_rows_in (K : list string) (rows : list row) (j : nat) :
  frame_rows adata K = Ok rows -> j < n_obs adata -> In (nth j rows []) rows.
Proof.
  intros H Hj. apply nth_In. erewrite all_rows_length; eauto.
Qed.

Variable split_covariates : list string.
Local Abbreviation smask := (split_mask_of adata split_covariates).

Lemma smask_lt (s : row) (j : nat) :
  nth j (smask s) false = true -> j < n_obs adata.
Proof.
  intro H.
  assert (Hj : j < List.length (smask s)).
  { apply (nth_not_default_lt _ _ false). rewrite H. discriminate. }
  unfold split_mask_of in Hj.
  destruct (frame_rows adata
              (map fst (dict_of_items String.eqb (combine split_covariates s))))
    as [fr|e] eqn:Hfr; [|simpl in Hj; lia].
  rewrite length_map in Hj. erewrite all_rows_length in Hj; eauto.
Qed.

Lemma smask_true_length (s : row) (j : nat) :
  nth j (smask s) false = true -> List.length (smask s) = n_obs adata.
Proof.
  unfold split_mask_of.
  destruct (frame_rows adata
              (map fst (dict_of_items String.eqb (combine split_covariates s))))
    as [fr|e] eqn:Hfr; [|destruct j; discriminate].
  intros _. rewrite length_map. eapply all_rows_length; eauto.
Qed.

(** A cell in the mask of the combination of cell [c] has the same
    split values as [c], none of them missing. *)
Lemma smask_sound (c j : nat) :
  nth j (smask (map (cell adata c) split_covariates)) false = true ->
  map (cell adata j) split_covariates = map (cell adata c) split_covariates
  /\ ~ In VNA (map (cell adata c) split_covariates).
Proof.
  intro Hm. pose proof (smask_lt _ _ Hm) as Hj.
  pose proof (split_mask_cell adata split_covariates c j Hm) as E.
  assert (Hcells : forall k, In k split_covariates ->
                             cell adata j k = cell adata c k).
  { intros k Hk. apply uniq_complete in Hk.
    clear - E Hk. induction (uniq split_covariates) as [|k0 ks IH];
      [destruct Hk|].
    simpl in E. injection E as E0 E. destruct Hk as [->|Hk]; auto. }
  split; [now apply map_ext_in|].
  unfold split_mask_of in Hm. rewrite dict_of_items_map in Hm.
  rewrite !map_map in Hm. cbn [fst snd] in Hm. rewrite map_id in Hm.
  destruct (frame_rows adata (uniq split_covariates)) as [fr|e] eqn:Hfr;
    [|destruct j; discriminate].
  apply frame_rows_cells in Hfr. subst fr. rewrite map_map in Hm.
  rewrite nth_map_seq in Hm by assumption.
  apply row_eqb_complete in Hm.
  intro Hin. apply in_map_iff in Hin as (k & Hk & Hin).
  apply Hm. apply in_map_iff. exists k. split.
  - rewrite <- Hk. now apply Hcells.
  - now apply uniq_complete.
Qed.

(** A cell without a missing split value is in the mask of its own
    combination. *)
Lemma smask_complete (srows : list row) (j : nat) :
  frame_rows adata split_covariates = Ok srows -> j < n_obs adata ->
  ~ In VNA (nth j srows []) ->
  nth j (smask (nth j srows [])) false = true.
Proof.
  intros Hs Hj Hna.
  rewrite (frame_rows_nth _ _ _ Hs Hj) in *.
  unfold split_mask_of. rewrite dict_of_items_map.
  rewrite !map_map. cbn [fst snd]. rewrite map_id.
  unfold frame_rows in Hs.
  destruct (get_columns (obs adata) split_covariates) as [cols|e] eqn:Hc;
    [|discriminate].
  destruct (get_columns_subset split_covariates (uniq split_covariates) cols Hc)
    as [cols' Hc']; [intros k; apply uniq_sound|].
  assert (Hfr : frame_rows adata (uniq split_covariates)
                = Ok (rows_of (n_obs adata) cols'))
    by (unfold frame_rows; now rewrite Hc').
  rewrite Hfr. apply frame_rows_cells in Hfr. rewrite Hfr.
  rewrite map_map, nth_map_seq by assumption.
  apply row_eqb_refl. intro Hin.
  apply in_map_iff in Hin as (k & Hk & Hin). apply Hna.
  apply in_map_iff. exists k. split; [assumption|]. now apply uniq_sound.
Qed.

Variable all_rows : list row.
Variable perturb_covar_keys : list string.
Hypothesis Hall : frame_rows adata perturb_covar_keys = Ok all_rows.

Lemma matches_iff (j : nat) (s r : row) :
  matches adata split_covariates all_rows j s r
  <-> j < n_obs adata /\ row_eqb (nth j all_rows []) r = true
      /\ nth j (smask s) false = true.
Proof.
  unfold matches, target_mask. split.
  - intro H.
    assert (Hs : nth j (smask s) false = true).
    { now apply cond_mask_nth in H. }
    pose proof (smask_lt _ _ Hs) as Hj.
    refine (conj Hj (conj _ Hs)).
    assert (Hlen : List.length (smask s) = List.length all_rows).
    { rewrite (all_rows_length _ _ _ Hall). eapply smask_true_length; eauto. }
    rewrite (nth_map_combine _ all_rows (smask s) j [] false) in H
      by (auto; rewrite (all_rows_length _ _ _ Hall); exact Hj).
    now apply andb_prop in H.
  - intros (Hj & Hr & Hs).
    assert (Hlen : List.length (smask s) = List.length all_rows).
    { rewrite (all_rows_length _ _ _ Hall). eapply smask_true_length; eauto. }
    rewrite (nth_map_combine _ all_rows (smask s) j [] false)
      by (auto; rewrite (all_rows_length _ _ _ Hall); exact Hj).
    now rewrite Hr, Hs.
Qed.
End Completeness.

Section LoadSemantics.
Context {SC : Scalar}.
Import PerturbationData.

Variables (adata : AnnData) (perturbation_covariates : groups)
  (sample_covariates : list string) (covariate_reps : sdict string)
  (primary_to_linked : list (option string * sdict (option string)))
  (primary_encoder : encoder_result OneHotEncoder)
  (max_combination_length : Z) (null_value : num)
  (split_covariates perturb_covar_keys : list string)
  (perturb_covar_df all_rows : list row).

Hypothesis Hall : frame_rows adata perturb_covar_keys = Ok all_rows.

Local Abbreviation smask := (split_mask_of adata split_covariates).
Local Abbreviation tmask := (target_mask adata split_covariates all_rows).
Local Abbreviation matching := (matches adata split_covariates all_rows).
Local Abbreviation tbody s :=
  (TrainingData.target_body adata perturbation_covariates sample_covariates
     covariate_reps primary_to_linked primary_encoder max_combination_length
     null_value perturb_covar_keys all_rows (smask s)).
Local Abbreviation sbody :=
  (TrainingData.split_body adata perturbation_covariates sample_covariates
     covariate_reps primary_to_linked primary_encoder max_combination_length
     null_value split_covariates perturb_covar_keys perturb_covar_df).
Local Abbreviation pm st := (TrainingData.l_perturbation_covariates_mask st).
Local Abbreviation sm st := (TrainingData.l_split_covariates_mask st).
Local Abbreviation pidx st := (TrainingData.l_perturbation_idx_to_covariates st).
Local Abbreviation sidx st := (TrainingData.l_split_idx_to_covariates st).
Local Abbreviation c2p st := (TrainingData.l_control_to_perturbation st).

(** The encoder can be unpacked and no sample covariate has a
    representation: what embedding a condition presupposes. *)
Definition encoder_usable : Prop :=
  (exists enc is_cat, primary_encoder = RPair enc is_cat)
  /\ forall s, In s sample_covariates -> smem covariate_reps s = false.

(** One iteration of the inner loop, with what it does to the
    dictionary of conditions. *)
Lemma target_body_effect (s r : row) (st st' : TrainingData.locals) :
  tbody s st r = Ok st' ->
  (mask_sum (tmask s r) = 0 /\ st' = st)
  \/ (mask_sum (tmask s r) <> 0
      /\ TrainingData.tgt_counter st' = (TrainingData.tgt_counter st + 1)%Z
      /\ pm st' = mask_assign (pm st) (tmask s r) (TrainingData.tgt_counter st)
      /\ pidx st' = dict_set Z.eqb (pidx st) (TrainingData.tgt_counter st) r
      /\ TrainingData.conditional_distributions st'
         = TrainingData.conditional_distributions st
           ++ [TrainingData.tgt_counter st]
      /\ same_outer st st'
      /\ encoder_usable).
Proof.
  unfold TrainingData.target_body. fold (tmask s r).
  destruct (TrainingData.has_duplicates perturb_covar_keys); [discriminate|].
  destruct (Nat.eqb_spec (mask_sum (tmask s r)) 0) as [E|E].
  - intros [= <-]. now left.
  - destruct (_get_perturbation_covariates _ _ _ _ _ _ _ _ _) as [emb|e] eqn:Hemb;
      [|discriminate]. simpl.
    destruct (for_each _ emb _) as [cd'|e]; [|discriminate]. simpl.
    intros [= <-]. right. unfold same_outer. simpl.
    apply get_perturbation_covariates_facts in Hemb as (Henc & Hs & _).
    unfold encoder_usable. auto 10.
Qed.

(** The perturbation mask labels cells by condition. *)
Definition labelled (st : TrainingData.locals) : Prop :=
  (forall j, nth j (pm st) (-1)%Z <> (-1)%Z ->
     dict_get Z.eqb (pidx st) (nth j (pm st) (-1)%Z)
     = Some (nth j all_rows []))
  /\ map fst (pidx st) = indices (TrainingData.tgt_counter st)
  /\ (pidx st <> [] -> encoder_usable).

(** Every cell of a processed pair has a target index. *)
Definition covered (Done : row -> row -> Prop) (st : TrainingData.locals)
  : Prop :=
  forall j s r, Done s r -> matching j s r -> nth j (pm st) (-1)%Z <> (-1)%Z.

(** The target index of a cell is listed for the cell's split: in the
    finished array of an earlier split, or among the targets collected
    for the current split [s]. *)
Definition reachable_in (s : row) (st : TrainingData.locals) : Prop :=
  forall j, nth j (pm st) (-1)%Z <> (-1)%Z ->
    (exists arr,
        dict_get Z.eqb (c2p st) (nth j (sm st) (-1)%Z + 1)%Z = Some arr
        /\ In (nth j (pm st) (-1)%Z) arr)
    \/ (nth j (smask s) false = true
        /\ In (nth j (pm st) (-1)%Z)
              (TrainingData.conditional_distributions st)).

Lemma target_body_sem (Done : row -> row -> Prop) (s r : row)
    (st st' : TrainingData.locals) :
  inv adata split_covariates all_rows Done
      (TrainingData.conditional_distributions st) st ->
  labelled st -> covered Done st -> reachable_in s st ->
  tbody s st r = Ok st' ->
  labelled st'
  /\ covered (fun s' r' => Done s' r' \/ (s' = s /\ r' = r)) st'
  /\ reachable_in s st'.
Proof.
  intros (Ht & Hlen & Hrange & _ & _ & _) (Hlab & Hkeys & Henc) Hcov Hreach Hrun.
  destruct (target_body_effect s r st st' Hrun)
    as [[Hsum ->] | (Hsum & HT & Hpm & Hpidx & Hcd & Hsame & Husable)].
  - refine (conj (conj Hlab (conj Hkeys Henc)) (conj _ Hreach)).
    intros j s' r' [Hd|[-> ->]] Hm; [eauto|].
    unfold matches in Hm. rewrite (mask_sum_zero_nth _ j Hsum) in Hm.
    discriminate.
  - assert (Hmlen : List.length (tmask s r) <= List.length (pm st))
      by (rewrite Hlen; apply (target_mask_length _ _ _ _ Hall)).
    assert (Hnth : forall j, nth j (pm st') (-1)%Z
                             = if nth j (tmask s r) false
                               then TrainingData.tgt_counter st
                               else nth j (pm st) (-1)%Z).
    { intro j. rewrite Hpm. now apply mask_assign_nth. }
    assert (Hold : forall j, nth j (pm st) (-1)%Z <> (-1)%Z ->
                             (0 <= nth j (pm st) (-1)%Z
                              < TrainingData.tgt_counter st)%Z).
    { intros j Hj. destruct (Hrange (nth j (pm st) (-1)%Z)) as [E|E]; auto.
      - apply nth_In. now apply nth_not_default_lt in Hj.
      - contradiction. }
    destruct Hsame as (_ & Hc2p & Hsm & _).
    refine (conj (conj _ (conj _ (fun _ => Husable))) (conj _ _)).
    + intros j Hj. rewrite Hnth in Hj |- *. rewrite Hpidx.
      destruct (nth j (tmask s r) false) eqn:Hm.
      * rewrite (dict_get_set_same Z.eqb Z_eqb_eq).
        f_equal. now apply (matches_row adata split_covariates all_rows j s r).
      * rewrite (dict_get_set_other Z.eqb Z_eqb_eq); [auto|].
        specialize (Hold j Hj). lia.
    + rewrite Hpidx, HT, dict_set_fresh.
      * rewrite map_app, Hkeys. cbn [map fst]. symmetry. now apply indices_succ.
      * rewrite Hkeys, in_indices. lia.
    + intros j s' r' Hd Hm. rewrite Hnth.
      destruct (nth j (tmask s r) false) eqn:Hmask; [lia|].
      destruct Hd as [Hd|[-> ->]]; [eauto|].
      unfold matches in Hm. congruence.
    + intros j Hj. rewrite Hnth in Hj |- *. rewrite Hc2p, Hsm, Hcd.
      destruct (nth j (tmask s r) false) eqn:Hmask.
      * right. split; [|apply in_or_app; right; now left].
        now apply (matches_row adata split_covariates all_rows j s r).
      * destruct (Hreach j Hj) as [H|[H1 H2]]; [now left|].
        right. split; [assumption|]. apply in_or_app. now left.
Qed.

(** The inner loop over the distinct conditions of one split. *)
Lemma inner_loop_sem (s : row) (rs : list row) :
  NoDup rs ->
  forall (Done : row -> row -> Prop) (st st' : TrainingData.locals),
    inv adata split_covariates all_rows Done
        (TrainingData.conditional_distributions st) st ->
    (forall r s' r' j, In r rs -> Done s' r' -> matching j s' r' ->
                       matching j s r -> False) ->
    labelled st -> covered Done st -> reachable_in s st ->
    for_each (tbody s) rs st = Ok st' ->
    labelled st'
    /\ covered (fun s' r' => Done s' r' \/ (s' = s /\ In r' rs)) st'
    /\ reachable_in s st'.
Proof.
  induction 1 as [|r rs Hnotin Hnd IH];
    intros Done st st' Hinv Hdisj Hlab Hcov Hreach Hrun.
  - simpl in Hrun. injection Hrun as <-.
    refine (conj Hlab (conj _ Hreach)).
    intros j s' r' [Hd|[_ []]]. eauto.
  - simpl in Hrun.
    destruct (tbody s st r) as [st1|e] eqn:Hstep; [|discriminate].
    simpl in Hrun.
    destruct (target_body_sem Done s r st st1 Hinv Hlab Hcov Hreach Hstep)
      as (Hlab1 & Hcov1 & Hreach1).
    destruct (target_body_inv adata perturbation_covariates sample_covariates
                covariate_reps primary_to_linked primary_encoder
                max_combination_length null_value split_covariates
                perturb_covar_keys all_rows Hall Done s r st st1 Hinv)
      as [Hinv1 _]; auto.
    { intros s' r' j. apply Hdisj. now left. }
    destruct (IH _ st1 st' Hinv1) as (Hlab2 & Hcov2 & Hreach2); auto.
    { intros r2 s' r' j Hr2 [Hd|[-> ->]] Hm Hm2.
      - eapply Hdisj; eauto. now right.
      - apply (matches_row adata split_covariates all_rows) in Hm as [Hr _].
        apply (matches_row adata split_covariates all_rows) in Hm2 as [Hr2' _].
        apply Hnotin. congruence. }
    refine (conj Hlab2 (conj _ Hreach2)).
    intros j s' r' Hd. apply Hcov2.
    destruct Hd as [Hd|[-> [<-|Hin]]]; auto.
Qed.

(** The split mask labels cells by split combination: after [m] splits
    [Sdone], the split with position [k] has index [2k]. *)
Definition split_labelled (m : nat) (Sdone : list row)
    (st : TrainingData.locals) : Prop :=
  List.length Sdone = m
  /\ List.length (sm st) = n_obs adata
  /\ sidx st = combine (evens m) Sdone
  /\ (forall j, nth j (sm st) (-1)%Z <> (-1)%Z ->
        exists k, k < m /\ nth j (sm st) (-1)%Z = (2 * Z.of_nat k)%Z
                  /\ nth j (smask (nth k Sdone [])) false = true)
  /\ (forall j s, In s Sdone -> nth j (smask s) false = true ->
                  nth j (sm st) (-1)%Z <> (-1)%Z).

(** The target index of every cell is listed in the array stored for
    the cell's split. *)
Definition reachable (st : TrainingData.locals) : Prop :=
  forall j, nth j (pm st) (-1)%Z <> (-1)%Z ->
    exists arr,
      dict_get Z.eqb (c2p st) (nth j (sm st) (-1)%Z + 1)%Z = Some arr
      /\ In (nth j (pm st) (-1)%Z) arr.

Definition sem (m : nat) (Sdone : list row) (st : TrainingData.locals)
  : Prop :=
  labelled st
  /\ covered (fun s r => In s Sdone /\ In r perturb_covar_df) st
  /\ split_labelled m Sdone st
  /\ reachable st.

Lemma evens_length (m : nat) : List.length (evens m) = m.
Proof. unfold evens. now rewrite length_map, length_seq. Qed.

Lemma evens_succ (m : nat) : evens (S m) = evens m ++ [(2 * Z.of_nat m)%Z].
Proof. unfold evens. now rewrite seq_S, map_app. Qed.

Lemma combine_snoc {A B : Type} (l1 : list A) (l2 : list B) (a : A) (b : B) :
  List.length l1 = List.length l2 ->
  combine (l1 ++ [a]) (l2 ++ [b]) = combine l1 l2 ++ [(a, b)].
Proof.
  revert l2. induction l1 as [|x l1 IH]; intros [|y l2] H; try discriminate;
    simpl; [reflexivity|].
  f_equal. apply IH. simpl in H. lia.
Qed.

Lemma smask_length (s : row) (filter_rows : list row) :
  frame_rows adata
    (map fst (dict_of_items String.eqb (combine split_covariates s)))
  = Ok filter_rows ->
  List.length (smask s) = n_obs adata.
Proof.
  intro H. unfold split_mask_of. rewrite H, length_map.
  eapply all_rows_length; eauto.
Qed.

Lemma split_body_sem (m : nat) (Sdone : list row) (s : row)
    (st st' : TrainingData.locals) :
  NoDup perturb_covar_df ->
  outer_inv adata split_covariates perturb_covar_df all_rows m Sdone st ->
  sem m Sdone st ->
  (forall s' j, In s' Sdone -> nth j (smask s') false = true ->
                nth j (smask s) false = true -> False) ->
  sbody st s = Ok st' ->
  sem (S m) (Sdone ++ [s]) st'.
Proof.
  intros Hnd (Hinv & Hsrc & Hodd & Heven)
         (Hlab & Hcov & (HSlen & Hsmlen & Hsidx & Hsm1 & Hsm2) & Hreach)
         Hdisj Hrun.
  unfold TrainingData.split_body in Hrun.
  destruct (frame_rows adata
              (map fst (dict_of_items String.eqb
                          (combine split_covariates s))))
    as [filter_rows|e] eqn:Hfr; [|discriminate].
  simpl in Hrun. rewrite Hall in Hrun. simpl in Hrun.
  assert (Hmask : map (fun r => row_eqb r
                      (map snd (dict_of_items String.eqb
                                  (combine split_covariates s))))
                      filter_rows
                  = smask s)
    by (unfold split_mask_of; now rewrite Hfr).
  rewrite Hmask in Hrun.
  pose proof (smask_length s filter_rows Hfr) as Hslen.
  match type of Hrun with
  | bind (for_each _ _ ?st1) _ = _ => set (st_1 := st1) in *
  end.
  destruct (for_each (tbody s) perturb_covar_df st_1) as [st2|e] eqn:Hloop;
    [|discriminate].
  simpl in Hrun. injection Hrun as <-.
  set (Done := fun s' r' : row => In s' Sdone /\ In r' perturb_covar_df).
  assert (Hsm1nth : forall j,
             nth j (sm st_1) (-1)%Z
             = if nth j (smask s) false then TrainingData.src_counter st
               else nth j (sm st) (-1)%Z).
  { intro j. unfold st_1. locals_simpl. apply mask_assign_nth. lia. }
  assert (Hinv1 : inv adata split_covariates all_rows Done
                      (TrainingData.conditional_distributions st_1) st_1).
  { destruct Hinv as (Ht & Hlen & Hrange & Honto & Hdone & Hlists).
    unfold inv, st_1. simpl. repeat split; auto. }
  assert (Hassigned : forall j, nth j (pm st) (-1)%Z <> (-1)%Z ->
                                nth j (smask s) false = false).
  { intros j Hj. destruct Hinv as (_ & _ & _ & _ & Hdone & _).
    destruct (Hdone j Hj) as (s' & r' & [Hs' _] & Hm).
    apply (matches_row adata split_covariates all_rows) in Hm as [_ Hm].
    destruct (nth j (smask s) false) eqn:E; [|reflexivity].
    exfalso. eapply Hdisj; eauto. }
  assert (Hlab1 : labelled st_1) by exact Hlab.
  assert (Hcov1 : covered Done st_1) by exact Hcov.
  assert (Hreach1 : reachable_in s st_1).
  { intros j Hj. left. rewrite Hsm1nth.
    change (pm st_1) with (pm st) in *. change (c2p st_1) with (c2p st).
    rewrite (Hassigned j Hj). now apply Hreach. }
  destruct (inner_loop_sem s perturb_covar_df Hnd Done st_1 st2 Hinv1)
    as (Hlab2 & Hcov2 & Hreach2); auto.
  { intros r s' r' j _ [Hs' _] Hm Hm'.
    apply (matches_row adata split_covariates all_rows) in Hm as [_ Hm].
    apply (matches_row adata split_covariates all_rows) in Hm' as [_ Hm'].
    eapply Hdisj; eauto. }
  destruct (inner_loop_inv adata perturbation_covariates sample_covariates
              covariate_reps primary_to_linked primary_encoder
              max_combination_length null_value split_covariates
              perturb_covar_keys all_rows Hall s perturb_covar_df Hnd
              Done st_1 st2 Hinv1)
    as [_ (Hs1 & Hs2 & Hs3 & Hs4)]; auto.
  { intros r s' r' j _ [Hs' _] Hm Hm'.
    apply (matches_row adata split_covariates all_rows) in Hm as [_ Hm].
    apply (matches_row adata split_covariates all_rows) in Hm' as [_ Hm'].
    eapply Hdisj; eauto. }
  unfold st_1 in Hs1, Hs2, Hs4. locals_simpl in Hs1.
  locals_simpl in Hs2. locals_simpl in Hs4.
  assert (Hkeys : map fst (sidx st) = evens m).
  { rewrite Hsidx. apply map_fst_combine_eq. now rewrite evens_length. }
  unfold sem, labelled, covered, split_labelled, reachable. locals_simpl.
  rewrite Hs1, Hs2, Hs3, Hs4, Hsrc.
  rewrite (dict_set_fresh (c2p st)) by (rewrite Hodd; apply odds_fresh).
  rewrite (dict_set_fresh (sidx st)) by (rewrite Hkeys; apply evens_fresh).
  rewrite Hsrc in Hsm1nth.
  refine (conj Hlab2 (conj _ (conj (conj _ (conj _ (conj _ (conj _ _)))) _))).
  - intros j s' r' [Hs' Hr']. apply Hcov2.
    apply in_app_or in Hs' as [Hs'|[<-|[]]]; [left; now split | right; auto].
  - rewrite length_app, HSlen. simpl. lia.
  - unfold st_1. locals_simpl. now rewrite mask_assign_length.
  - rewrite Hsidx, evens_succ. symmetry. apply combine_snoc.
    now rewrite evens_length.
  - intros j Hj. rewrite Hsm1nth in Hj |- *.
    destruct (nth j (smask s) false) eqn:E.
    + exists m. split; [lia|]. split; [reflexivity|].
      rewrite app_nth2 by lia. rewrite HSlen, Nat.sub_diag. exact E.
    + destruct (Hsm1 j Hj) as (k & Hk & Hv & Hmk).
      exists k. split; [lia|]. split; [assumption|].
      rewrite app_nth1 by lia. exact Hmk.
  - intros j s' Hs' Hm. rewrite Hsm1nth.
    destruct (nth j (smask s) false) eqn:E; [lia|].
    apply in_app_or in Hs' as [Hs'|[<-|[]]]; [eauto | congruence].
  - intros j Hj. destruct (Hreach2 j Hj) as [(arr & Hget & Hin)|[Hm Hin]].
    + exists arr. split; [|exact Hin].
      rewrite Hs2, Hs3 in Hget. rewrite <- Hget.
      rewrite <- (dict_set_fresh (c2p st) (2 * Z.of_nat m + 1)%Z
                    (TrainingData.conditional_distributions st2))
        by (rewrite Hodd; apply odds_fresh).
      apply (dict_get_set_other Z.eqb Z_eqb_eq).
      intro Heq. apply (odds_fresh m). rewrite <- Hodd.
      apply (dict_get_in Z.eqb Z_eqb_eq) in Hget.
      rewrite <- Heq. apply in_map_iff. now exists ((nth j (sm st_1) (-1) + 1)%Z, arr).
    + exists (TrainingData.conditional_distributions st2).
      split; [|exact Hin].
      rewrite Hsm1nth, Hm.
      rewrite <- (dict_set_fresh (c2p st) (2 * Z.of_nat m + 1)%Z
                    (TrainingData.conditional_distributions st2))
        by (rewrite Hodd; apply odds_fresh).
      apply (dict_get_set_same Z.eqb Z_eqb_eq).
Qed.

(** The outer loop over the split combinations. *)
Lemma outer_loop_sem (rest : list row) :
  NoDup perturb_covar_df ->
  forall (m : nat) (Sdone : list row) (st st' : TrainingData.locals),
    NoDup (Sdone ++ rest) ->
    (forall s s' j, In s (Sdone ++ rest) -> In s' (Sdone ++ rest) ->
                    nth j (smask s) false = true ->
                    nth j (smask s') false = true -> s = s') ->
    outer_inv adata split_covariates perturb_covar_df all_rows m Sdone st ->
    sem m Sdone st ->
    for_each sbody rest st = Ok st' ->
    outer_inv adata split_covariates perturb_covar_df all_rows
              (m + List.length rest) (Sdone ++ rest) st'
    /\ sem (m + List.length rest) (Sdone ++ rest) st'.
Proof.
  intro Hnd. induction rest as [|s rest IH];
    intros m Sdone st st' Hnodup Huniq Hinv Hsem Hrun.
  - simpl in Hrun. injection Hrun as <-.
    now rewrite app_nil_r, Nat.add_0_r.
  - simpl in Hrun.
    destruct (sbody st s) as [st1|e] eqn:Hstep; [|discriminate].
    simpl in Hrun.
    assert (Hdisj : forall s' j, In s' Sdone -> nth j (smask s') false = true ->
                                 nth j (smask s) false = true -> False).
    { intros s' j Hs' Hm' Hm.
      assert (s' = s).
      { eapply Huniq; eauto; rewrite in_app_iff; simpl; auto. }
      subst s'. apply NoDup_remove_2 in Hnodup.
      apply Hnodup. rewrite in_app_iff. auto. }
    assert (Hinv1 : outer_inv adata split_covariates perturb_covar_df all_rows
                              (S m) (Sdone ++ [s]) st1).
    { eapply split_body_inv; eauto.
      intros s' r' r j Hs' Hm' Hm.
      apply (matches_row adata split_covariates all_rows) in Hm as [_ Hm].
      apply (matches_row adata split_covariates all_rows) in Hm' as [_ Hm'].
      eapply Hdisj; eauto. }
    assert (Hsem1 : sem (S m) (Sdone ++ [s]) st1)
      by (eapply split_body_sem; eauto).
    replace (Sdone ++ s :: rest) with ((Sdone ++ [s]) ++ rest) in *
      by (now rewrite <- app_assoc).
    replace (m + List.length (s :: rest)) with (S m + List.length rest)
      by (simpl; lia).
    eapply IH; eauto.
Qed.

Lemma initial_locals_sem (cd0 : sdict (list ndarray)) :
  sem 0 []
    (TrainingData.mk_locals 0%Z 0%Z []
       (repeat (-1)%Z (n_obs adata)) []
       (repeat (-1)%Z (n_obs adata)) [] cd0 []).
Proof.
  assert (Hnone : forall j, nth j (repeat (-1)%Z (n_obs adata)) (-1)%Z = (-1)%Z).
  { intro j. destruct (Nat.lt_ge_cases j (n_obs adata)) as [Hlt|Hge].
    - now apply nth_repeat_lt.
    - apply nth_overflow. now rewrite repeat_length. }
  unfold sem, labelled, covered, split_labelled, reachable. locals_simpl.
  refine (conj (conj _ (conj _ _)) (conj _ (conj (conj _ (conj _ (conj _
           (conj _ _)))) _))).
  - intros j Hj. now rewrite Hnone in Hj.
  - reflexivity.
  - intro H. now contradiction H.
  - intros j s r [[] _].
  - reflexivity.
  - apply repeat_length.
  - reflexivity.
  - intros j Hj. now rewrite Hnone in Hj.
  - intros j s [].
  - intros j Hj. now rewrite Hnone in Hj.
Qed.
End LoadSemantics.

(** What the indices of a container mean, in terms of the rows of the
    frame of perturbation and sample covariates ([rows]) and of the
    frame of split covariates ([srows]) of a dataset of [n] cells. *)
Definition index_semantics {SC : Scalar} (rows srows : list row) (n : nat)
    (usable : Prop) (pm sm : list Z) (pidx sidx : list (Z * row))
    (c2p : list (Z * list Z)) : Prop :=
  (forall j, nth j pm (-1)%Z <> (-1)%Z ->
     dict_get Z.eqb pidx (nth j pm (-1)%Z) = Some (nth j rows []))
  /\ map fst pidx
     = indices (Z.of_nat (List.length (List.concat (map snd c2p))))
  /\ (forall j, j < n ->
        (nth j pm (-1)%Z <> (-1)%Z
         <-> ~ In VNA (nth j rows []) /\ ~ In VNA (nth j srows [])))
  /\ (pidx <> [] -> usable)
  /\ (forall j, j < n ->
        (nth j sm (-1)%Z <> (-1)%Z <-> ~ In VNA (nth j srows [])))
  /\ (forall j, nth j sm (-1)%Z <> (-1)%Z ->
        dict_get Z.eqb sidx (nth j sm (-1)%Z) = Some (nth j srows []))
  /\ (forall j, nth j pm (-1)%Z <> (-1)%Z ->
        exists arr,
          dict_get Z.eqb c2p (nth j sm (-1)%Z + 1)%Z = Some arr
          /\ In (nth j pm (-1)%Z) arr).

Section LoopsSemantics.
Context {SC : Scalar}.
Import PerturbationData.

Lemma evens_nodup (m : nat) : NoDup (evens m).
Proof.
  unfold evens. apply NoDup_map_NoDup_ForallPairs.
  - intros x y _ _ H. lia.
  - apply seq_NoDup.
Qed.

Lemma dict_get_evens (combs : list row) (k : nat) :
  k < List.length combs ->
  dict_get Z.eqb (combine (evens (List.length combs)) combs)
           (2 * Z.of_nat k)%Z
  = Some (nth k combs []).
Proof.
  intro Hk. apply (in_dict_get Z.eqb Z_eqb_eq).
  - rewrite map_fst_combine_eq by apply evens_length. apply evens_nodup.
  - replace (2 * Z.of_nat k)%Z with (nth k (evens (List.length combs)) 0%Z).
    + rewrite <- combine_nth by apply evens_length.
      apply nth_In. rewrite length_combine, evens_length. lia.
    + unfold evens. now rewrite nth_map_seq.
Qed.

(** The split combinations the factory iterates over. *)
Lemma split_combinations (adata : AnnData) (split_covariates : list string)
    (combs : list row) :
  (split_covariates = [] /\ combs = [[]])
  \/ (exists srows, frame_rows adata split_covariates = Ok srows
                    /\ combs = drop_duplicates srows) ->
  exists srows,
    frame_rows adata split_covariates = Ok srows
    /\ NoDup combs
    /\ (forall s j, In s combs ->
          nth j (split_mask_of adata split_covariates s) false = true ->
          nth j srows [] = s /\ ~ In VNA s)
    /\ (forall j, j < n_obs adata -> ~ In VNA (nth j srows []) ->
          In (nth j srows []) combs
          /\ nth j (split_mask_of adata split_covariates (nth j srows []))
                 false = true).
Proof.
  intros [[-> ->]|(srows & Hs & ->)].
  - exists (rows_of (n_obs adata) []).
    assert (Hs : frame_rows adata [] = Ok (rows_of (n_obs adata) []))
      by reflexivity.
    assert (Hnth : forall j, j < n_obs adata ->
                             nth j (rows_of (n_obs adata) []) [] = [])
      by (intros j Hj; now rewrite (frame_rows_nth adata [] _ j Hs Hj)).
    refine (conj Hs (conj _ (conj _ _))).
    + constructor; [intros []|constructor].
    + intros s j [<-|[]] Hm. split; [|intros []].
      apply Hnth. eapply smask_lt; eauto.
    + intros j Hj Hna. rewrite Hnth by assumption. split; [now left|].
      rewrite <- (Hnth j Hj) at 1.
      apply (smask_complete adata [] _ j Hs Hj). now rewrite Hnth.
  - exists srows. refine (conj Hs (conj (drop_duplicates_nodup _) (conj _ _))).
    + intros s j Hin Hm. apply drop_duplicates_incl in Hin.
      pose proof (smask_lt _ _ _ _ Hm) as Hj.
      rewrite (frame_rows_nth adata _ _ j Hs Hj).
      pose proof (frame_rows_cells adata _ _ Hs) as E. rewrite E in Hin.
      apply in_map_iff in Hin as (c & <- & _).
      now apply smask_sound.
    + intros j Hj Hna. split.
      * apply drop_duplicates_complete. eapply frame_rows_in; eauto.
      * now apply smask_complete.
Qed.

(** The two nested loops of the factory, started on fresh locals, give
    the indices their meaning. *)
Lemma loops_semantics (adata : AnnData) (perturbation_covariates : groups)
    (sample_covariates : list string) (covariate_reps : sdict string)
    (primary_to_linked : list (option string * sdict (option string)))
    (primary_encoder : encoder_result OneHotEncoder)
    (max_combination_length : Z) (null_value : num)
    (split_covariates perturb_covar_keys : list string)
    (rows split_cov_combs : list row) (cd0 : sdict (list ndarray))
    (st : TrainingData.locals) :
  frame_rows adata perturb_covar_keys = Ok rows ->
  (split_covariates = [] /\ split_cov_combs = [[]])
  \/ (exists srows, frame_rows adata split_covariates = Ok srows
                    /\ split_cov_combs = drop_duplicates srows) ->
  for_each
    (TrainingData.split_body adata perturbation_covariates sample_covariates
       covariate_reps primary_to_linked primary_encoder max_combination_length
       null_value split_covariates perturb_covar_keys (drop_duplicates rows))
    split_cov_combs
    (TrainingData.mk_locals 0%Z 0%Z []
       (repeat (-1)%Z (n_obs adata)) []
       (repeat (-1)%Z (n_obs adata)) [] cd0 [])
  = Ok st ->
  exists srows,
    frame_rows adata split_covariates = Ok srows
    /\ index_semantics rows srows (n_obs adata)
         (encoder_usable sample_covariates covariate_reps primary_encoder)
         (TrainingData.l_perturbation_covariates_mask st)
         (TrainingData.l_split_covariates_mask st)
         (TrainingData.l_perturbation_idx_to_covariates st)
         (TrainingData.l_split_idx_to_covariates st)
         (TrainingData.l_control_to_perturbation st).
Proof.
  intros Hrows Hcombs Hrun.
  destruct (split_combinations adata split_covariates split_cov_combs Hcombs)
    as (srows & Hs & Hnd & HC1 & HC2).
  exists srows. split; [exact Hs|].
  assert (Hboth :
    outer_inv adata split_covariates (drop_duplicates rows) rows
              (0 + List.length split_cov_combs) ([] ++ split_cov_combs) st
    /\ sem adata sample_covariates covariate_reps primary_encoder
           split_covariates (drop_duplicates rows) rows
           (0 + List.length split_cov_combs) ([] ++ split_cov_combs) st).
  { refine (outer_loop_sem adata perturbation_covariates sample_covariates
              covariate_reps primary_to_linked primary_encoder
              max_combination_length null_value split_covariates
              perturb_covar_keys (drop_duplicates rows) rows Hrows
              split_cov_combs (drop_duplicates_nodup rows) 0 [] _ st
              Hnd _ _ _ Hrun).
    - intros s s' j Hin Hin' Hm Hm'.
      destruct (HC1 s j Hin Hm) as [<- _].
      now destruct (HC1 s' j Hin' Hm') as [<- _].
    - apply initial_locals_inv.
    - apply initial_locals_sem. }
  destruct Hboth as [Hinv Hsem].
  cbn [Nat.add app] in Hinv, Hsem.
  destruct Hinv as ((Ht & Hlen & Hrange & Honto & Hdone & Hlists) & _).
  destruct Hsem as ((Hlab & Hkeys & Henc) & Hcov
                    & (_ & Hsmlen & Hsidx & Hsm1 & Hsm2) & Hreach).
  rewrite app_nil_r in Hlists.
  unfold index_semantics.
  refine (conj Hlab (conj _ (conj _ (conj Henc (conj _ (conj _ Hreach)))))).
  - rewrite Hkeys, Hlists.
    assert (E : List.length (indices (TrainingData.tgt_counter st))
                = Z.to_nat (TrainingData.tgt_counter st))
      by (unfold indices; now rewrite length_map, length_seq).
    rewrite E. f_equal. lia.
  - intros j Hj. split.
    + intro Hp. destruct (Hdone j Hp) as (s & r & [Hin _] & Hm).
      apply (matches_iff adata split_covariates rows perturb_covar_keys Hrows)
        in Hm as (_ & Hr & Hm).
      split; [eapply row_eqb_complete; eauto|].
      destruct (HC1 s j Hin Hm) as [-> Hna]. exact Hna.
    + intros [Hr Hna]. destruct (HC2 j Hj Hna) as [Hin Hm].
      apply (Hcov j (nth j srows []) (nth j rows [])).
      * split; [exact Hin|]. apply drop_duplicates_complete.
        eapply frame_rows_in; eauto.
      * apply (matches_iff adata split_covariates rows perturb_covar_keys Hrows).
        refine (conj Hj (conj _ Hm)). now apply row_eqb_refl.
  - intros j Hj. split.
    + intro Hp. destruct (Hsm1 j Hp) as (k & Hk & _ & Hm).
      destruct (HC1 (nth k split_cov_combs []) j) as [E Hna];
        [apply nth_In; exact Hk | exact Hm |].
      now rewrite E.
    + intro Hna. destruct (HC2 j Hj Hna) as [Hin Hm]. eauto.
  - intros j Hp. destruct (Hsm1 j Hp) as (k & Hk & -> & Hm).
    destruct (HC1 (nth k split_cov_combs []) j) as [E _];
      [apply nth_In; exact Hk | exact Hm |].
    rewrite Hsidx, E. now apply dict_get_evens.
Qed.
End LoopsSemantics.

(** ** The indices of a returned container *)

(** The columns the factory compares cells on: the covariates of every
    perturbation group followed by the sample covariates. *)
Definition perturbation_keys (perturbation_covariates : sdict pyval)
    (sample_covariates : option (list string)) : list string :=
  PerturbationData.column_labels
    (_flatten_list (map snd (normalized_groups perturbation_covariates))
     ++ map Some (TrainingData.or_default sample_covariates [])).

(** The primary covariates are numeric and nothing is represented by
    an entry of [adata.uns]: the primary group has no representation,
    its columns are float columns of the dataset, and no sample
    covariate has a representation. *)
Definition numeric_setup {SC : Scalar} (a : AnnData)
    (perturbation_covariates : sdict pyval)
    (perturbation_covariate_reps : option (sdict string))
    (sample_covariates : option (list string))
    (sample_covariate_reps : option (sdict string)) : Prop :=
  (forall primary_group primary_covars rest,
      normalized_groups perturbation_covariates
      = (primary_group, primary_covars) :: rest ->
      smem (TrainingData.or_default perturbation_covariate_reps [])
           primary_group = false
      /\ forall k, In (Some k) primary_covars ->
           exists col, sget (obs a) k = Some col /\ col_dtype col = DFloat)
  /\ forall s, In s (TrainingData.or_default sample_covariates []) ->
       smem (dict_union String.eqb
               (TrainingData.or_default perturbation_covariate_reps [])
               (TrainingData.or_default sample_covariate_reps [])) s = false.

(** Every target index of the mask is a key of
    [perturbation_idx_to_covariates], under which the covariate values
    of the cell are stored; the keys are [0, ..., T - 1] for the number
    [T] of targets listed in [control_to_perturbation]. *)
Definition cells_labelled {SC : Scalar} (a : AnnData) (keys : list string)
    (c : TrainingData.t) : Prop :=
  exists rows,
    frame_rows a keys = Ok rows
    /\ (forall j,
          nth j (TrainingData.perturbation_covariates_mask c) (-1)%Z <> (-1)%Z ->
          dict_get Z.eqb (TrainingData.perturbation_idx_to_covariates c)
                   (nth j (TrainingData.perturbation_covariates_mask c) (-1)%Z)
          = Some (nth j rows []))
    /\ map fst (TrainingData.perturbation_idx_to_covariates c)
       = indices (Z.of_nat (List.length
                    (List.concat
                       (map snd (TrainingData.control_to_perturbation c))))).

(** A cell has a target index exactly when none of its perturbation,
    sample and split covariate values is missing. *)
Definition complete_cells_assigned {SC : Scalar} (a : AnnData)
    (keys splits : list string) (c : TrainingData.t) : Prop :=
  exists rows srows,
    frame_rows a keys = Ok rows /\ frame_rows a splits = Ok srows
    /\ forall j, j < n_obs a ->
         (nth j (TrainingData.perturbation_covariates_mask c) (-1)%Z <> (-1)%Z
          <-> ~ In VNA (nth j rows []) /\ ~ In VNA (nth j srows [])).

(** A cell has a split index exactly when none of its split covariate
    values is missing, and [split_idx_to_covariates] stores the cell's
    split values under that index. *)
Definition splits_labelled {SC : Scalar} (a : AnnData) (splits : list string)
    (c : TrainingData.t) : Prop :=
  exists srows,
    frame_rows a splits = Ok srows
    /\ (forall j, j < n_obs a ->
          (nth j (TrainingData.split_covariates_mask c) (-1)%Z <> (-1)%Z
           <-> ~ In VNA (nth j srows [])))
    /\ forall j,
         nth j (TrainingData.split_covariates_mask c) (-1)%Z <> (-1)%Z ->
         dict_get Z.eqb (TrainingData.split_idx_to_covariates c)
                  (nth j (TrainingData.split_covariates_mask c) (-1)%Z)
         = Some (nth j srows []).

(** The target index of a cell is listed in the array stored under the
    cell's split index plus one. *)
Definition targets_reachable {SC : Scalar} (c : TrainingData.t) : Prop :=
  forall j,
    nth j (TrainingData.perturbation_covariates_mask c) (-1)%Z <> (-1)%Z ->
    exists arr,
      dict_get Z.eqb (TrainingData.control_to_perturbation c)
               (nth j (TrainingData.split_covariates_mask c) (-1)%Z + 1)%Z
      = Some arr
      /\ In (nth j (TrainingData.perturbation_covariates_mask c) (-1)%Z) arr.

Section LoadIndexSemantics.
Context {SC : Scalar}.
Import PerturbationData.

Lemma index_semantics_weaken (rows srows : list row) (n : nat)
    (usable usable' : Prop) (pm sm : list Z) (pidx sidx : list (Z * row))
    (c2p : list (Z * list Z)) :
  index_semantics rows srows n usable pm sm pidx sidx c2p ->
  (usable -> usable') ->
  index_semantics rows srows n usable' pm sm pidx sidx c2p.
Proof.
  intros (F1 & F2 & F3 & F4 & F5 & F6 & F7) Hu.
  unfold index_semantics. auto 12.
Qed.

Lemma encoder_usable_numeric (g : groups) (reps : sdict string)
    (sample_covariates : list string) (covariate_reps : sdict string)
    (w w' : world) (enc : encoder_result OneHotEncoder) :
  _get_primary_covar_encoder g reps w = (w', Ok enc) ->
  encoder_usable sample_covariates covariate_reps enc ->
  (forall primary_group primary_covars rest,
      g = (primary_group, primary_covars) :: rest ->
      smem reps primary_group = false
      /\ forall k, In (Some k) primary_covars ->
           exists col, sget (obs (the_adata w')) k = Some col
                       /\ col_dtype col = DFloat)
  /\ forall s, In s sample_covariates -> smem covariate_reps s = false.
Proof.
  intros Hrun [(e & b & ->) Hs]. split; [|exact Hs].
  intros pg pcs rest ->. unfold _get_primary_covar_encoder in Hrun.
  unfold mbind at 1 in Hrun.
  destruct (_check_covariate_type pcs w) as [w1 [cat|err]] eqn:Hc;
    [|discriminate].
  destruct (smem reps pg); [discriminate|]. split; [reflexivity|].
  destruct cat.
  - unfold mbind, get_adata, lift, ret in Hrun.
    destruct (frame_rows _ _); [|discriminate].
    destruct (np_unique _); [|discriminate].
    destruct (fit _); discriminate.
  - unfold mbind, lift, ret in Hrun.
    destruct (fit _); [|discriminate].
    injection Hrun as <- _ _.
    exact (check_covariate_type_columns pcs w w1 false Hc).
Qed.

Variables (sample_rep : sample_rep_arg) (control_key : string)
  (perturbation_covariates : sdict pyval)
  (perturbation_covariate_reps : option (sdict string))
  (sample_covariates : option (list string))
  (sample_covariate_reps : option (sdict string))
  (split_covariates : option (list string))
  (max_combination_length : option Z)
  (null_value : num).

Local Abbreviation load :=
  (load_with sample_rep control_key perturbation_covariates
     perturbation_covariate_reps sample_covariates sample_covariate_reps
     split_covariates null_value max_combination_length).

Local Abbreviation keys :=
  (perturbation_keys perturbation_covariates sample_covariates).
Local Abbreviation splits := (TrainingData.or_default split_covariates []).

Lemma load_from_adata_semantics (w : world) :
  wp load
     (fun c w' =>
        exists rows srows,
          frame_rows (the_adata w') keys = Ok rows
          /\ frame_rows (the_adata w') splits = Ok srows
          /\ index_semantics rows srows (n_obs (the_adata w'))
               (numeric_setup (the_adata w') perturbation_covariates
                  perturbation_covariate_reps sample_covariates
                  sample_covariate_reps)
               (TrainingData.perturbation_covariates_mask c)
               (TrainingData.split_covariates_mask c)
               (TrainingData.perturbation_idx_to_covariates c)
               (TrainingData.split_idx_to_covariates c)
               (TrainingData.control_to_perturbation c))
     (fun _ _ => True) w.
Proof.
  unfold load_with, TrainingData.load_from_adata.
  apply wp_bind. unfold wp at 1.
  destruct (_verify_control_data (PStr control_key) w) as [w1 [u|e]];
    [|exact I].
  do 6 wp_pure.
  apply wp_bind. unfold wp at 1.
  match goal with
  | |- context [_get_max_combination_length ?g ?mcl w1] =>
      destruct (_get_max_combination_length g mcl w1) as [w2 [z|e]];
      [|exact I]
  end.
  destruct (_get_idx_to_covariate _) as [idx_to_covar covar_to_idx].
  apply wp_bind. unfold wp at 1.
  match goal with
  | |- context [_get_primary_covar_encoder ?g ?reps w2] =>
      destruct (_get_primary_covar_encoder g reps w2) as [w3 [enc|e]] eqn:Henc;
      [|exact I]
  end.
  wp_pure.
  apply wp_bind.
  match goal with
  | |- wp (if ?c then _ else _) _ _ _ => destruct c eqn:Hsplit
  end.
  - cbv beta. apply wp_bind, wp_lift.
    match goal with
    | |- match ?r with _ => _ end => destruct r as [srows|e] eqn:Hs; [|exact I]
    end.
    apply wp_ret. cbv beta. apply wp_bind, wp_lift.
    match goal with
    | |- match ?r with _ => _ end => destruct r as [rows|e] eqn:Hr; [|exact I]
    end.
    cbv beta. apply wp_bind, wp_lift.
    match goal with
    | |- match ?r with _ => _ end => destruct r as [st|e] eqn:Hl; [|exact I]
    end.
    do 2 wp_pure. apply wp_ret.
    cbn [TrainingData.perturbation_covariates_mask
         TrainingData.split_covariates_mask
         TrainingData.perturbation_idx_to_covariates
         TrainingData.split_idx_to_covariates
         TrainingData.control_to_perturbation].
    destruct (loops_semantics _ _ _ _ _ _ _ _ _ _ _ _ _ _ Hr
                (or_intror (ex_intro _ srows (conj Hs eq_refl))) Hl)
      as (srows' & Hs' & Hsem).
    exists rows, srows'. split; [exact Hr|]. split; [exact Hs'|].
    eapply index_semantics_weaken; [exact Hsem|].
    intro Hu. exact (encoder_usable_numeric _ _ _ _ _ _ _ Henc Hu).
  - apply wp_ret. cbv beta. apply wp_bind, wp_lift.
    match goal with
    | |- match ?r with _ => _ end => destruct r as [rows|e] eqn:Hr; [|exact I]
    end.
    cbv beta. apply wp_bind, wp_lift.
    match goal with
    | |- match ?r with _ => _ end => destruct r as [st|e] eqn:Hl; [|exact I]
    end.
    do 2 wp_pure. apply wp_ret.
    cbn [TrainingData.perturbation_covariates_mask
         TrainingData.split_covariates_mask
         TrainingData.perturbation_idx_to_covariates
         TrainingData.split_idx_to_covariates
         TrainingData.control_to_perturbation].
    assert (Hnone : splits = []).
    { destruct splits; [reflexivity | discriminate]. }
    destruct (loops_semantics _ _ _ _ _ _ _ _ _ _ _ _ _ _ Hr
                (or_introl (conj Hnone eq_refl)) Hl)
      as (srows' & Hs' & Hsem).
    exists rows, srows'. split; [exact Hr|]. split; [exact Hs'|].
    eapply index_semantics_weaken; [exact Hsem|].
    intro Hu. exact (encoder_usable_numeric _ _ _ _ _ _ _ Henc Hu).
Qed.

(** X24: in a returned container the perturbation mask labels cells by
    condition.  The index of a cell is a key of
    [perturbation_idx_to_covariates], and the values stored under it
    are the cell's own perturbation and sample covariate values; the
    keys are [0, ..., T - 1], where [T] is the number of targets listed
    in [control_to_perturbation]. *)
Theorem load_from_adata_labels_cells (w w' : world) (c : TrainingData.t) :
  load w = (w', Ok c) -> cells_labelled (the_adata w') keys c.
Proof.
  intro Hrun.
  destruct (wp_elim _ _ _ _ _ _ (load_from_adata_semantics w) Hrun)
    as (rows & srows & Hr & _ & F1 & F2 & _).
  exists rows. auto.
Qed.

(** X25: in a returned container a cell has a target index exactly
    when none of its perturbation, sample and split covariate values is
    missing; control cells are not excluded. *)
Theorem load_from_adata_assigns_complete_cells (w w' : world)
    (c : TrainingData.t) :
  load w = (w', Ok c) -> complete_cells_assigned (the_adata w') keys splits c.
Proof.
  intro Hrun.
  destruct (wp_elim _ _ _ _ _ _ (load_from_adata_semantics w) Hrun)
    as (rows & srows & Hr & Hs & _ & _ & F3 & _).
  exists rows, srows. auto.
Qed.

(** X26: the factory returns a container with at least one target
    population only for a numeric primary group without
    representations: the primary group has no entry in
    [perturbation_covariate_reps], its columns are float columns of the
    dataset after the call, and no sample covariate has a
    representation. *)
Theorem load_from_adata_requires_numeric (w w' : world) (c : TrainingData.t) :
  load w = (w', Ok c) ->
  TrainingData.perturbation_idx_to_covariates c <> [] ->
  numeric_setup (the_adata w') perturbation_covariates
    perturbation_covariate_reps sample_covariates sample_covariate_reps.
Proof.
  intros Hrun Hne.
  destruct (wp_elim _ _ _ _ _ _ (load_from_adata_semantics w) Hrun)
    as (rows & srows & _ & _ & _ & _ & _ & F4 & _).
  exact (F4 Hne).
Qed.

(** X27: in a returned container a cell has a split index exactly
    when none of its split covariate values is missing (always, without
    split covariates), and [split_idx_to_covariates] stores the cell's
    own split covariate values under that index. *)
Theorem load_from_adata_split_labels (w w' : world) (c : TrainingData.t) :
  load w = (w', Ok c) -> splits_labelled (the_adata w') splits c.
Proof.
  intro Hrun.
  destruct (wp_elim _ _ _ _ _ _ (load_from_adata_semantics w) Hrun)
    as (rows & srows & _ & Hs & _ & _ & _ & _ & F5 & F6 & _).
  exists srows. auto.
Qed.

(** X28: in a returned container the target index of every cell is
    an element of the array that [control_to_perturbation] stores under
    the cell's split index plus one. *)
Theorem load_from_adata_reachable_targets (w w' : world) (c : TrainingData.t) :
  load w = (w', Ok c) -> targets_reachable c.
Proof.
  intro Hrun.
  destruct (wp_elim _ _ _ _ _ _ (load_from_adata_semantics w) Hrun)
    as (rows & srows & _ & _ & _ & _ & _ & _ & _ & _ & F7).
  exact F7.
Qed.
End LoadIndexSemantics.

Lemma load_from_adata_labels_cells_witness :
  example_load None = (mk_world example_adata_after [], Ok example_container)
  /\ cells_labelled example_adata_after
       (perturbation_keys [("drug", PList [PStr "dose"])] None)
       example_container.
Proof.
  split; [exact example_load_none|].
  exact (@load_from_adata_labels_cells Z_Scalar (SRStr "X") "control"
           [("drug", PList [PStr "dose"])] None None None None None 0%Z
           example_world _ _ example_load_none).
Defined.

Lemma load_from_adata_assigns_complete_cells_witness :
  example_load None = (mk_world example_adata_after [], Ok example_container)
  /\ complete_cells_assigned example_adata_after
       (perturbation_keys [("drug", PList [PStr "dose"])] None) []
       example_container.
Proof.
  split; [exact example_load_none|].
  exact (@load_from_adata_assigns_complete_cells Z_Scalar (SRStr "X") "control"
           [("drug", PList [PStr "dose"])] None None None None None 0%Z
           example_world _ _ example_load_none).
Defined.

Lemma load_from_adata_requires_numeric_witness :
  example_load None = (mk_world example_adata_after [], Ok example_container)
  /\ TrainingData.perturbation_idx_to_covariates example_container <> []
  /\ numeric_setup example_adata_after [("drug", PList [PStr "dose"])]
       None None None.
Proof.
  split; [exact example_load_none|].
  assert (Hne : TrainingData.perturbation_idx_to_covariates example_container
                <> []) by discriminate.
  split; [exact Hne|].
  exact (@load_from_adata_requires_numeric Z_Scalar (SRStr "X") "control"
           [("drug", PList [PStr "dose"])] None None None None None 0%Z
           example_world _ _ example_load_none Hne).
Defined.

Lemma load_from_adata_split_labels_witness :
  example_load None = (mk_world example_adata_after [], Ok example_container)
  /\ splits_labelled example_adata_after [] example_container.
Proof.
  split; [exact example_load_none|].
  exact (@load_from_adata_split_labels Z_Scalar (SRStr "X") "control"
           [("drug", PList [PStr "dose"])] None None None None None 0%Z
           example_world _ _ example_load_none).
Defined.

Lemma load_from_adata_reachable_targets_witness :
  example_load None = (mk_world example_adata_after [], Ok example_container)
  /\ targets_reachable example_container.
Proof.
  split; [exact example_load_none|].
  exact (@load_from_adata_reachable_targets Z_Scalar (SRStr "X") "control"
           [("drug", PList [PStr "dose"])] None None None None None 0%Z
           example_world _ _ example_load_none).
Defined.
